(** * OpenPype, 3ds Max host library: metadata codec, attribute scanner and
    namespace allocator ([openpype/hosts/max/api/lib.py]).

    The Python functions [imprint], [read], [lsattr], [unique_namespace] and
    [get_namespace] are embedded as Rocq functions over an explicit scene
    state: the tree of nodes and, per node, the text of its property
    buffer.  Python text is a [string] whose characters are code points
    below 256; the [dict] that [read] builds is a [gmap string value]; the
    values the code handles dynamically form the inductive type [value].
    The host application and Python's [json] module are modelled next to
    the code that calls them. *)

From Stdlib Require Import Ascii String ZArith Decimal DecimalString.
From Stdlib Require DecimalFacts DecimalPos.
From stdpp Require Import base option list strings gmap.

Local Open Scope string_scope.
Local Open Scope Z_scope.

(** ** Python text operations used by the code *)

Module PyStr.

(** [c == d] on characters. *)
Definition ch_eqb (c d : ascii) : bool := Ascii.eqb c d.

(** [s.startswith(p)]. *)
Fixpoint startswith (p s : string) : bool :=
  match p, s with
  | EmptyString, _ => true
  | String a p', String b s' => ch_eqb a b && startswith p' s'
  | String _ _, EmptyString => false
  end.

(** [s[n:]]. *)
Fixpoint drop (n : nat) (s : string) : string :=
  match n, s with
  | O, _ => s
  | S n', String _ s' => drop n' s'
  | S _, EmptyString => EmptyString
  end.

(** [c in s] for a single character [c]. *)
Fixpoint contains_ch (c : ascii) (s : string) : bool :=
  match s with
  | EmptyString => false
  | String a s' => ch_eqb c a || contains_ch c s'
  end.

(** [s.endswith(c)] for a single character [c]. *)
Fixpoint endswith_ch (c : ascii) (s : string) : bool :=
  match s with
  | EmptyString => false
  | String a EmptyString => ch_eqb c a
  | String _ s' => endswith_ch c s'
  end.

(** Carriage return and line feed, the two characters of ["\r\n"]. *)
Definition CR : ascii := ascii_of_nat 13.
Definition LF : ascii := ascii_of_nat 10.
Definition CRLF : string := String CR (String LF EmptyString).

(** [s.split("\r\n")]: the pieces between the non-overlapping occurrences
    of the separator, found from the left; the empty text gives [[""]]. *)
Fixpoint split_crlf (s : string) : list string :=
  match s with
  | EmptyString => [EmptyString]
  | String c rest =>
      match rest with
      | String d rest' =>
          if ch_eqb c CR && ch_eqb d LF then EmptyString :: split_crlf rest'
          else match split_crlf rest with
               | l :: ls => String c l :: ls
               | [] => [String c EmptyString]
               end
      | EmptyString => [String c EmptyString]
      end
  end.

(** [s] has an occurrence of ["\r\n"]. *)
Fixpoint contains_crlf (s : string) : bool :=
  match s with
  | EmptyString => false
  | String c rest =>
      match rest with
      | String d _ => (ch_eqb c CR && ch_eqb d LF) || contains_crlf rest
      | EmptyString => false
      end
  end.

(** [s.split(c)] for a single-character separator [c]. *)
Fixpoint split_ch (c : ascii) (s : string) : list string :=
  match s with
  | EmptyString => [EmptyString]
  | String a rest =>
      if ch_eqb a c then EmptyString :: split_ch c rest
      else match split_ch c rest with
           | l :: ls => String a l :: ls
           | [] => [String a EmptyString]
           end
  end.

(** [sep.join(ls)]. *)
Fixpoint join (sep : string) (ls : list string) : string :=
  match ls with
  | [] => EmptyString
  | [l] => l
  | l :: ls' => l +:+ sep +:+ join sep ls'
  end.

(** [str.isspace] on one code point below 256: the ASCII white space
    9..13 and 28..32, and the Latin-1 code points 133 and 160. *)
Definition is_space (c : ascii) : bool :=
  let n := nat_of_ascii c in
  ((9 <=? n)%nat && (n <=? 13)%nat) || ((28 <=? n)%nat && (n <=? 32)%nat)
  || (n =? 133)%nat || (n =? 160)%nat.

(** [s.lstrip(chars)], [s.rstrip(chars)] and [s.strip(chars)], the set
    [chars] given as a predicate. *)
Fixpoint lstrip_by (P : ascii -> bool) (s : string) : string :=
  match s with
  | EmptyString => EmptyString
  | String c s' => if P c then lstrip_by P s' else s
  end.

Fixpoint rstrip_by (P : ascii -> bool) (s : string) : string :=
  match s with
  | EmptyString => EmptyString
  | String c s' =>
      match rstrip_by P s' with
      | EmptyString => if P c then EmptyString else String c EmptyString
      | r => String c r
      end
  end.

Definition strip_by (P : ascii -> bool) (s : string) : string :=
  rstrip_by P (lstrip_by P s).

(** [s.strip()]. *)
Definition strip (s : string) : string := strip_by is_space s.

(** [s.rsplit(c, 1)] when [c] occurs in [s]: the text before the last
    occurrence and the text after it; [None] when [c] does not occur. *)
Fixpoint rsplit1 (c : ascii) (s : string) : option (string * string) :=
  match s with
  | EmptyString => None
  | String a s' =>
      match rsplit1 c s' with
      | Some (p, l) => Some (String a p, l)
      | None => if ch_eqb a c then Some (EmptyString, s') else None
      end
  end.

End PyStr.

(** ** Python values *)

(** The values the code passes around: [None], booleans, integers, text,
    lists and dictionaries (insertion-ordered, keys are text).  A value
    the model does not represent -- a floating point number, or text with
    code points above 255 -- is [VOther], known by its JSON text. *)
#[warnings="-register-all"]
Inductive value : Type :=
  | VNone
  | VBool (b : bool)
  | VInt (z : Z)
  | VStr (s : string)
  | VList (l : list value)
  | VDict (d : list (string * value))
  | VOther (json : string).

(** [v == s] for a text [s] of the model: only a text equals a text. *)
Definition eq_text (v : value) (s : string) : bool :=
  match v with
  | VStr t => String.eqb t s
  | _ => false
  end.

(** The JSON text is a number literal whose value is zero: a sign, zeros
    and a point, up to the end or to an exponent. *)
Definition zero_literal (json : string) : bool :=
  let zeroish := fun c => PyStr.ch_eqb c "-" || PyStr.ch_eqb c "0" || PyStr.ch_eqb c "." in
  match json with
  | String c _ =>
      (PyStr.ch_eqb c "-" || PyStr.ch_eqb c "0") &&
      match PyStr.lstrip_by zeroish json with
      | EmptyString => true
      | String e _ => PyStr.ch_eqb e "e" || PyStr.ch_eqb e "E"
      end
  | EmptyString => false
  end.

(** Truth value of [v], as tested by [if v] and [not v]. *)
Definition truthy (v : value) : bool :=
  match v with
  | VNone => false
  | VBool b => b
  | VInt z => negb (z =? 0)
  | VStr s => negb (String.eqb s "")
  | VList l => match l with [] => false | _ => true end
  | VDict d => match d with [] => false | _ => true end
  | VOther json => negb (zero_literal json)
  end.

(** [isinstance(v, (dict, list))]. *)
Definition is_dict_or_list (v : value) : bool :=
  match v with
  | VList _ | VDict _ => true
  | _ => false
  end.

(** [d[k] = v] on a dictionary: the value of an existing key is replaced
    in place, a new key is added at the end. *)
Fixpoint dict_set (k : string) (v : value) (d : list (string * value))
  : list (string * value) :=
  match d with
  | [] => [(k, v)]
  | (k', v') :: d' =>
      if String.eqb k' k then (k', v) :: d' else (k', v') :: dict_set k v d'
  end.

(** [str(z)] for an integer: decimal digits, with a sign when negative. *)
Definition str_of_Z (z : Z) : string := NilZero.string_of_int (Z.to_int z).

(** ** The structured-value serializer ([json.dumps], [json.loads]) *)

(** Python's [json] module is not code of the repository; [dumps] and
    [loads] below follow its default behaviour on the values of the model. *)

Module Json.

Definition DQUOTE : ascii := ascii_of_nat 34.
Definition BACKSLASH : ascii := ascii_of_nat 92.

Definition hex_digit (n : nat) : ascii :=
  if (n <? 10)%nat then ascii_of_nat (48 + n) else ascii_of_nat (87 + n).

(** One character inside a JSON string, escaped as [json.dumps] does with
    [ensure_ascii]: everything outside [' '..'~'] and the two characters
    quote and backslash. *)
Definition escape_ch (c : ascii) : string :=
  let n := nat_of_ascii c in
  if (n =? 34)%nat then String BACKSLASH (String DQUOTE EmptyString)
  else if (n =? 92)%nat then String BACKSLASH (String BACKSLASH EmptyString)
  else if (n =? 10)%nat then "\n"
  else if (n =? 13)%nat then "\r"
  else if (n =? 9)%nat then "\t"
  else if (n =? 8)%nat then "\b"
  else if (n =? 12)%nat then "\f"
  else if ((32 <=? n)%nat && (n <=? 126)%nat) then String c EmptyString
  else "\u00" +:+ String (hex_digit (n / 16)) (String (hex_digit (n mod 16)) EmptyString).

Fixpoint escape (s : string) : string :=
  match s with
  | EmptyString => EmptyString
  | String c s' => escape_ch c +:+ escape s'
  end.

Definition quote (s : string) : string :=
  String DQUOTE (escape s +:+ String DQUOTE EmptyString).

(** [json.dumps(v)] with the default separators [", "] and [": "]. *)
Fixpoint dumps (v : value) : string :=
  match v with
  | VNone => "null"
  | VBool true => "true"
  | VBool false => "false"
  | VInt z => str_of_Z z
  | VStr s => quote s
  | VList l => "[" +:+ PyStr.join ", " (map dumps l) +:+ "]"
  | VDict d =>
      "{" +:+ PyStr.join ", "
                (map (fun kv => match kv with
                                | (k, x) => quote k +:+ ": " +:+ dumps x
                                end) d) +:+ "}"
  | VOther json => json
  end.

(** JSON white space: space, tab, line feed, carriage return. *)
Definition is_ws (c : ascii) : bool :=
  let n := nat_of_ascii c in
  (n =? 32)%nat || (n =? 9)%nat || (n =? 10)%nat || (n =? 13)%nat.

Definition skip_ws (s : string) : string := PyStr.lstrip_by is_ws s.

Definition hex_val (c : ascii) : option nat :=
  let n := nat_of_ascii c in
  if ((48 <=? n)%nat && (n <=? 57)%nat) then Some (n - 48)%nat
  else if ((97 <=? n)%nat && (n <=? 102)%nat) then Some (n - 87)%nat
  else if ((65 <=? n)%nat && (n <=? 70)%nat) then Some (n - 55)%nat
  else None.

(** The character an escape letter stands for. *)
Definition unescape_ch (e : ascii) : option ascii :=
  let n := nat_of_ascii e in
  if (n =? 34)%nat then Some e
  else if (n =? 92)%nat then Some e
  else if (n =? 47)%nat then Some e
  else if (n =? 98)%nat then Some (ascii_of_nat 8)
  else if (n =? 102)%nat then Some (ascii_of_nat 12)
  else if (n =? 110)%nat then Some (ascii_of_nat 10)
  else if (n =? 114)%nat then Some (ascii_of_nat 13)
  else if (n =? 116)%nat then Some (ascii_of_nat 9)
  else None.

(** The parsers below give [None] for a syntax error, and otherwise what
    was read, whether something outside the model was met (a floating
    point number, a code point above 255), and the rest of the text. *)

(** The body of a string literal, after its opening quote. *)
Fixpoint parse_string (s : string) : option (string * bool * string) :=
  match s with
  | EmptyString => None
  | String c s' =>
      let n := nat_of_ascii c in
      if (n =? 34)%nat then Some (EmptyString, false, s')
      else if (n =? 92)%nat then
        match s' with
        | String e s'' =>
            if (nat_of_ascii e =? 117)%nat then
              match s'' with
              | String h1 (String h2 (String h3 (String h4 rest))) =>
                  match hex_val h1, hex_val h2, hex_val h3, hex_val h4 with
                  | Some a, Some b, Some c2, Some d =>
                      match parse_string rest with
                      | Some (t, x, r) =>
                          if (a =? 0)%nat && (b =? 0)%nat
                          then Some (String (ascii_of_nat (16 * c2 + d)) t, x, r)
                          else Some (t, true, r)
                      | None => None
                      end
                  | _, _, _, _ => None
                  end
              | _ => None
              end
            else
              match unescape_ch e, parse_string s'' with
              | Some y, Some (t, x, r) => Some (String y t, x, r)
              | _, _ => None
              end
        | EmptyString => None
        end
      else if (n <? 32)%nat then None
      else match parse_string s' with
           | Some (t, x, r) => Some (String c t, x, r)
           | None => None
           end
  end.

Definition is_digit (c : ascii) : bool :=
  let n := nat_of_ascii c in (48 <=? n)%nat && (n <=? 57)%nat.

(** A run of decimal digits read onto the accumulator [acc]. *)
Fixpoint parse_digits (acc : Z) (s : string) : Z * string :=
  match s with
  | String c s' =>
      if is_digit c then parse_digits (10 * acc + Z.of_nat (nat_of_ascii c - 48)) s'
      else (acc, s)
  | EmptyString => (acc, s)
  end.

Definition starts_with_digit (s : string) : bool :=
  match s with
  | String c _ => is_digit c
  | EmptyString => false
  end.

(** The integer part of a number: [0], or a non-zero digit and more digits. *)
Definition parse_nat (s : string) : option (Z * string) :=
  match s with
  | String c s' =>
      if (nat_of_ascii c =? 48)%nat then Some (0, s')
      else if is_digit c then Some (parse_digits 0 s)
      else None
  | EmptyString => None
  end.

(** The optional fraction [.digits], when at the head of [s]. *)
Definition skip_fraction (s : string) : bool * string :=
  match s with
  | String c s' =>
      if (nat_of_ascii c =? 46)%nat && starts_with_digit s'
      then (true, PyStr.lstrip_by is_digit s')
      else (false, s)
  | EmptyString => (false, s)
  end.

(** The optional exponent [e], sign, digits, when at the head of [s]. *)
Definition skip_exponent (s : string) : bool * string :=
  match s with
  | String c s' =>
      if (nat_of_ascii c =? 101)%nat || (nat_of_ascii c =? 69)%nat then
        let s'' :=
          match s' with
          | String g u =>
              if (nat_of_ascii g =? 43)%nat || (nat_of_ascii g =? 45)%nat then u else s'
          | EmptyString => s'
          end in
        if starts_with_digit s'' then (true, PyStr.lstrip_by is_digit s'') else (false, s)
      else (false, s)
  | EmptyString => (false, s)
  end.

(** A number literal: the integer read, and whether a fraction or an
    exponent makes it a floating point number. *)
Definition parse_number (s : string) : option (Z * bool * string) :=
  let '(negative, s1) :=
    match s with
    | String c s' => if (nat_of_ascii c =? 45)%nat then (true, s') else (false, s)
    | EmptyString => (false, s)
    end in
  match parse_nat s1 with
  | Some (z, r) =>
      let '(f, r1) := skip_fraction r in
      let '(e, r2) := skip_exponent r1 in
      Some (if negative then - z else z, f || e, r2)
  | None => None
  end.

(** [dict(pairs)]: a repeated key keeps its place and its last value. *)
Definition dict_of_items (l : list (string * value)) : list (string * value) :=
  fold_left (fun d kv => dict_set (fst kv) (snd kv) d) l [].

(** One JSON value at the head of [s]; [fuel] bounds the number of nested
    calls. *)
Fixpoint parse_value (fuel : nat) (s : string) : option (value * bool * string) :=
  match fuel with
  | O => None
  | S f =>
      match skip_ws s with
      | String c rest as t =>
          let n := nat_of_ascii c in
          if (n =? 34)%nat then
            match parse_string rest with
            | Some (y, x, r) => Some (VStr y, x, r)
            | None => None
            end
          else if (n =? 123)%nat then
            match skip_ws rest with
            | String d r =>
                if (nat_of_ascii d =? 125)%nat then Some (VDict [], false, r)
                else match parse_members f rest with
                     | Some (l, x, r') => Some (VDict (dict_of_items l), x, r')
                     | None => None
                     end
            | EmptyString => None
            end
          else if (n =? 91)%nat then
            match skip_ws rest with
            | String d r =>
                if (nat_of_ascii d =? 93)%nat then Some (VList [], false, r)
                else match parse_elems f rest with
                     | Some (l, x, r') => Some (VList l, x, r')
                     | None => None
                     end
            | EmptyString => None
            end
          else if PyStr.startswith "null" t then Some (VNone, false, PyStr.drop 4 t)
          else if PyStr.startswith "true" t then Some (VBool true, false, PyStr.drop 4 t)
          else if PyStr.startswith "false" t then Some (VBool false, false, PyStr.drop 5 t)
          else match parse_number t with
               | Some (z, x, r) => Some (VInt z, x, r)
               | None =>
                   if PyStr.startswith "NaN" t then Some (VNone, true, PyStr.drop 3 t)
                   else if PyStr.startswith "Infinity" t then Some (VNone, true, PyStr.drop 8 t)
                   else if PyStr.startswith "-Infinity" t then Some (VNone, true, PyStr.drop 9 t)
                   else None
               end
      | EmptyString => None
      end
  end
with parse_elems (fuel : nat) (s : string) : option (list value * bool * string) :=
  match fuel with
  | O => None
  | S f =>
      match parse_value f s with
      | Some (v, x, r) =>
          match skip_ws r with
          | String d r' =>
              if (nat_of_ascii d =? 44)%nat then
                match parse_elems f r' with
                | Some (l, x', r'') => Some (v :: l, x || x', r'')
                | None => None
                end
              else if (nat_of_ascii d =? 93)%nat then Some ([v], x, r')
              else None
          | EmptyString => None
          end
      | None => None
      end
  end
with parse_members (fuel : nat) (s : string)
  : option (list (string * value) * bool * string) :=
  match fuel with
  | O => None
  | S f =>
      match skip_ws s with
      | String q s1 =>
          if (nat_of_ascii q =? 34)%nat then
            match parse_string s1 with
            | Some (k, xk, s2) =>
                match skip_ws s2 with
                | String c s3 =>
                    if (nat_of_ascii c =? 58)%nat then
                      match parse_value f s3 with
                      | Some (v, x, r) =>
                          match skip_ws r with
                          | String d r' =>
                              if (nat_of_ascii d =? 44)%nat then
                                match parse_members f r' with
                                | Some (l, x', r'') => Some ((k, v) :: l, xk || x || x', r'')
                                | None => None
                                end
                              else if (nat_of_ascii d =? 125)%nat
                              then Some ([(k, v)], xk || x, r')
                              else None
                          | EmptyString => None
                          end
                      | None => None
                      end
                    else None
                | EmptyString => None
                end
            | None => None
            end
          else None
      | EmptyString => None
      end
  end.

(** [json.loads(s)]: [None] stands for [json.JSONDecodeError].  A text
    that holds something outside the model gives [VOther] of the text. *)
Definition loads (s : string) : option value :=
  match parse_value (2 * String.length s + 2) s with
  | Some (v, x, r) =>
      match skip_ws r with
      | EmptyString => Some (if x then VOther (PyStr.strip_by is_ws s) else v)
      | String _ _ => None
      end
  | None => None
  end.

End Json.

(** ** The scene graph and the per-node property store *)

(** A scene node: the identity of the host object ([Handle]), its name and
    its children.  The graph is a tree. *)
#[warnings="-register-all"]
Inductive node : Type :=
  mkNode { Handle : nat; Name : string; Children : list node }.

(** The scene: the tree under the root node and, for each node handle, the
    text of its user property buffer (mutable state of the host). *)
Record scene : Type :=
  mkScene { RootNode : node; UserPropBuffers : gmap nat string }.

(** What a Python call gives: a returned value or a raised exception. *)
Inductive exn : Type :=
  | RuntimeError (msg : string)
  | AttributeError.

Inductive outcome (A : Type) : Type :=
  | Return (a : A)
  | Raise (e : exn).

Arguments Return {A} a.
Arguments Raise {A} e.

Definition JSON_PREFIX : string := "JSON::".

(** The inner function [output_node] of [lsattr]: append the node, then
    the nodes under each child in turn. *)
Fixpoint output_node (n : node) (nodes : list node) : list node :=
  fold_left (fun acc child => output_node child acc) (Children n) (nodes ++ [n])%list.

Module Host.

(** The node graph provider and the property store provider are the host
    application (the pymxs runtime), not code of the repository; they are
    modelled from section 6 of the specification. *)

(** Modelled from the spec: the nodes of the scene, the root first. *)
Definition scene_nodes (s : scene) : list node := output_node (RootNode s) [].

(** Modelled from the spec: [findNodeByName(name)], the first scene node
    with that name, or nothing. *)
Definition GetNodeByName (s : scene) (name : string) : option node :=
  List.find (fun n => String.eqb (Name n) name) (scene_nodes s).

(** Modelled from the spec: [getRawBuffer(node)], the text of the property
    buffer, empty when the node has none. *)
Definition GetUserPropBuffer (s : scene) (n : node) : string :=
  default EmptyString (UserPropBuffers s !! Handle n).

(** Modelled from the spec: the key a buffer line defines, the trimmed
    text before its first [=]. *)
Definition line_key (line : string) : option string :=
  match PyStr.split_ch "=" line with
  | k :: _ :: _ => Some (PyStr.strip k)
  | _ => None
  end.

Definition defines (k line : string) : bool :=
  match line_key line with
  | Some k' => String.eqb k' k
  | None => false
  end.

(** Modelled from the spec: the text the host stores for a scalar, which
    is passed through unchanged: text as it is, booleans as the MAXScript
    literals, integers in decimal, [None] as [undefined].
    ([imprint] never passes a list or a dictionary; the properties below
    leave out the values outside the model.) *)
Definition scalar_text (v : value) : string :=
  match v with
  | VStr t => t
  | VBool true => "true"
  | VBool false => "false"
  | VInt z => str_of_Z z
  | VNone => "undefined"
  | VList _ | VDict _ | VOther _ => Json.dumps v
  end.

(** Modelled from the spec: the buffer after [setProperty].  The lines
    are [key=value] separated by CRLF; the lines of an existing key are
    overwritten, a new key gets a new line, other lines are untouched. *)
Definition set_line (buf k text : string) : string :=
  let lines := PyStr.split_crlf buf in
  let new := k +:+ "=" +:+ text in
  if existsb (defines k) lines
  then PyStr.join PyStr.CRLF (map (fun l => if defines k l then new else l) lines)
  else match buf with
       | EmptyString => new
       | String _ _ => buf +:+ PyStr.CRLF +:+ new
       end.

(** Modelled from the spec: [setProperty(node, key, scalarValue)]. *)
Definition SetUserProp (s : scene) (n : node) (k : string) (v : value) : scene :=
  mkScene (RootNode s)
          (<[Handle n := set_line (GetUserPropBuffer s n) k (scalar_text v)]>
             (UserPropBuffers s)).

(** Modelled from the spec: one way the host can answer
    [getProperty(node, key)], with the text of the last line that defines
    the key and [None] when no line does.  ([lsattr] and [get_namespace]
    below are stated for any such function.) *)
Definition GetUserProp (s : scene) (n : node) (k : string) : value :=
  match List.find (defines k) (rev (PyStr.split_crlf (GetUserPropBuffer s n))) with
  | Some line =>
      VStr (PyStr.strip (PyStr.drop 1 (PyStr.lstrip_by (fun c => negb (PyStr.ch_eqb c "=")) line)))
  | None => VNone
  end.

End Host.

(** ** MetadataCodec: [imprint] and [read] *)

(** Body of the loop of [imprint] for one item of [data]. *)
Definition imprint_item (node0 : node) (s : scene) (kv : string * value) : scene :=
  let '(k, v) := kv in
  if is_dict_or_list v
  then Host.SetUserProp s node0 k (VStr (JSON_PREFIX +:+ Json.dumps v))
  else Host.SetUserProp s node0 k v.

(** [imprint(node_name, data)]: the returned boolean and the scene after
    the call.  [data.items()] is the list of items in insertion order. *)
Definition imprint (s : scene) (node_name : string) (data : list (string * value))
  : bool * scene :=
  match Host.GetNodeByName s node_name with
  | None => (false, s)
  | Some node0 => (true, fold_left (imprint_item node0) data s)
  end.

(** A value that carries the marker is replaced by the parsed JSON; a
    [json.JSONDecodeError] is suppressed and leaves the text as it is. *)
Definition parse_marked (value1 : string) : value :=
  if PyStr.startswith JSON_PREFIX value1
  then match Json.loads (PyStr.drop (String.length JSON_PREFIX) value1) with
       | Some j => j
       | None => VStr value1
       end
  else VStr value1.

(** The conversion of the MAXScript boolean literals. *)
Definition convert_boolean (value2 : value) : value :=
  if eq_text value2 "true" then VBool true
  else if eq_text value2 "false" then VBool false
  else value2.

(** Body of the loop of [read] for one line: [data] after the line.  A
    line that does not split into two parts at [=] is skipped. *)
Definition read_line (data : gmap string value) (line : string) : gmap string value :=
  match PyStr.split_ch "=" line with
  | [key; value0] =>
      let value1 := PyStr.strip value0 in
      let value2 := parse_marked value1 in
      let value3 := convert_boolean value2 in
      <[PyStr.strip key := value3]> data
  | _ => data
  end.

(** The line assigns the key [k] in [read]. *)
Definition line_binds (k line : string) : bool :=
  match PyStr.split_ch "=" line with
  | [key; _] => String.eqb (PyStr.strip key) k
  | _ => false
  end.

(** The mapping [read] builds from the lines of a buffer text. *)
Definition parse_buffer (props : string) : gmap string value :=
  fold_left read_line (PyStr.split_crlf props) ∅.

(** [read(container)]. *)
Definition read (s : scene) (container : node) : gmap string value :=
  match Host.GetUserPropBuffer s container with
  | EmptyString => ∅
  | String _ _ as props =>
      <["instance_node" := VStr (Name container)]> (parse_buffer props)
  end.

(** ** AttributeScanner and namespace lookup, for any host [getProperty] *)

Section WithGetUserProp.

Variable GetUserProp : scene -> node -> string -> value.

(** [lsattr(attr, value, root)]; an absent [value] or [root] is [None].
    With a root name that names no node, [output_node] is applied to
    [None] and reading [None.Children] raises [AttributeError]. *)
Definition lsattr (s : scene) (attr : string) (value0 root : option string)
  : outcome (list node) :=
  let root1 :=
    match root with
    | None => Some (RootNode s)
    | Some r => Host.GetNodeByName s r
    end in
  match root1 with
  | None => Raise AttributeError
  | Some r =>
      let nodes := output_node r [] in
      match value0 with
      | Some (String _ _ as v) =>
          Return (List.filter (fun n => eq_text (GetUserProp s n attr) v) nodes)
      | _ =>
          Return (List.filter (fun n => truthy (GetUserProp s n attr)) nodes)
      end
  end.

(** [get_namespace(container_name)]. *)
Definition get_namespace (s : scene) (container_name : string)
  : outcome (value * value) :=
  match Host.GetNodeByName s container_name with
  | None => Raise (RuntimeError "Master Container Not Found..")
  | Some node0 =>
      let name := GetUserProp s node0 "name" in
      let namespace := GetUserProp s node0 "namespace" in
      Return (namespace, name)
  end.

End WithGetUserProp.

(** ** NamespaceAllocator: [unique_namespace] *)

(** ["%02d" % i]: decimal, padded with a zero to two characters. *)
Definition format_02d (i : nat) : string :=
  let t := str_of_Z (Z.of_nat i) in
  if (String.length t <? 2)%nat then "0" +:+ t else t.

(** The inner function [current_namespace]. *)
Definition current_namespace (namespace : string) : string :=
  if PyStr.endswith_ch ":" namespace then namespace else namespace +:+ ":".

(** The name probed at one iteration: [f"{unique}:{namespace}{con_suffix}"]. *)
Definition unique_of (namespace : string) (format : nat -> string)
    (prefix suffix : string) (iteration : nat) : string :=
  let nr_namespace := namespace +:+ format iteration in
  prefix +:+ nr_namespace +:+ suffix.

Definition container_name_of (namespace : string) (format : nat -> string)
    (prefix suffix con_suffix : string) (iteration : nat) : string :=
  unique_of namespace format prefix suffix iteration +:+ ":" +:+ namespace +:+ con_suffix.

(** The [while] loop of [unique_namespace], from [iteration] on; the loop
    has no bound in the source, [fuel] bounds the number of rounds and
    [None] means the rounds ran out. *)
Fixpoint unique_namespace_loop (fuel : nat) (s : scene) (namespace : string)
    (format : nat -> string) (prefix suffix con_suffix start end_ : string)
    (iteration : nat) : option string :=
  match fuel with
  | O => None
  | S fuel' =>
      let unique := unique_of namespace format prefix suffix iteration in
      let container_name :=
        container_name_of namespace format prefix suffix con_suffix iteration in
      match Host.GetNodeByName s container_name with
      | None => Some (start +:+ unique +:+ end_)
      | Some _ =>
          unique_namespace_loop fuel' s namespace format prefix suffix con_suffix
            start end_ (S iteration)
      end
  end.

(** What [unique_namespace] computes before its loop: [start], [end],
    the namespace left to number, and [ROOT] (which the loop never reads). *)
Definition namespace_parts (namespace : string) : string * string * string * string :=
  let ROOT := if PyStr.startswith ":" namespace then ":" else current_namespace namespace in
  let start := if PyStr.startswith ":" namespace then ":" else EmptyString in
  let end_ := if PyStr.endswith_ch ":" namespace then ":" else EmptyString in
  let namespace1 := PyStr.strip_by (PyStr.ch_eqb ":") namespace in
  match PyStr.rsplit1 ":" namespace1 with
  | Some (parents, namespace2) =>
      let start1 := start +:+ parents +:+ ":" in
      (start1, end_, namespace2, ROOT +:+ start1)
  | None => (start, end_, namespace1, ROOT)
  end.

(** [unique_namespace(namespace, format, prefix, suffix, con_suffix)];
    [format i] stands for [format % i]. *)
Definition unique_namespace (fuel : nat) (s : scene) (namespace : string)
    (format : nat -> string) (prefix suffix con_suffix : string) : option string :=
  let '(start, end_, namespace1, _) := namespace_parts namespace in
  unique_namespace_loop fuel s namespace1 format prefix suffix con_suffix start end_ 1.

(** ** The traversal in the words of the specification *)

(** Depth-first pre-order: the node, then the pre-order of each child in
    turn.  ([output_node] above is the code; this is what it is compared
    with.) *)
Fixpoint preorder (n : node) : list node :=
  n :: flat_map preorder (Children n).

(** The node reached from [n] along a path, the list of the positions of
    the children to go through. *)
Fixpoint node_at (n : node) (path : list nat) : option node :=
  match path with
  | [] => Some n
  | i :: path' =>
      match nth_error (Children n) i with
      | Some c => node_at c path'
      | None => None
      end
  end.

(** The paths of the nodes under the children [cs], the first of which is
    at position [i], given the paths [f c] under each child. *)
Definition child_paths (f : node -> list (list nat)) : nat -> list node -> list (list nat) :=
  fix go (i : nat) (cs : list node) : list (list nat) :=
    match cs with
    | [] => []
    | c :: cs' => (map (cons i) (f c) ++ go (S i) cs')%list
    end.

(** The paths of all the nodes of the tree under [n], in pre-order. *)
Fixpoint preorder_paths (n : node) : list (list nat) :=
  [] :: child_paths preorder_paths 0 (Children n).

(** [d] is [n] or a descendant of [n]. *)
Inductive in_tree (d : node) : node -> Prop :=
  | in_tree_here : in_tree d d
  | in_tree_child (n c : node) : In c (Children n) -> in_tree d c -> in_tree d n.

(** ** Notions the properties are stated with *)

(** The text [imprint] hands to the host for a value. *)
Definition stored_text (v : value) : string :=
  if is_dict_or_list v
  then Host.scalar_text (VStr (JSON_PREFIX +:+ Json.dumps v))
  else Host.scalar_text v.

(** What [read] makes of a stored text. *)
Definition decode_text (text : string) : value :=
  convert_boolean (parse_marked (PyStr.strip text)).

(** A text that fits on one side of a [key=value] line as it is: no
    [=], no line separator, no white space at either end. *)
Definition plain_text (t : string) : Prop :=
  PyStr.contains_ch "=" t = false /\
  PyStr.contains_crlf t = false /\
  PyStr.strip t = t.

(** The text after a JSON value inside a list or dictionary, or at the
    end: nothing, or a comma or a closing bracket first. *)
Definition delimited (rest : string) : bool :=
  match rest with
  | EmptyString => true
  | String c _ =>
      let n := nat_of_ascii c in (n =? 44)%nat || (n =? 93)%nat || (n =? 125)%nat
  end.

(** The keys are pairwise different. *)
Fixpoint distinct (ks : list string) : bool :=
  match ks with
  | [] => true
  | k :: ks' => negb (existsb (String.eqb k) ks') && distinct ks'
  end.

(** The value is a Python value that the model represents, all the way
    down: nothing outside the model, and dictionaries with distinct keys. *)
Fixpoint modelled (v : value) : bool :=
  match v with
  | VOther _ => false
  | VList l => forallb modelled l
  | VDict d =>
      distinct (map fst d) &&
      forallb (fun kv => match kv with (_, x) => modelled x end) d
  | _ => true
  end.

(** A number of nested calls that is enough for [Json.parse_value] to read
    the JSON text of a value. *)
Definition elems_fuel (f : value -> nat) : list value -> nat :=
  fix go (l : list value) : nat :=
    match l with
    | [] => O
    | x :: l' => S (Nat.max (f x) (go l'))
    end.

Definition members_fuel (f : value -> nat) : list (string * value) -> nat :=
  fix go (d : list (string * value)) : nat :=
    match d with
    | [] => O
    | (_, x) :: d' => S (Nat.max (f x) (go d'))
    end.

Fixpoint fuel_needed (v : value) : nat :=
  match v with
  | VList l => S (elems_fuel fuel_needed l)
  | VDict d => S (members_fuel fuel_needed d)
  | _ => 1%nat
  end.

(** [Json.parse_value] reads the JSON text of [v] back as [v], whatever
    delimited text follows, given enough nested calls. *)
Definition reads_back (v : value) : Prop :=
  modelled v = true ->
  forall (fuel : nat) (rest : string),
    (fuel_needed v <= fuel)%nat -> delimited rest = true ->
    Json.parse_value fuel (Json.dumps v +:+ rest) = Some (v, false, rest).

(** The first character of a JSON text that [json.dumps] writes. *)
Definition json_head (c : ascii) : bool :=
  let n := nat_of_ascii c in
  Json.is_digit c || (n =? 45)%nat || (n =? 34)%nat || (n =? 91)%nat || (n =? 123)%nat
  || (n =? 110)%nat || (n =? 116)%nat || (n =? 102)%nat.

(** An item whose key and stored text fit on a [key=value] line: the key
    is plain, the value is of the model, the stored text holds no [=] and
    no line separator. *)
Definition line_safe (kv : string * value) : Prop :=
  plain_text (fst kv) /\
  modelled (snd kv) = true /\
  PyStr.contains_ch "=" (stored_text (snd kv)) = false /\
  PyStr.contains_crlf (stored_text (snd kv)) = false.

(** Every character of [s] satisfies [P]. *)
Fixpoint all_ch (P : ascii -> bool) (s : string) : bool :=
  match s with
  | EmptyString => true
  | String c s' => P c && all_ch P s'
  end.

(** The characters of a decimal integer, and the printable ASCII ones. *)
Definition is_sign_or_digit (c : ascii) : bool :=
  Json.is_digit c || PyStr.ch_eqb c "-".

Definition is_printable (c : ascii) : bool :=
  let n := nat_of_ascii c in (32 <=? n)%nat && (n <=? 126)%nat.

(** What [read] returns for a value that [imprint] stored: an integer
    comes back as its decimal text; text, booleans, lists and dictionaries
    come back as they were. *)
Definition read_back (v : value) : value :=
  match v with
  | VInt z => VStr (str_of_Z z)
  | _ => v
  end.

(** The values that survive the line format: a text must be plain, not
    start with the marker and not be a boolean literal; a list or
    dictionary must be of the model and its JSON text must hold no [=]. *)
Definition storable (v : value) : Prop :=
  match v with
  | VStr t =>
      plain_text t /\ PyStr.startswith JSON_PREFIX t = false /\
      t <> "true" /\ t <> "false"
  | VList _ | VDict _ =>
      modelled v = true /\ PyStr.contains_ch "=" (Json.dumps v) = false
  | VBool _ | VInt _ => True
  | VNone | VOther _ => False
  end.

(** ** Scenes used as concrete inputs *)

Definition ex_container : node := mkNode 1 "con" [].
Definition ex_root : node := mkNode 0 "root" [ex_container].

(** A scene with one container, whose property buffer is [buf]. *)
Definition ex_scene (buf : string) : scene := mkScene ex_root {[1%nat := buf]}.

(** The same scene with no property buffer at all. *)
Definition ex_bare_scene : scene := mkScene ex_root ∅.

(** A scene whose nodes under the root have the given names. *)
Definition ex_named_scene (names : list string) : scene :=
  mkScene (mkNode 0 "root" (imap (fun i nm => mkNode (S i) nm []) names)) ∅.

(** A scene three levels deep: [a], [c] and [e] carry the property [foo]. *)
Definition ex_node_c : node := mkNode 3 "c" [].
Definition ex_node_b : node := mkNode 2 "b" [ex_node_c].
Definition ex_node_a : node := mkNode 1 "a" [ex_node_b].
Definition ex_node_e : node := mkNode 5 "e" [].
Definition ex_node_d : node := mkNode 4 "d" [ex_node_e].

Definition ex_deep_scene : scene :=
  mkScene (mkNode 0 "root" [ex_node_a; ex_node_d])
          (<[1%nat := "foo=x"]> (<[3%nat := "foo=y"]> (<[4%nat := "bar=z"]>
             (<[5%nat := "bar=1" +:+ PyStr.CRLF +:+ "foo=x"]> ∅)))).

(** * The rest of the library *)

(** ** Exceptions and results of the functions below *)

Inductive py_error : Type :=
  | TypeError
  | KeyError (key : string)
  | IndexError
  | UnboundLocalError (name : string)
  | NoAttribute.

(** What a call gives: its result, or the exception it raised. *)
Inductive result (A : Type) : Type :=
  | Done (a : A)
  | Raised (e : py_error).

Arguments Done {A} a.
Arguments Raised {A} e.

(** ** [get_all_children] *)

(** The class of a scene object, as [rt.SuperClassOf] gives it and as the
    caller names it ([rt.GeometryClass], ...). *)
Inductive max_class : Type := MaxClass (name : string).

Definition max_class_eqb (a b : max_class) : bool :=
  match a, b with
  | MaxClass x, MaxClass y => String.eqb x y
  end.

(** The inner function [list_children]: each child, followed by what is
    under it. *)
Fixpoint list_children (n : node) : list node :=
  fold_left (fun children c => ((children ++ [c]) ++ list_children c)%list)
            (Children n) [].

Section WithSuperClassOf.

Variable SuperClassOf : node -> max_class.

(** [get_all_children(parent, node_type)]; an absent [node_type] is
    [None]. *)
Definition get_all_children (parent : node) (node_type : option max_class)
  : list node :=
  let child_list := list_children parent in
  match node_type with
  | Some t => List.filter (fun x => max_class_eqb (SuperClassOf x) t) child_list
  | None => child_list
  end.

End WithSuperClassOf.

(** ** Render settings: frame range, resolution, colour management *)

(** The globals of the host the functions read and write. *)
Record max_settings : Type := mkSettings {
  rendTimeType : Z;
  rendStart : Z;
  rendEnd : Z;
  animationRange : Z * Z;
  frameRate : Z;
  renderWidth : Z;
  renderHeight : Z;
  renderSceneDialog_isOpen : bool;
  MaxVersion : list Z;
  ColorPipelineMgr_Mode : string;
  ColorPipelineMgr_OCIOConfigPath : string
}.

Definition set_rendTimeType (x : Z) (st : max_settings) : max_settings :=
  mkSettings x (rendStart st) (rendEnd st) (animationRange st) (frameRate st)
    (renderWidth st) (renderHeight st) (renderSceneDialog_isOpen st) (MaxVersion st)
    (ColorPipelineMgr_Mode st) (ColorPipelineMgr_OCIOConfigPath st).

Definition set_rendStart (x : Z) (st : max_settings) : max_settings :=
  mkSettings (rendTimeType st) x (rendEnd st) (animationRange st) (frameRate st)
    (renderWidth st) (renderHeight st) (renderSceneDialog_isOpen st) (MaxVersion st)
    (ColorPipelineMgr_Mode st) (ColorPipelineMgr_OCIOConfigPath st).

Definition set_rendEnd (x : Z) (st : max_settings) : max_settings :=
  mkSettings (rendTimeType st) (rendStart st) x (animationRange st) (frameRate st)
    (renderWidth st) (renderHeight st) (renderSceneDialog_isOpen st) (MaxVersion st)
    (ColorPipelineMgr_Mode st) (ColorPipelineMgr_OCIOConfigPath st).

Definition set_animationRange (x : Z * Z) (st : max_settings) : max_settings :=
  mkSettings (rendTimeType st) (rendStart st) (rendEnd st) x (frameRate st)
    (renderWidth st) (renderHeight st) (renderSceneDialog_isOpen st) (MaxVersion st)
    (ColorPipelineMgr_Mode st) (ColorPipelineMgr_OCIOConfigPath st).

Definition set_frameRate (x : Z) (st : max_settings) : max_settings :=
  mkSettings (rendTimeType st) (rendStart st) (rendEnd st) (animationRange st) x
    (renderWidth st) (renderHeight st) (renderSceneDialog_isOpen st) (MaxVersion st)
    (ColorPipelineMgr_Mode st) (ColorPipelineMgr_OCIOConfigPath st).

Definition set_renderWidth (x : Z) (st : max_settings) : max_settings :=
  mkSettings (rendTimeType st) (rendStart st) (rendEnd st) (animationRange st)
    (frameRate st) x (renderHeight st) (renderSceneDialog_isOpen st) (MaxVersion st)
    (ColorPipelineMgr_Mode st) (ColorPipelineMgr_OCIOConfigPath st).

Definition set_renderHeight (x : Z) (st : max_settings) : max_settings :=
  mkSettings (rendTimeType st) (rendStart st) (rendEnd st) (animationRange st)
    (frameRate st) (renderWidth st) x (renderSceneDialog_isOpen st) (MaxVersion st)
    (ColorPipelineMgr_Mode st) (ColorPipelineMgr_OCIOConfigPath st).

Definition set_renderSceneDialog_isOpen (x : bool) (st : max_settings) : max_settings :=
  mkSettings (rendTimeType st) (rendStart st) (rendEnd st) (animationRange st)
    (frameRate st) (renderWidth st) (renderHeight st) x (MaxVersion st)
    (ColorPipelineMgr_Mode st) (ColorPipelineMgr_OCIOConfigPath st).

Definition set_Mode (x : string) (st : max_settings) : max_settings :=
  mkSettings (rendTimeType st) (rendStart st) (rendEnd st) (animationRange st)
    (frameRate st) (renderWidth st) (renderHeight st) (renderSceneDialog_isOpen st)
    (MaxVersion st) x (ColorPipelineMgr_OCIOConfigPath st).

Definition set_OCIOConfigPath (x : string) (st : max_settings) : max_settings :=
  mkSettings (rendTimeType st) (rendStart st) (rendEnd st) (animationRange st)
    (frameRate st) (renderWidth st) (renderHeight st) (renderSceneDialog_isOpen st)
    (MaxVersion st) (ColorPipelineMgr_Mode st) x.

(** [set_render_frame_range(start_frame, end_frame)]; the frames are
    integers or [None]. *)
Definition set_render_frame_range (st : max_settings) (start_frame end_frame : option Z)
  : max_settings :=
  let st1 := set_rendTimeType 3 st in
  match start_frame, end_frame with
  | Some a, Some b => set_rendEnd b (set_rendStart a st1)
  | _, _ => st1
  end.

(** [set_timeline(frameStart, frameEnd)]: the state after the call and the
    interval returned. *)
Definition set_timeline (st : max_settings) (frameStart frameEnd : Z)
  : max_settings * (Z * Z) :=
  let st1 := set_animationRange (frameStart, frameEnd) st in
  (st1, animationRange st1).

(** The dictionary [get_frame_range] returns, with its four fixed keys. *)
Record frame_range : Type := mkFrameRange {
  frameStart : Z; frameEnd : Z; handleStart : Z; handleEnd : Z }.

(** [get_frame_range()], given the [data] of the current asset (integers
    by key); [None] is the bare [return]. *)
Definition get_frame_range (asset_data : gmap string Z) : option frame_range :=
  match asset_data !! "frameStart", asset_data !! "frameEnd" with
  | Some frame_start, Some frame_end =>
      let handle_start := default 0 (asset_data !! "handleStart") in
      let handle_end := default 0 (asset_data !! "handleEnd") in
      Some (mkFrameRange frame_start frame_end handle_start handle_end)
  | _, _ => None
  end.

(** [reset_frame_range(fps)], given the [data] of the current project and
    of the current asset.  The frame rate is the float of an integer and is
    kept as that integer.  Subscripting the [None] that [get_frame_range]
    returned raises [TypeError]. *)
Definition reset_frame_range (st : max_settings)
    (project_data asset_data : gmap string Z) (fps : bool)
  : max_settings * result unit :=
  let after_fps :=
    if fps then
      match project_data !! "fps" with
      | Some fps_number => Done (set_frameRate fps_number st)
      | None => Raised (KeyError "fps")
      end
    else Done st in
  match after_fps with
  | Raised e => (st, Raised e)
  | Done st1 =>
      match get_frame_range asset_data with
      | None => (st1, Raised TypeError)
      | Some fr =>
          let frame_start_handle := frameStart fr - handleStart fr in
          let frame_end_handle := frameEnd fr + handleEnd fr in
          let st2 := fst (set_timeline st1 frame_start_handle frame_end_handle) in
          (set_render_frame_range st2 (Some frame_start_handle) (Some frame_end_handle),
           Done tt)
      end
  end.

(** [set_scene_resolution(width, height)]. *)
Definition set_scene_resolution (st : max_settings) (width height : Z) : max_settings :=
  let st1 :=
    if renderSceneDialog_isOpen st then set_renderSceneDialog_isOpen false st else st in
  set_renderHeight height (set_renderWidth width st1).

(** [reset_scene_resolution()], given the [data] of the current project and
    of the current asset. *)
Definition reset_scene_resolution (st : max_settings)
    (project_resolution_data asset_resolution_data : gmap string Z) : max_settings :=
  let project_width := default 1920 (project_resolution_data !! "resolutionWidth") in
  let project_height := default 1080 (project_resolution_data !! "resolutionHeight") in
  let width := default project_width (asset_resolution_data !! "resolutionWidth") in
  let height := default project_height (asset_resolution_data !! "resolutionHeight") in
  set_scene_resolution st width height.

(** [get_max_version()]: the eighth component of [rt.MaxVersion()]. *)
Definition get_max_version (st : max_settings) : result Z :=
  match nth_error (MaxVersion st) 7 with
  | Some y => Done y
  | None => Raised IndexError
  end.

(** [reset_colorspace()], given what [colorspace.get_imageio_config]
    returns: a dictionary, empty when there is no configuration.  The name
    [ocio_config_path] is bound only inside the [if]. *)
Definition reset_colorspace (st : max_settings) (max_config_data : gmap string string)
  : max_settings * result unit :=
  match get_max_version st with
  | Raised e => (st, Raised e)
  | Done version =>
      if version <? 2024 then (st, Done tt)
      else if bool_decide (max_config_data = ∅) then
        (st, Raised (UnboundLocalError "ocio_config_path"))
      else
        match max_config_data !! "path" with
        | None => (st, Raised (KeyError "path"))
        | Some ocio_config_path =>
            let st1 := set_Mode "OCIO_Custom" st in
            let st2 := set_OCIOConfigPath ocio_config_path st1 in
            (set_OCIOConfigPath ocio_config_path st2, Done tt)
        end
  end.

(** [set_context_setting()], given the [data] of the current project and
    asset and the colour configuration: the three resets in turn, an
    exception ending the call. *)
Definition set_context_setting (st : max_settings)
    (project_data asset_data : gmap string Z) (max_config_data : gmap string string)
  : max_settings * result unit :=
  let st1 := reset_scene_resolution st project_data asset_data in
  match reset_frame_range st1 project_data asset_data true with
  | (st2, Raised e) => (st2, Raised e)
  | (st2, Done _) => reset_colorspace st2 max_config_data
  end.

(** ** [object_transform_set] *)

Section WithTransforms.

(** The position and the scale of a node, as the host gives them. *)
Variables (pos scale : node -> value).

(** [object_transform_set(container_children)]. *)
Definition object_transform_set (container_children : list node) : gmap string value :=
  fold_left
    (fun transform_set n =>
       <[Name n +:+ ".scale" := scale n]>
         (<[Name n +:+ ".transform" := pos n]> transform_set))
    container_children ∅.

End WithTransforms.

(** The last character of a text. *)
Fixpoint last_ch (s : string) : option ascii :=
  match s with
  | EmptyString => None
  | String c EmptyString => Some c
  | String _ s' => last_ch s'
  end.

(** ** [viewport_camera] and [viewport_preference_setting] *)

(** The user-interface state the two context managers touch: the camera of
    the active viewport (none when the view is not a camera view), its grid
    visibility and background mode, and the attributes of
    [rt.ViewportButtonMgr], of the active Nitrous viewport setting and of
    [rt.preferences], by name. *)
Record ui_state : Type := mkUi {
  viewport_camera_node : option node;
  grid_visibility : value;
  solid_background : value;
  ViewportButtonMgr : gmap string value;
  viewport_setting : gmap string value;
  preferences : gmap string value
}.

Definition setCamera (c : option node) (ui : ui_state) : ui_state :=
  mkUi c (grid_visibility ui) (solid_background ui) (ViewportButtonMgr ui)
    (viewport_setting ui) (preferences ui).

Definition setGridVisibility (g : value) (ui : ui_state) : ui_state :=
  mkUi (viewport_camera_node ui) g (solid_background ui) (ViewportButtonMgr ui)
    (viewport_setting ui) (preferences ui).

Definition EnableSolidBackgroundColorMode (b : value) (ui : ui_state) : ui_state :=
  mkUi (viewport_camera_node ui) (grid_visibility ui) b (ViewportButtonMgr ui)
    (viewport_setting ui) (preferences ui).

Definition set_ViewportButtonMgr (m : gmap string value) (ui : ui_state) : ui_state :=
  mkUi (viewport_camera_node ui) (grid_visibility ui) (solid_background ui) m
    (viewport_setting ui) (preferences ui).

Definition set_viewport_setting (m : gmap string value) (ui : ui_state) : ui_state :=
  mkUi (viewport_camera_node ui) (grid_visibility ui) (solid_background ui)
    (ViewportButtonMgr ui) m (preferences ui).

Definition set_preferences (m : gmap string value) (ui : ui_state) : ui_state :=
  mkUi (viewport_camera_node ui) (grid_visibility ui) (solid_background ui)
    (ViewportButtonMgr ui) (viewport_setting ui) m.

(** [with viewport_camera(camera): body].  The body is any code: from the
    state it is entered in it gives the state it leaves and the exception it
    raised, if any.  The result is the state after the [finally] block and
    the exception that leaves the [with].  Reading an attribute the object
    does not have raises. *)
Definition viewport_camera (s : scene) (ui : ui_state) (camera : string)
    (body : ui_state -> ui_state * option py_error)
  : ui_state * option py_error :=
  let original := viewport_camera_node ui in
  match preferences ui !! "playPreviewWhenDone" with
  | None => (ui, Some NoAttribute)
  | Some has_autoplay =>
      let original1 :=
        match original with
        | Some _ => original
        | None => Host.GetNodeByName s camera
        end in
      let review_camera := Host.GetNodeByName s camera in
      let ui1 := setCamera review_camera ui in
      let ui2 :=
        set_preferences (<["playPreviewWhenDone" := VBool false]> (preferences ui1)) ui1 in
      let '(ui3, raised) := body ui2 in
      let ui4 := setCamera original1 ui3 in
      let ui5 :=
        set_preferences (<["playPreviewWhenDone" := has_autoplay]> (preferences ui4)) ui4 in
      (ui5, raised)
  end.

(** [{key: getattr(obj, key) for key in keys}], the items in the order of
    the keys. *)
Fixpoint getattrs (obj : gmap string value) (keys : list string)
  : result (list (string * value)) :=
  match keys with
  | [] => Done []
  | key :: keys' =>
      match obj !! key with
      | None => Raised NoAttribute
      | Some v =>
          match getattrs obj keys' with
          | Done items => Done ((key, v) :: items)
          | Raised e => Raised e
          end
      end
  end.

(** [for key, value in items: setattr(obj, key, value)]. *)
Definition setattrs (obj : gmap string value) (items : list (string * value))
  : gmap string value :=
  fold_left (fun o kv => <[fst kv := snd kv]> o) items obj.

(** [d[key]] on the items of a dictionary. *)
Fixpoint getitem (d : list (string * value)) (key : string) : option value :=
  match d with
  | [] => None
  | (k, v) :: d' => if String.eqb k key then Some v else getitem d' key
  end.

Section WithNe.

(** [a != b] on the values of the host. *)
Variable ne : value -> value -> bool.

(** The loop over [nitrous_viewport.items()]: an attribute is set only
    when the wanted value differs from the saved one. *)
Fixpoint setattrs_changed (obj : gmap string value)
    (nitrous_viewport nitrous_viewport_original items : list (string * value))
  : gmap string value * option py_error :=
  match items with
  | [] => (obj, None)
  | (key, value0) :: items' =>
      match getitem nitrous_viewport key with
      | None => (obj, Some (KeyError key))
      | Some wanted =>
          match getitem nitrous_viewport_original key with
          | None => (obj, Some (KeyError key))
          | Some saved =>
              setattrs_changed
                (if ne wanted saved then <[key := value0]> obj else obj)
                nitrous_viewport nitrous_viewport_original items'
          end
      end
  end.

(** [with viewport_preference_setting(camera, general_viewport,
    nitrous_viewport, vp_button_mgr, preview_preferences): body].  A
    dictionary that is iterated is the list of its items, in order;
    [general_viewport] is only subscripted. *)
Definition viewport_preference_setting (s : scene) (ui : ui_state) (camera : string)
    (general_viewport : gmap string value)
    (nitrous_viewport vp_button_mgr preview_preferences : list (string * value))
    (body : ui_state -> ui_state * option py_error)
  : ui_state * option py_error :=
  let review_camera := Host.GetNodeByName s camera in
  let orig_vp_grid := grid_visibility ui in
  let orig_vp_bkg := solid_background ui in
  match getattrs (ViewportButtonMgr ui) (map fst vp_button_mgr) with
  | Raised e => (ui, Some e)
  | Done vp_button_mgr_original =>
  match getattrs (viewport_setting ui) (map fst nitrous_viewport) with
  | Raised e => (ui, Some e)
  | Done nitrous_viewport_original =>
  match getattrs (preferences ui) (map fst preview_preferences) with
  | Raised e => (ui, Some e)
  | Done preview_preferences_original =>
      let '(ui_try, raised) :=
        let ui1 := setCamera review_camera ui in
        match general_viewport !! "dspGrid" with
        | None => (ui1, Some (KeyError "dspGrid"))
        | Some dspGrid =>
            let ui2 := setGridVisibility dspGrid ui1 in
            match general_viewport !! "dspBkg" with
            | None => (ui2, Some (KeyError "dspBkg"))
            | Some dspBkg =>
                let ui3 := EnableSolidBackgroundColorMode dspBkg ui2 in
                let ui4 :=
                  set_ViewportButtonMgr
                    (setattrs (ViewportButtonMgr ui3) vp_button_mgr) ui3 in
                match setattrs_changed (viewport_setting ui4) nitrous_viewport
                        nitrous_viewport_original nitrous_viewport with
                | (m, Some e) => (set_viewport_setting m ui4, Some e)
                | (m, None) =>
                    let ui5 := set_viewport_setting m ui4 in
                    let ui6 :=
                      set_preferences
                        (setattrs (preferences ui5) preview_preferences) ui5 in
                    body ui6
                end
            end
        end in
      let f1 := setCamera review_camera ui_try in
      let f2 := setGridVisibility orig_vp_grid f1 in
      let f3 := EnableSolidBackgroundColorMode orig_vp_bkg f2 in
      let f4 :=
        set_ViewportButtonMgr
          (setattrs (ViewportButtonMgr f3) vp_button_mgr_original) f3 in
      let f5 :=
        set_viewport_setting
          (setattrs (viewport_setting f4) nitrous_viewport_original) f4 in
      let f6 :=
        set_preferences
          (setattrs (preferences f5) preview_preferences_original) f5 in
      (f6, raised)
  end end end.

End WithNe.

(** ** [publish_review_animation] *)

Section WithFormat.

(** The text an f-string puts for a value, and [str.lower]. *)
Variable py_str : value -> string.
Variable lower : string -> string.

(** The [options] of the preview, in the order of the source. *)
Definition options : list string :=
  ["percentSize"; "dspGeometry"; "dspShapes";
   "dspLights"; "dspCameras"; "dspHelpers"; "dspParticles";
   "dspBones"; "dspBkg"; "dspGrid"; "dspSafeFrame"; "dspFrameNums"].

(** [d.get(key)] and [d.get(key, fallback)]. *)
Definition dict_get (d : gmap string value) (key : string) (fallback : value) : value :=
  default fallback (d !! key).

(** [v.lower()]: only a text has the method. *)
Definition lower_of (v : value) : result string :=
  match v with
  | VStr t => Done (lower t)
  | _ => Raised NoAttribute
  end.

(** The list [job_args] of [publish_review_animation] when it is joined,
    given [instance.data]. *)
Definition job_args_of (data : gmap string value) (filepath : string)
    (start end_ fps : value) : result (list string) :=
  let job_args := [] in
  let default_option :=
    "CreatePreview filename:" +:+ String Json.DQUOTE (filepath +:+ String Json.DQUOTE "") in
  let job_args := (job_args ++ [default_option])%list in
  let frame_option :=
    "outputAVI:false start:" +:+ py_str start +:+ " end:" +:+ py_str end_
    +:+ " fps:" +:+ py_str fps in
  let job_args := (job_args ++ [frame_option])%list in
  let job_args :=
    fold_left
      (fun job_args key =>
         let enabled := dict_get data key VNone in
         if truthy enabled then (job_args ++ [key +:+ ":" +:+ py_str enabled])%list
         else job_args)
      options job_args in
  let visual_style_preset := dict_get data "visualStyleMode" VNone in
  match (if eq_text visual_style_preset "Realistic" then Done "defaultshading"
         else lower_of visual_style_preset) with
  | Raised e => Raised e
  | Done visual_style_preset =>
      let visual_style_option := "vpStyle:#" +:+ visual_style_preset in
      let job_args := (job_args ++ [visual_style_option])%list in
      let preview_preset := dict_get data "viewportPreset" VNone in
      match (if eq_text preview_preset "Quality" then Done "highquality"
             else if eq_text preview_preset "Customize" then Done "userdefined"
             else lower_of preview_preset) with
      | Raised e => Raised e
      | Done preview_preset =>
          let preview_preset_option := "vpPreset:#" +:+ preview_preset in
          let job_args := (job_args ++ [preview_preset_option])%list in
          let viewport_texture := dict_get data "vpTexture" (VBool true) in
          if truthy viewport_texture then
            Done (job_args ++ ["vpTexture:" +:+ py_str viewport_texture])%list
          else Done job_args
      end
  end.

(** [publish_review_animation(instance, filepath, start, end, fps)]. *)
Definition publish_review_animation (data : gmap string value) (filepath : string)
    (start end_ fps : value) : result string :=
  match job_args_of data filepath start end_ fps with
  | Done job_args => Done (PyStr.join " " job_args)
  | Raised e => Raised e
  end.

End WithFormat.

(** The arguments that are not options: each starts with a name, up to
    its first colon, that is not the name of an option. *)
Definition not_an_option (arg : string) : Prop :=
  exists p rest, arg = p +:+ ":" +:+ rest /\
                 PyStr.contains_ch ":" p = false /\ ~ In p options.

(** ** [CollectModelData.process] ([pype/plugins/maya/publish/collect_model.py]) *)

(** [process(instance)] on [instance.data], given the current time: the
    data after the call and whether it raised.  Only a list has [append]. *)
Definition process (data : gmap string value) (frame : value)
  : gmap string value * result unit :=
  let data1 := <["startFrame" := frame]> data in
  let data2 := <["endFrame" := frame]> data1 in
  match data2 !! "families" with
  | Some families =>
      if truthy families then
        match families with
        | VList l => (<["families" := VList (l ++ [VStr "ftrack"])]> data2, Done tt)
        | _ => (data2, Raised NoAttribute)
        end
      else (<["families" := VList [VStr "ftrack"]]> data2, Done tt)
  | None => (<["families" := VList [VStr "ftrack"]]> data2, Done tt)
  end.

(** [process] run [k] times in a row with the same current time, as long
    as it does not raise. *)
Fixpoint process_times (k : nat) (data : gmap string value) (frame : value)
  : gmap string value * result unit :=
  match k with
  | O => (data, Done tt)
  | S k' =>
      match process data frame with
      | (data', Done _) => process_times k' data' frame
      | (data', Raised e) => (data', Raised e)
      end
  end.

(** The list [process] appends to: the families already there when they
    are a list, nothing otherwise. *)
Definition families_before (data : gmap string value) : list value :=
  match data !! "families" with
  | Some (VList l) => l
  | _ => []
  end.

(** The families a call of [append] fails on: true in a test, not a list. *)
Definition families_unusable (data : gmap string value) : Prop :=
  exists v, data !! "families" = Some v /\ truthy v = true /\
            forall l, v <> VList l.

(** The number a text of decimal digits stands for, leading zeros
    allowed; 0 for any other text. *)
Definition digits_value (t : string) : N :=
  match NilEmpty.uint_of_string t with
  | Some d => Pos.of_uint d
  | None => 0%N
  end.

(** ** More scenes used as concrete inputs *)

Definition ex_settings : max_settings :=
  mkSettings 1 0 100 (0, 100) 30 640 480 true [25000; 62; 0; 25; 0; 0; 997; 2024] "" "".

Definition ex_camera : node := mkNode 1 "cam" [].
Definition ex_other_camera : node := mkNode 2 "persp" [].
Definition ex_camera_scene : scene :=
  mkScene (mkNode 0 "root" [ex_camera; ex_other_camera]) ∅.

Definition ex_ui : ui_state :=
  mkUi (Some ex_other_camera) (VBool true) (VBool false)
    {["EnableButtons" := VBool true]}
    {["ShowEdgedFacesEnabled" := VBool true; "VisualStyleMode" := VStr "Realistic"]}
    {["playPreviewWhenDone" := VBool true; "percentSize" := VInt 50]}.

(** * Properties *)

(** ** The model on concrete inputs *)

Example split_crlf_ex :
  PyStr.split_crlf ("a=1" +:+ PyStr.CRLF +:+ "b" +:+ PyStr.CRLF) = ["a=1"; "b"; ""].
Proof. reflexivity. Qed.

Example split_ch_ex : PyStr.split_ch "=" "a=b=c" = ["a"; "b"; "c"].
Proof. reflexivity. Qed.

Example strip_ex : PyStr.strip "  a b  " = "a b".
Proof. reflexivity. Qed.

Example rsplit1_ex : PyStr.rsplit1 ":" "a:b:c" = Some ("a:b", "c").
Proof. reflexivity. Qed.

Example dumps_ex :
  Json.dumps (VDict [("a", VList [VInt 1; VBool true; VNone]); ("b", VDict [])])
  = "{" +:+ Json.quote "a" +:+ ": [1, true, null], " +:+ Json.quote "b" +:+ ": {}}".
Proof. reflexivity. Qed.

Example loads_ex :
  Json.loads ("{" +:+ Json.quote "a" +:+ ": [1, true, null], " +:+ Json.quote "c" +:+ ": -12}")
  = Some (VDict [("a", VList [VInt 1; VBool true; VNone]); ("c", VInt (-12))]).
Proof. vm_compute. reflexivity. Qed.

Example loads_dumps_ex :
  let v := VDict [("a=b", VList [VInt 1; VStr "x=y"; VList []]); ("b", VDict [])] in
  Json.loads (Json.dumps v) = Some v.
Proof. vm_compute. reflexivity. Qed.

Example loads_bad : Json.loads "{[1, " = None.
Proof. vm_compute. reflexivity. Qed.

Example loads_str : Json.loads (Json.quote "true") = Some (VStr "true").
Proof. vm_compute. reflexivity. Qed.

Example loads_float : Json.loads " [1, 2.5e3] " = Some (VOther "[1, 2.5e3]").
Proof. vm_compute. reflexivity. Qed.

(** A text equal to a boolean literal comes back as the boolean. *)
Example boolean_literal_ex :
  read (snd (imprint ex_bare_scene "con" [("flag", VStr "true")])) ex_container !! "flag"
  = Some (VBool true).
Proof. vm_compute. reflexivity. Qed.

(** A line without [=] is skipped. *)
Example malformed_line_ex :
  read (ex_scene ("a=x" +:+ PyStr.CRLF +:+ "junk")) ex_container
  = <["instance_node" := VStr "con"]> (<["a" := VStr "x"]> ∅).
Proof. vm_compute. reflexivity. Qed.

(** The examples of the docstring of [unique_namespace]. *)
Example unique_namespace_docstring_ex :
  unique_namespace 1 ex_bare_scene "bar" format_02d EmptyString EmptyString "CON"
    = Some "bar01" /\
  unique_namespace 1 ex_bare_scene ":hello" format_02d EmptyString EmptyString "CON"
    = Some ":hello01" /\
  unique_namespace 1 ex_bare_scene "bar:" format_02d EmptyString "_NS" "CON"
    = Some "bar01_NS:".
Proof. vm_compute. repeat split. Qed.

(** ** Node lookup *)

Lemma GetNodeByName_Some (s : scene) (name : string) (n : node) :
  Host.GetNodeByName s name = Some n -> In n (Host.scene_nodes s) /\ Name n = name.
Proof.
  unfold Host.GetNodeByName. intros H.
  apply find_some in H. destruct H as [Hin Heq].
  split; [exact Hin | now apply String.eqb_eq].
Qed.

Lemma GetNodeByName_None (s : scene) (name : string) :
  Host.GetNodeByName s name = None <->
  (forall n, In n (Host.scene_nodes s) -> Name n <> name).
Proof.
  unfold Host.GetNodeByName. split.
  - intros H n Hin Heq.
    pose proof (find_none _ _ H n Hin) as Hf. simpl in Hf.
    apply String.eqb_neq in Hf. contradiction.
  - intros H. destruct (List.find _ _) as [n|] eqn:E; [|reflexivity].
    apply find_some in E. destruct E as [Hin Heq].
    apply String.eqb_eq in Heq. exfalso. exact (H n Hin Heq).
Qed.

Lemma GetNodeByName_is_Some (s : scene) (name : string) :
  (exists n, In n (Host.scene_nodes s) /\ Name n = name) ->
  exists n, Host.GetNodeByName s name = Some n.
Proof.
  intros [n [Hin Heq]].
  destruct (Host.GetNodeByName s name) as [m|] eqn:E; [now exists m|].
  exfalso. exact (proj1 (GetNodeByName_None s name) E n Hin Heq).
Qed.

(** ** [imprint]: the failure signal *)


(** ** [get_namespace] *)

(** C9: [get_namespace] raises (a [RuntimeError]) exactly when no node of
    the scene has the given name; otherwise it returns the pair of the
    host's [namespace] and [name] properties of the node found, as the host
    gives them. *)
Theorem get_namespace_raises_iff_absent
    (GetUserProp : scene -> node -> string -> value)
    (s : scene) (container_name : string) :
  ((exists e, get_namespace GetUserProp s container_name = Raise e) <->
   (forall n, In n (Host.scene_nodes s) -> Name n <> container_name))
  /\
  (forall n, Host.GetNodeByName s container_name = Some n ->
     get_namespace GetUserProp s container_name
     = Return (GetUserProp s n "namespace", GetUserProp s n "name")).
Proof.
  unfold get_namespace. split.
  - destruct (Host.GetNodeByName s container_name) as [n|] eqn:E.
    + split.
      * intros [e He]. discriminate He.
      * intros H. apply GetNodeByName_Some in E. destruct E as [Hin Heq].
        exfalso. exact (H n Hin Heq).
    + split.
      * intros _. now apply GetNodeByName_None.
      * intros _. eexists. reflexivity.
  - intros n Hn. rewrite Hn. reflexivity.
Qed.

(** ** Facts on the text operations *)

(** Induction over a text two characters at a time. *)
Lemma string_ind2 (P : string -> Prop) :
  P EmptyString ->
  (forall c, P (String c EmptyString)) ->
  (forall c d s, P s -> P (String d s) -> P (String c (String d s))) ->
  forall s, P s.
Proof.
  intros H0 H1 H2 s.
  assert (H : P s /\ forall c, P (String c s)); [|exact (proj1 H)].
  induction s as [|d s [IH1 IH2]].
  - split; [exact H0 | exact H1].
  - split; [apply IH2 | intros c; apply H2; [exact IH1 | apply IH2]].
Qed.

Lemma ch_eqb_eq (c d : ascii) : PyStr.ch_eqb c d = true <-> c = d.
Proof. apply Ascii.eqb_eq. Qed.

Lemma ch_eqb_refl (c : ascii) : PyStr.ch_eqb c c = true.
Proof. apply Ascii.eqb_refl. Qed.

Lemma ch_eqb_sym (c d : ascii) : PyStr.ch_eqb c d = PyStr.ch_eqb d c.
Proof. apply Ascii.eqb_sym. Qed.

Lemma split_ch_not_nil (c : ascii) (s : string) : PyStr.split_ch c s <> [].
Proof.
  destruct s as [|a s]; simpl; [discriminate|].
  destruct (PyStr.ch_eqb a c); [discriminate|].
  destruct (PyStr.split_ch c s); discriminate.
Qed.

(** A text without the separator is one piece. *)
Lemma split_ch_none (c : ascii) (s : string) :
  PyStr.contains_ch c s = false -> PyStr.split_ch c s = [s].
Proof.
  induction s as [|a s IH]; simpl; intros H; [reflexivity|].
  apply orb_false_elim in H. destruct H as [Hc Hs].
  rewrite ch_eqb_sym, Hc. rewrite (IH Hs). reflexivity.
Qed.

(** The first piece ends at the first separator. *)
Lemma split_ch_app (c : ascii) (a b : string) :
  PyStr.contains_ch c a = false ->
  PyStr.split_ch c (a +:+ String c b) = a :: PyStr.split_ch c b.
Proof.
  induction a as [|x a IH]; simpl; intros H.
  - rewrite ch_eqb_refl. reflexivity.
  - apply orb_false_elim in H. destruct H as [Hc Hs].
    rewrite ch_eqb_sym, Hc. rewrite (IH Hs). reflexivity.
Qed.

(** A line [key=value] with no other [=] splits into its two sides. *)
Lemma split_ch_key_value (key value0 : string) :
  PyStr.contains_ch "=" key = false ->
  PyStr.contains_ch "=" value0 = false ->
  PyStr.split_ch "=" (key +:+ "=" +:+ value0) = [key; value0].
Proof.
  intros Hk Hv. change (key +:+ "=" +:+ value0) with (key +:+ String "=" value0).
  rewrite (split_ch_app _ _ _ Hk), (split_ch_none _ _ Hv). reflexivity.
Qed.

Lemma split_crlf_cons2 (c d : ascii) (s : string) :
  PyStr.split_crlf (String c (String d s)) =
  if PyStr.ch_eqb c PyStr.CR && PyStr.ch_eqb d PyStr.LF
  then EmptyString :: PyStr.split_crlf s
  else match PyStr.split_crlf (String d s) with
       | l :: ls => String c l :: ls
       | [] => [String c EmptyString]
       end.
Proof. reflexivity. Qed.

Lemma split_crlf_not_nil (s : string) : PyStr.split_crlf s <> [].
Proof.
  induction s as [|c|c d s IH1 IH2] using string_ind2; try discriminate.
  rewrite split_crlf_cons2.
  destruct (_ && _); [discriminate|].
  destruct (PyStr.split_crlf (String d s)); discriminate.
Qed.

(** Splitting a text made of two texts around one separator. *)
Lemma split_crlf_app (a b : string) :
  PyStr.split_crlf (a +:+ PyStr.CRLF +:+ b)
  = (PyStr.split_crlf a ++ PyStr.split_crlf b)%list.
Proof.
  induction a as [|c|c d a IH1 IH2] using string_ind2.
  - reflexivity.
  - change (String c EmptyString +:+ PyStr.CRLF +:+ b)
      with (String c (String PyStr.CR (String PyStr.LF b))).
    rewrite split_crlf_cons2.
    replace (PyStr.ch_eqb c PyStr.CR && PyStr.ch_eqb PyStr.CR PyStr.LF) with false
      by (rewrite andb_comm; reflexivity).
    rewrite split_crlf_cons2. reflexivity.
  - change (String c (String d a) +:+ PyStr.CRLF +:+ b)
      with (String c (String d (a +:+ PyStr.CRLF +:+ b))).
    rewrite !split_crlf_cons2.
    destruct (PyStr.ch_eqb c PyStr.CR && PyStr.ch_eqb d PyStr.LF).
    + rewrite IH1. reflexivity.
    + change (String d (a +:+ PyStr.CRLF +:+ b))
        with (String d a +:+ PyStr.CRLF +:+ b).
      rewrite IH2.
      pose proof (split_crlf_not_nil (String d a)) as Hne.
      destruct (PyStr.split_crlf (String d a)) as [|l ls]; [contradiction|].
      reflexivity.
Qed.

(** A text without the separator is one line. *)
Lemma split_crlf_none (s : string) :
  PyStr.contains_crlf s = false -> PyStr.split_crlf s = [s].
Proof.
  induction s as [|c|c d s IH1 IH2] using string_ind2; intros H; try reflexivity.
  rewrite split_crlf_cons2.
  change (PyStr.contains_crlf (String c (String d s)))
    with ((PyStr.ch_eqb c PyStr.CR && PyStr.ch_eqb d PyStr.LF)
          || PyStr.contains_crlf (String d s)) in H.
  apply orb_false_elim in H. destruct H as [H1 H2].
  rewrite H1, (IH2 H2). reflexivity.
Qed.

Lemma split_crlf_head (d : ascii) (s : string) :
  exists l ls, PyStr.split_crlf (String d s) = l :: ls /\
               (l = EmptyString \/ exists l', l = String d l').
Proof.
  destruct s as [|e s'].
  - exists (String d EmptyString), []. split; [reflexivity|]. right. now eexists.
  - rewrite split_crlf_cons2.
    destruct (PyStr.ch_eqb d PyStr.CR && PyStr.ch_eqb e PyStr.LF).
    + do 2 eexists. split; [reflexivity|]. now left.
    + destruct (PyStr.split_crlf (String e s')) as [|l ls];
        do 2 eexists; (split; [reflexivity|]); right; now eexists.
Qed.

(** The lines of a text hold no separator. *)
Lemma split_crlf_lines_free (s : string) :
  Forall (fun l => PyStr.contains_crlf l = false) (PyStr.split_crlf s).
Proof.
  induction s as [|c|c d s IH1 IH2] using string_ind2.
  - repeat constructor.
  - repeat constructor.
  - rewrite split_crlf_cons2.
    destruct (PyStr.ch_eqb c PyStr.CR && PyStr.ch_eqb d PyStr.LF) eqn:E.
    + constructor; [reflexivity | exact IH1].
    + destruct (split_crlf_head d s) as (l & ls & El & Hl).
      rewrite El in IH2 |- *.
      inversion IH2 as [|? ? Hfree Hls]; subst.
      constructor; [|exact Hls].
      destruct Hl as [-> | [l' ->]]; [reflexivity|].
      change (PyStr.contains_crlf (String c (String d l')))
        with ((PyStr.ch_eqb c PyStr.CR && PyStr.ch_eqb d PyStr.LF)
              || PyStr.contains_crlf (String d l')).
      rewrite E, Hfree. reflexivity.
Qed.

(** Joining lines that hold no separator, then splitting, gives them back. *)
Lemma split_crlf_join (ls : list string) :
  ls <> [] -> Forall (fun l => PyStr.contains_crlf l = false) ls ->
  PyStr.split_crlf (PyStr.join PyStr.CRLF ls) = ls.
Proof.
  induction ls as [|l ls IH]; intros Hne Hall; [contradiction|].
  inversion Hall as [|? ? Hl Hls]; subst.
  destruct ls as [|l2 ls].
  - simpl. now apply split_crlf_none.
  - change (PyStr.join PyStr.CRLF (l :: l2 :: ls))
      with (l +:+ PyStr.CRLF +:+ PyStr.join PyStr.CRLF (l2 :: ls)).
    rewrite split_crlf_app, (split_crlf_none _ Hl), IH; [reflexivity|discriminate|exact Hls].
Qed.

(** ** Facts on [read] *)

Lemma read_line_key_value (data : gmap string value) (key value0 : string) :
  PyStr.contains_ch "=" key = false ->
  PyStr.contains_ch "=" value0 = false ->
  read_line data (key +:+ "=" +:+ value0)
  = <[PyStr.strip key := decode_text value0]> data.
Proof.
  intros Hk Hv. unfold read_line.
  rewrite (split_ch_key_value _ _ Hk Hv). reflexivity.
Qed.

(** A line that does not assign [k] leaves the entry of [k] as it was. *)
Lemma read_line_other (data : gmap string value) (k line : string) :
  line_binds k line = false -> read_line data line !! k = data !! k.
Proof.
  unfold line_binds, read_line. intros H.
  destruct (PyStr.split_ch "=" line) as [|key [|value0 [|x rest]]]; try reflexivity.
  apply String.eqb_neq in H. now rewrite lookup_insert_ne.
Qed.

Lemma fold_read_line_other (lines : list string) (data : gmap string value) (k : string) :
  Forall (fun l => line_binds k l = false) lines ->
  fold_left read_line lines data !! k = data !! k.
Proof.
  revert data. induction lines as [|l lines IH]; intros data H; [reflexivity|].
  inversion H as [|? ? Hl Hls]; subst. simpl.
  rewrite (IH _ Hls). now apply read_line_other.
Qed.

(** The entry of [k] after a line that assigns it, when no later line does. *)
Lemma read_lookup_line (s : scene) (c : node) (pre post : list string)
    (line k : string) (v : value) :
  PyStr.split_crlf (Host.GetUserPropBuffer s c) = (pre ++ line :: post)%list ->
  (forall d, read_line d line = <[k := v]> d) ->
  Forall (fun l => line_binds k l = false) post ->
  k <> "instance_node" ->
  read s c !! k = Some v.
Proof.
  intros Hsplit Hline Hpost Hk. unfold read.
  destruct (Host.GetUserPropBuffer s c) as [|a buf] eqn:E.
  - exfalso. simpl in Hsplit.
    destruct pre as [|p [|p' pre]]; simpl in Hsplit; inversion Hsplit; subst.
    specialize (Hline ∅). unfold read_line in Hline. simpl in Hline.
    assert (Hl : (∅ : gmap string value) !! k = <[k := v]> (∅ : gmap string value) !! k)
      by (rewrite <- Hline; reflexivity).
    rewrite lookup_insert_eq, lookup_empty in Hl. discriminate.
  - rewrite lookup_insert_ne by congruence.
    unfold parse_buffer. rewrite Hsplit, fold_left_app. simpl.
    rewrite (fold_read_line_other _ _ _ Hpost), Hline.
    apply lookup_insert_eq.
Qed.

Lemma parse_marked_plain (t : string) :
  PyStr.startswith JSON_PREFIX t = false -> parse_marked t = VStr t.
Proof. unfold parse_marked. now intros ->. Qed.

Lemma parse_marked_json (t : string) :
  parse_marked (JSON_PREFIX +:+ t)
  = match Json.loads t with Some j => j | None => VStr (JSON_PREFIX +:+ t) end.
Proof. reflexivity. Qed.

Lemma convert_boolean_marked (t : string) :
  convert_boolean (VStr (JSON_PREFIX +:+ t)) = VStr (JSON_PREFIX +:+ t).
Proof. reflexivity. Qed.

(** ** [read]: values that carry the marker *)

(** C10: the boolean conversion comes after the JSON parse.  A buffer line
    whose trimmed value is the marker followed by the JSON string literal
    of [true] (or of [false]) gives the boolean, not the text, for its key;
    the line is any line of the buffer whose key no later line assigns,
    the key [instance_node] apart. *)
Theorem read_json_string_literal_is_boolean
    (s : scene) (c : node) (pre post : list string) (key value0 : string) (b : bool) :
  PyStr.split_crlf (Host.GetUserPropBuffer s c)
    = (pre ++ (key +:+ "=" +:+ value0) :: post)%list ->
  PyStr.contains_ch "=" key = false ->
  PyStr.contains_ch "=" value0 = false ->
  PyStr.strip value0 = JSON_PREFIX +:+ Json.quote (if b then "true" else "false") ->
  Forall (fun l => line_binds (PyStr.strip key) l = false) post ->
  PyStr.strip key <> "instance_node" ->
  read s c !! PyStr.strip key = Some (VBool b).
Proof.
  intros Hsplit Hk Hv Hval Hpost Hne.
  apply (read_lookup_line s c pre post _ _ _ Hsplit); [|exact Hpost|exact Hne].
  intros d. rewrite (read_line_key_value _ _ _ Hk Hv).
  unfold decode_text. rewrite Hval. destruct b; reflexivity.
Qed.

(** C2, as amended: a buffer line whose trimmed value starts with the
    marker and whose remainder is not well-formed JSON is kept: its key is
    bound to the trimmed text of the value, marker included, and the other
    lines are read as usual. *)
Theorem read_malformed_json_keeps_text
    (s : scene) (c : node) (pre post : list string) (key value0 rest : string) :
  PyStr.split_crlf (Host.GetUserPropBuffer s c)
    = (pre ++ (key +:+ "=" +:+ value0) :: post)%list ->
  PyStr.contains_ch "=" key = false ->
  PyStr.contains_ch "=" value0 = false ->
  PyStr.strip value0 = JSON_PREFIX +:+ rest ->
  Json.loads rest = None ->
  Forall (fun l => line_binds (PyStr.strip key) l = false) post ->
  PyStr.strip key <> "instance_node" ->
  read s c !! PyStr.strip key = Some (VStr (PyStr.strip value0)).
Proof.
  intros Hsplit Hk Hv Hval Hbad Hpost Hne.
  apply (read_lookup_line s c pre post _ _ _ Hsplit); [|exact Hpost|exact Hne].
  intros d. rewrite (read_line_key_value _ _ _ Hk Hv).
  unfold decode_text. rewrite Hval.
  rewrite parse_marked_json, Hbad, convert_boolean_marked. reflexivity.
Qed.

(** C3, as amended: for a container whose property buffer is not empty,
    the mapping [read] returns binds [instance_node] to the name of the
    container, whatever the buffer assigns to that key. *)
Theorem read_instance_node (s : scene) (c : node) :
  Host.GetUserPropBuffer s c <> EmptyString ->
  read s c !! "instance_node" = Some (VStr (Name c)).
Proof.
  intros H. unfold read.
  destruct (Host.GetUserPropBuffer s c); [contradiction|].
  apply lookup_insert_eq.
Qed.

Lemma read_json_string_literal_is_boolean_witness :
  read (ex_scene ("a=1" +:+ PyStr.CRLF +:+ "flag = JSON::" +:+ Json.quote "true"
                  +:+ " " +:+ PyStr.CRLF +:+ "b=2"))
       ex_container !! "flag" = Some (VBool true).
Proof.
  apply (read_json_string_literal_is_boolean _ ex_container
           ["a=1"] ["b=2"] "flag " (" JSON::" +:+ Json.quote "true" +:+ " ") true).
  - vm_compute. reflexivity.
  - reflexivity.
  - reflexivity.
  - vm_compute. reflexivity.
  - repeat constructor.
  - vm_compute. discriminate.
Defined.

Lemma read_malformed_json_keeps_text_witness :
  read (ex_scene ("a=1" +:+ PyStr.CRLF +:+ "k= JSON::{bad")) ex_container !! "k"
  = Some (VStr "JSON::{bad").
Proof.
  apply (read_malformed_json_keeps_text _ ex_container ["a=1"] [] "k" " JSON::{bad" "{bad").
  - vm_compute. reflexivity.
  - reflexivity.
  - reflexivity.
  - vm_compute. reflexivity.
  - vm_compute. reflexivity.
  - constructor.
  - vm_compute. discriminate.
Defined.

(** C2 as stated fails: the key of a line with a marked value that is
    not well-formed JSON appears in the result, bound to the raw text. *)
Lemma read_malformed_json_not_dropped :
  Json.loads "{bad" = None /\
  read (ex_scene "k=JSON::{bad") ex_container !! "k" = Some (VStr "JSON::{bad") /\
  read (ex_scene "k=JSON::{bad") ex_container !! "k" <> None.
Proof.
  split; [vm_compute; reflexivity|].
  assert (H : read (ex_scene "k=JSON::{bad") ex_container !! "k" = Some (VStr "JSON::{bad"))
    by (vm_compute; reflexivity).
  split; [exact H | rewrite H; discriminate].
Qed.

Lemma read_instance_node_witness :
  read (ex_scene "instance_node=other") ex_container !! "instance_node"
  = Some (VStr "con").
Proof.
  apply (read_instance_node (ex_scene "instance_node=other") ex_container).
  vm_compute. discriminate.
Defined.

(** C3 as stated fails for a container whose property buffer is empty or
    absent: [read] returns the empty mapping, without [instance_node]. *)
Lemma read_empty_buffer_no_instance_node :
  Host.GetUserPropBuffer ex_bare_scene ex_container = EmptyString /\
  read ex_bare_scene ex_container = ∅ /\
  read ex_bare_scene ex_container !! "instance_node" = None /\
  read (ex_scene EmptyString) ex_container !! "instance_node" = None.
Proof. repeat split. Qed.

(** ** [unique_namespace] *)

Lemma rsplit1_none (c : ascii) (s : string) :
  PyStr.contains_ch c s = false -> PyStr.rsplit1 c s = None.
Proof.
  induction s as [|a s IH]; simpl; intros H; [reflexivity|].
  apply orb_false_elim in H. destruct H as [Hc Hs].
  rewrite (IH Hs), ch_eqb_sym, Hc. reflexivity.
Qed.

(** Splitting at the last separator: the text after it holds none. *)
Lemma rsplit1_app (c : ascii) (p l : string) :
  PyStr.contains_ch c l = false ->
  PyStr.rsplit1 c (p +:+ String c l) = Some (p, l).
Proof.
  intros Hl. induction p as [|a p IH]; simpl.
  - rewrite (rsplit1_none _ _ Hl), ch_eqb_refl. reflexivity.
  - rewrite IH. reflexivity.
Qed.

(** The loop returns at the first iteration whose probe names no node. *)
Lemma unique_namespace_loop_first_free
    (s : scene) (namespace : string) (format : nat -> string)
    (prefix suffix con_suffix start end_ : string) (fuel i0 i : nat) :
  (i0 <= i)%nat ->
  (forall j, (i0 <= j < i)%nat ->
     Host.GetNodeByName s (container_name_of namespace format prefix suffix con_suffix j)
     <> None) ->
  Host.GetNodeByName s (container_name_of namespace format prefix suffix con_suffix i)
  = None ->
  (i - i0 < fuel)%nat ->
  unique_namespace_loop fuel s namespace format prefix suffix con_suffix start end_ i0
  = Some (start +:+ unique_of namespace format prefix suffix i +:+ end_).
Proof.
  revert i0. induction fuel as [|fuel IH]; intros i0 Hle Hbusy Hfree Hfuel; [lia|].
  simpl. destruct (decide (i0 = i)) as [->|Hne].
  - rewrite Hfree. reflexivity.
  - destruct (Host.GetNodeByName s
                (container_name_of namespace format prefix suffix con_suffix i0)) eqn:E.
    + apply IH; [lia| |exact Hfree|lia].
      intros j Hj. apply Hbusy. lia.
    + exfalso. apply (Hbusy i0); [lia|exact E].
Qed.

(** Whatever the loop returns comes from an iteration whose probe names
    no node. *)
Lemma unique_namespace_loop_returns_free
    (s : scene) (namespace : string) (format : nat -> string)
    (prefix suffix con_suffix start end_ : string) (fuel i0 : nat) (r : string) :
  unique_namespace_loop fuel s namespace format prefix suffix con_suffix start end_ i0
  = Some r ->
  exists i, (i0 <= i)%nat /\
    r = start +:+ unique_of namespace format prefix suffix i +:+ end_ /\
    Host.GetNodeByName s (container_name_of namespace format prefix suffix con_suffix i)
    = None.
Proof.
  revert i0. induction fuel as [|fuel IH]; intros i0 H; [discriminate|].
  simpl in H. destruct (Host.GetNodeByName s _) eqn:E.
  - destruct (IH _ H) as (i & Hi & Hr & Hfree).
    exists i. split; [lia|]. split; assumption.
  - inversion H; subst. exists i0. split; [lia|]. split; [reflexivity|exact E].
Qed.



Example unique_namespace_nested_ex :
  unique_namespace 1 (ex_named_scene []) ":a:x" format_02d EmptyString "_NS" "CON"
  = Some ":a:x01_NS".
Proof. reflexivity. Qed.




(** ** [lsattr] *)

(** Induction over a node with the property known for its children. *)
Lemma node_ind_children (P : node -> Prop) :
  (forall h nm cs, Forall P cs -> P (mkNode h nm cs)) -> forall n, P n.
Proof.
  intros H. fix IH 1. intros [h nm cs]. apply H.
  induction cs as [|c cs IHcs]; constructor; [apply IH | exact IHcs].
Qed.

Lemma fold_output_node (cs : list node) (acc : list node) :
  Forall (fun c => forall acc', output_node c acc' = (acc' ++ preorder c)%list) cs ->
  fold_left (fun acc' child => output_node child acc') cs acc
  = (acc ++ flat_map preorder cs)%list.
Proof.
  intros H. revert acc. induction H as [|c cs Hc Hcs IH]; intros acc; simpl.
  - now rewrite app_nil_r.
  - rewrite Hc, IH, <- app_assoc. reflexivity.
Qed.

(** The code's traversal appends the pre-order of the node. *)
Lemma output_node_preorder (n : node) (acc : list node) :
  output_node n acc = (acc ++ preorder n)%list.
Proof.
  revert acc. induction n as [h nm cs IH] using node_ind_children. intros acc.
  simpl. rewrite (fold_output_node _ _ IH), <- app_assoc. reflexivity.
Qed.

Lemma preorder_in_tree (n d : node) : In d (preorder n) <-> in_tree d n.
Proof.
  split.
  - revert d. induction n as [h nm cs IH] using node_ind_children. intros d Hin.
    simpl in Hin. destruct Hin as [<- | Hin]; [constructor|].
    apply in_flat_map in Hin. destruct Hin as (c & Hc & Hd).
    apply (in_tree_child d _ c); [exact Hc|].
    rewrite Forall_forall in IH. apply IH; [|exact Hd].
    now apply list_elem_of_In.
  - induction 1 as [|n c Hc Hd IH].
    + destruct d; simpl; tauto.
    + destruct n as [h nm cs]. simpl in *. right.
      apply in_flat_map. exists c. split; assumption.
Qed.

(** The traversal visits the nodes at the paths of the tree, one visit
    for each path. *)
Lemma child_paths_nodes (h : nat) (nm : string) (rest pre : list node) :
  Forall (fun c => map (node_at c) (preorder_paths c) = map Some (preorder c)) rest ->
  map (node_at (mkNode h nm (pre ++ rest)))
      (child_paths preorder_paths (length pre) rest)
  = map Some (flat_map preorder rest).
Proof.
  intros H. revert pre. induction H as [|c rest Hc Hrest IH]; intros pre; [reflexivity|].
  simpl. rewrite !map_app, map_map. f_equal.
  - rewrite <- Hc. apply map_ext. intros q. simpl.
    rewrite nth_error_app2 by lia. rewrite Nat.sub_diag. reflexivity.
  - specialize (IH (pre ++ [c])%list).
    rewrite <- app_assoc, length_app, Nat.add_1_r in IH. exact IH.
Qed.

Lemma preorder_paths_nodes (n : node) :
  map (node_at n) (preorder_paths n) = map Some (preorder n).
Proof.
  induction n as [h nm cs IH] using node_ind_children.
  simpl. f_equal. exact (child_paths_nodes h nm cs [] IH).
Qed.

(** A path under the children starts with the position of a child. *)
Lemma child_paths_in (f : node -> list (list nat)) (cs : list node) (i : nat)
    (p : list nat) :
  In p (child_paths f i cs) <->
  exists k c q, p = (i + k)%nat :: q /\ nth_error cs k = Some c /\ In q (f c).
Proof.
  revert i. induction cs as [|c cs IH]; intros i; simpl.
  - split; [contradiction|]. intros (k & c & q & _ & Hk & _). destruct k; discriminate.
  - rewrite in_app_iff, in_map_iff, IH. split.
    + intros [(q & <- & Hq) | (k & c' & q & -> & Hk & Hq)].
      * exists 0%nat, c, q. rewrite Nat.add_0_r. auto.
      * exists (S k), c', q. split; [f_equal; lia | auto].
    + intros (k & c' & q & -> & Hk & Hq). destruct k as [|k]; simpl in Hk.
      * inversion Hk; subst. left. exists q. rewrite Nat.add_0_r. auto.
      * right. exists k, c', q. split; [f_equal; lia | auto].
Qed.

Lemma child_paths_NoDup (f : node -> list (list nat)) (cs : list node) (i : nat) :
  Forall (fun c => List.NoDup (f c)) cs -> List.NoDup (child_paths f i cs).
Proof.
  intros H. revert i. induction H as [|c cs Hc Hcs IH]; intros i; simpl; [constructor|].
  apply List.NoDup_app; [|apply IH|].
  - clear -Hc. induction Hc as [|q l Hq Hl IHl]; simpl; constructor; [|exact IHl].
    rewrite in_map_iff. intros (q' & Heq & Hin). inversion Heq; subst. contradiction.
  - intros p Hp Hp2.
    apply in_map_iff in Hp. destruct Hp as (q & <- & _).
    apply child_paths_in in Hp2. destruct Hp2 as (k & c' & q' & Heq & _).
    inversion Heq. lia.
Qed.

(** No path is listed twice. *)
Lemma preorder_paths_NoDup (n : node) : List.NoDup (preorder_paths n).
Proof.
  induction n as [h nm cs IH] using node_ind_children.
  simpl. constructor; [|now apply child_paths_NoDup].
  intros Hin. apply child_paths_in in Hin.
  destruct Hin as (k & c & q & Heq & _). discriminate Heq.
Qed.

(** The paths listed are the paths that lead to a node. *)
Lemma preorder_paths_complete (n : node) (p : list nat) :
  In p (preorder_paths n) <-> is_Some (node_at n p).
Proof.
  split.
  - revert p. induction n as [h nm cs IH] using node_ind_children. intros p Hin.
    simpl in Hin. destruct Hin as [<- | Hin]; [now eexists|].
    apply child_paths_in in Hin. destruct Hin as (k & c & q & -> & Hk & Hq).
    simpl. rewrite Hk. rewrite List.Forall_forall in IH.
    exact (IH c (nth_error_In _ _ Hk) q Hq).
  - revert n. induction p as [|i q IH]; intros n Hsome.
    + destruct n; simpl; auto.
    + destruct n as [h nm cs]. simpl in Hsome |- *. right.
      destruct (nth_error cs i) as [c|] eqn:Hi; [|destruct Hsome; discriminate].
      apply child_paths_in. exists i, c, q. split; [reflexivity|]. split; [exact Hi|].
      now apply IH.
Qed.



Example lsattr_no_value_ex :
  lsattr Host.GetUserProp ex_deep_scene "foo" None (Some "d") = Return [ex_node_e] /\
  lsattr Host.GetUserProp ex_deep_scene "nope" None None = Return [].
Proof. vm_compute. split; reflexivity. Qed.


(** ** The host's [setProperty] seen through [read] *)

Lemma contains_crlf_cons (c d : ascii) (s : string) :
  PyStr.contains_crlf (String c (String d s))
  = (PyStr.ch_eqb c PyStr.CR && PyStr.ch_eqb d PyStr.LF)
    || PyStr.contains_crlf (String d s).
Proof. reflexivity. Qed.

(** No separator appears when two texts that hold none are put around a
    character that is neither of its two characters. *)
Lemma contains_crlf_app_ch (a b : string) (x : ascii) :
  PyStr.ch_eqb x PyStr.CR = false -> PyStr.ch_eqb x PyStr.LF = false ->
  PyStr.contains_crlf a = false -> PyStr.contains_crlf b = false ->
  PyStr.contains_crlf (a +:+ String x b) = false.
Proof.
  intros Hcr Hlf. induction a as [|c|c d a IH1 IH2] using string_ind2; intros Ha Hb.
  - destruct b as [|e b]; [reflexivity|].
    change (EmptyString +:+ String x (String e b)) with (String x (String e b)).
    rewrite contains_crlf_cons, Hcr, Hb. reflexivity.
  - change (String c EmptyString +:+ String x b) with (String c (String x b)).
    rewrite contains_crlf_cons, Hlf, andb_false_r.
    destruct b as [|e b]; [reflexivity|].
    rewrite (contains_crlf_cons x e b), Hcr, Hb. reflexivity.
  - change (String c (String d a) +:+ String x b)
      with (String c (String d a +:+ String x b)).
    change (String d a +:+ String x b) with (String d (a +:+ String x b)).
    rewrite contains_crlf_cons.
    rewrite contains_crlf_cons in Ha. apply orb_false_elim in Ha.
    destruct Ha as [Ha1 Ha2]. rewrite Ha1, orb_false_l.
    change (String d (a +:+ String x b)) with (String d a +:+ String x b).
    now apply IH2.
Qed.

Lemma line_binds_defines (k l : string) :
  line_binds k l = true -> Host.defines k l = true.
Proof.
  unfold line_binds, Host.defines, Host.line_key.
  destruct (PyStr.split_ch "=" l) as [|key [|v [|x r]]]; try discriminate.
  intros H. exact H.
Qed.

Lemma defines_binds_other (k k' l : string) :
  Host.defines k l = true -> k' <> k -> line_binds k' l = false.
Proof.
  unfold line_binds, Host.defines, Host.line_key.
  destruct (PyStr.split_ch "=" l) as [|key [|v [|x r]]]; try reflexivity.
  intros H Hne. apply String.eqb_eq in H. apply String.eqb_neq. congruence.
Qed.

(** The line the host writes for [k] assigns no other key. *)
Lemma new_line_binds_other (k k' text : string) :
  PyStr.contains_ch "=" k = false -> PyStr.strip k = k -> k' <> k ->
  line_binds k' (k +:+ "=" +:+ text) = false.
Proof.
  intros Hk Hs Hne. unfold line_binds.
  change (k +:+ "=" +:+ text) with (k +:+ String "=" text).
  rewrite (split_ch_app _ _ _ Hk).
  destruct (PyStr.split_ch "=" text) as [|v [|x r]]; try reflexivity.
  rewrite Hs. apply String.eqb_neq. congruence.
Qed.

(** The line the host writes for [k] assigns [k] the decoded text. *)
Lemma new_line_read (d : gmap string value) (k text : string) :
  PyStr.contains_ch "=" k = false -> PyStr.strip k = k ->
  PyStr.contains_ch "=" text = false ->
  read_line d (k +:+ "=" +:+ text) = <[k := decode_text text]> d.
Proof.
  intros Hk Hs Ht. rewrite (read_line_key_value _ _ _ Hk Ht), Hs. reflexivity.
Qed.

(** The lines of the buffer after the host wrote a property. *)
Lemma split_crlf_set_line (buf k text : string) :
  PyStr.contains_crlf (k +:+ "=" +:+ text) = false ->
  PyStr.split_crlf (Host.set_line buf k text)
  = if existsb (Host.defines k) (PyStr.split_crlf buf)
    then map (fun l => if Host.defines k l then k +:+ "=" +:+ text else l)
             (PyStr.split_crlf buf)
    else match buf with
         | EmptyString => [k +:+ "=" +:+ text]
         | String _ _ => (PyStr.split_crlf buf ++ [k +:+ "=" +:+ text])%list
         end.
Proof.
  intros Hnew. unfold Host.set_line.
  destruct (existsb (Host.defines k) (PyStr.split_crlf buf)).
  - apply split_crlf_join.
    + pose proof (split_crlf_not_nil buf) as Hne.
      destruct (PyStr.split_crlf buf); [contradiction|discriminate].
    + apply List.Forall_map.
      eapply List.Forall_impl; [|apply split_crlf_lines_free].
      intros l Hl. simpl. destruct (Host.defines k l); assumption.
  - destruct buf as [|a buf].
    + now apply split_crlf_none.
    + rewrite split_crlf_app, (split_crlf_none _ Hnew). reflexivity.
Qed.

Lemma read_line_lookup_ext (d d' : gmap string value) (k l : string) :
  d !! k = d' !! k -> read_line d l !! k = read_line d' l !! k.
Proof.
  intros H. unfold read_line.
  destruct (PyStr.split_ch "=" l) as [|key [|v [|x r]]]; try exact H.
  destruct (decide (PyStr.strip key = k)) as [->|Hne].
  - now rewrite !lookup_insert_eq.
  - now rewrite !lookup_insert_ne.
Qed.

(** Rewriting the lines of [k] changes no other entry. *)
Lemma fold_rewritten_other (k text k' : string) :
  PyStr.contains_ch "=" k = false -> PyStr.strip k = k -> k' <> k ->
  forall (lines : list string) (d d' : gmap string value),
    d !! k' = d' !! k' ->
    fold_left read_line
      (map (fun l => if Host.defines k l then k +:+ "=" +:+ text else l) lines) d !! k'
    = fold_left read_line lines d' !! k'.
Proof.
  intros Hk Hs Hne. induction lines as [|l lines IH]; intros d d' H; [exact H|].
  simpl. apply IH.
  destruct (Host.defines k l) eqn:E.
  - rewrite (read_line_other _ _ _ (new_line_binds_other _ _ text Hk Hs Hne)).
    rewrite (read_line_other _ _ _ (defines_binds_other _ _ _ E Hne)). exact H.
  - now apply read_line_lookup_ext.
Qed.

(** Rewriting the lines of [k] leaves [k] bound to the new value. *)
Lemma fold_rewritten_same (k text : string) (v : value) :
  (forall d, read_line d (k +:+ "=" +:+ text) = <[k := v]> d) ->
  forall (lines : list string) (d : gmap string value),
    d !! k = Some v \/ existsb (Host.defines k) lines = true ->
    fold_left read_line
      (map (fun l => if Host.defines k l then k +:+ "=" +:+ text else l) lines) d !! k
    = Some v.
Proof.
  intros Hnew. induction lines as [|l lines IH]; intros d H.
  - destruct H as [H|H]; [exact H|discriminate].
  - simpl. apply IH.
    destruct (Host.defines k l) eqn:E.
    + left. rewrite Hnew. apply lookup_insert_eq.
    + destruct H as [H|H].
      * left. rewrite read_line_other; [exact H|].
        destruct (line_binds k l) eqn:B; [|reflexivity].
        apply line_binds_defines in B. congruence.
      * right. simpl in H. rewrite E in H. exact H.
Qed.

(** Frame: writing [k] changes the entry of no other key. *)
Lemma parse_buffer_set_other (buf k text k' : string) :
  PyStr.contains_ch "=" k = false -> PyStr.strip k = k ->
  PyStr.contains_crlf (k +:+ "=" +:+ text) = false ->
  k' <> k ->
  parse_buffer (Host.set_line buf k text) !! k' = parse_buffer buf !! k'.
Proof.
  intros Hk Hs Hnew Hne. unfold parse_buffer.
  rewrite (split_crlf_set_line _ _ _ Hnew).
  destruct (existsb (Host.defines k) (PyStr.split_crlf buf)).
  - now apply fold_rewritten_other.
  - destruct buf as [|a buf].
    + simpl. now rewrite (read_line_other _ _ _ (new_line_binds_other _ _ text Hk Hs Hne)).
    + rewrite fold_left_app. simpl.
      now rewrite (read_line_other _ _ _ (new_line_binds_other _ _ text Hk Hs Hne)).
Qed.

(** Writing [k] binds [k] to what [read] makes of the text. *)
Lemma parse_buffer_set_same (buf k text : string) :
  PyStr.contains_ch "=" k = false -> PyStr.strip k = k ->
  PyStr.contains_crlf (k +:+ "=" +:+ text) = false ->
  PyStr.contains_ch "=" text = false ->
  parse_buffer (Host.set_line buf k text) !! k = Some (decode_text text).
Proof.
  intros Hk Hs Hnew Ht. unfold parse_buffer.
  rewrite (split_crlf_set_line _ _ _ Hnew).
  pose proof (fun d => new_line_read d k text Hk Hs Ht) as Hread.
  destruct (existsb (Host.defines k) (PyStr.split_crlf buf)) eqn:E.
  - apply fold_rewritten_same; [exact Hread | now right].
  - destruct buf as [|a buf].
    + simpl. rewrite Hread. apply lookup_insert_eq.
    + rewrite fold_left_app. simpl. rewrite Hread. apply lookup_insert_eq.
Qed.

(** ** Character facts *)

Ltac ascii_cases c := destruct c as [[] [] [] [] [] [] [] []].

Lemma all_ch_app (P : ascii -> bool) (a b : string) :
  all_ch P (a +:+ b) = all_ch P a && all_ch P b.
Proof.
  induction a as [|c a IH]; simpl; [reflexivity|].
  rewrite IH, andb_assoc. reflexivity.
Qed.

Lemma all_ch_impl (P Q : ascii -> bool) (s : string) :
  (forall c, P c = true -> Q c = true) -> all_ch P s = true -> all_ch Q s = true.
Proof.
  intros HPQ. induction s as [|c s IH]; simpl; [reflexivity|].
  intros H. apply andb_true_iff in H. destruct H as [Hc Hs].
  rewrite (HPQ _ Hc), (IH Hs). reflexivity.
Qed.

Lemma all_ch_contains (P : ascii -> bool) (c : ascii) (s : string) :
  P c = false -> all_ch P s = true -> PyStr.contains_ch c s = false.
Proof.
  intros Hc. induction s as [|a s IH]; simpl; [reflexivity|].
  intros H. apply andb_true_iff in H. destruct H as [Ha Hs].
  rewrite (IH Hs), orb_false_r.
  destruct (PyStr.ch_eqb c a) eqn:E; [|reflexivity].
  apply ch_eqb_eq in E. congruence.
Qed.

Lemma all_ch_no_crlf (P : ascii -> bool) (s : string) :
  P PyStr.CR = false -> all_ch P s = true -> PyStr.contains_crlf s = false.
Proof.
  intros Hcr. induction s as [|c s IH]; [reflexivity|].
  intros H. simpl in H. apply andb_true_iff in H. destruct H as [Hc Hs].
  destruct s as [|d s]; [reflexivity|].
  rewrite contains_crlf_cons, (IH Hs), orb_false_r.
  destruct (PyStr.ch_eqb c PyStr.CR) eqn:E; [|reflexivity].
  apply ch_eqb_eq in E. congruence.
Qed.

Lemma all_ch_startswith (P : ascii -> bool) (a : ascii) (p s : string) :
  P a = false -> all_ch P s = true -> PyStr.startswith (String a p) s = false.
Proof.
  intros Ha. destruct s as [|c s]; simpl; [reflexivity|].
  intros H. apply andb_true_iff in H. destruct H as [Hc _].
  destruct (PyStr.ch_eqb a c) eqn:E; [|reflexivity].
  apply ch_eqb_eq in E. congruence.
Qed.

Lemma all_ch_neq (P : ascii -> bool) (a : ascii) (p s : string) :
  P a = false -> all_ch P s = true -> s <> String a p.
Proof.
  intros Ha H ->. simpl in H. rewrite Ha in H. discriminate.
Qed.

Lemma lstrip_by_all (P : ascii -> bool) (s : string) :
  all_ch (fun c => negb (P c)) s = true -> PyStr.lstrip_by P s = s.
Proof.
  destruct s as [|c s]; simpl; [reflexivity|].
  intros H. apply andb_true_iff in H. destruct H as [Hc _].
  apply negb_true_iff in Hc. rewrite Hc. reflexivity.
Qed.

Lemma rstrip_by_all (P : ascii -> bool) (s : string) :
  all_ch (fun c => negb (P c)) s = true -> PyStr.rstrip_by P s = s.
Proof.
  induction s as [|c s IH]; simpl; [reflexivity|].
  intros H. apply andb_true_iff in H. destruct H as [Hc Hs].
  apply negb_true_iff in Hc. rewrite (IH Hs), Hc.
  destruct s; reflexivity.
Qed.

(** A text without white space is its own [strip()]. *)
Lemma strip_all (s : string) :
  all_ch (fun c => negb (PyStr.is_space c)) s = true -> PyStr.strip s = s.
Proof.
  intros H. unfold PyStr.strip, PyStr.strip_by.
  rewrite (lstrip_by_all _ _ H). now apply rstrip_by_all.
Qed.

Lemma rstrip_by_last (P : ascii -> bool) (m : string) (z : ascii) :
  P z = false ->
  PyStr.rstrip_by P (m +:+ String z EmptyString) = m +:+ String z EmptyString.
Proof.
  intros Hz. induction m as [|c m IH]; simpl.
  - rewrite Hz. reflexivity.
  - rewrite IH. destruct m; reflexivity.
Qed.

(** A text whose first and last characters are not white space is its
    own [strip()]. *)
Lemma strip_first_last (a z : ascii) (m : string) :
  PyStr.is_space a = false -> PyStr.is_space z = false ->
  PyStr.strip (String a (m +:+ String z EmptyString))
  = String a (m +:+ String z EmptyString).
Proof.
  intros Ha Hz. unfold PyStr.strip, PyStr.strip_by.
  simpl PyStr.lstrip_by. rewrite Ha.
  exact (rstrip_by_last _ (String a m) z Hz).
Qed.

Lemma sign_or_digit_not_space (c : ascii) :
  is_sign_or_digit c = true -> negb (PyStr.is_space c) = true.
Proof. ascii_cases c; vm_compute; intros H; try reflexivity; discriminate H. Qed.

Lemma sign_or_digit_printable (c : ascii) :
  is_sign_or_digit c = true -> is_printable c = true.
Proof. ascii_cases c; vm_compute; intros H; try reflexivity; discriminate H. Qed.

Lemma string_of_uint_chars (d : Decimal.uint) :
  all_ch is_sign_or_digit (NilEmpty.string_of_uint d) = true.
Proof. induction d; simpl; try reflexivity; exact IHd. Qed.

(** The decimal text of an integer is made of digits and a sign. *)
Lemma str_of_Z_chars (z : Z) : all_ch is_sign_or_digit (str_of_Z z) = true.
Proof.
  unfold str_of_Z, NilZero.string_of_int, NilZero.string_of_uint.
  destruct (Z.to_int z) as [d|d]; destruct d; try reflexivity;
    simpl; apply string_of_uint_chars.
Qed.

(** ** The JSON text of a value *)

(** Induction over a value with the property known for the members of a
    list and of a dictionary. *)
Lemma value_ind_nested (P : value -> Prop) :
  P VNone -> (forall b, P (VBool b)) -> (forall z, P (VInt z)) ->
  (forall t, P (VStr t)) ->
  (forall l, Forall P l -> P (VList l)) ->
  (forall d, Forall (fun kv => P (snd kv)) d -> P (VDict d)) ->
  (forall j, P (VOther j)) ->
  forall v, P v.
Proof.
  intros HN HB HI HS HL HD HO. fix IH 1. intros [|b|z|t|l|d|j].
  - exact HN.
  - apply HB.
  - apply HI.
  - apply HS.
  - apply HL. induction l as [|x l IHl]; constructor; [apply IH | exact IHl].
  - apply HD. induction d as [|[k x] d IHd]; constructor; [apply IH | exact IHd].
  - apply HO.
Qed.

Lemma join_all_ch (P : ascii -> bool) (sep : string) (ls : list string) :
  all_ch P sep = true ->
  Forall (fun l => all_ch P l = true) ls ->
  all_ch P (PyStr.join sep ls) = true.
Proof.
  intros Hsep H. induction H as [|l ls Hl Hls IH]; [reflexivity|].
  destruct ls as [|l2 ls]; [exact Hl|].
  change (PyStr.join sep (l :: l2 :: ls))
    with (l +:+ sep +:+ PyStr.join sep (l2 :: ls)).
  rewrite !all_ch_app, Hl, Hsep, IH. reflexivity.
Qed.

Lemma escape_ch_printable (c : ascii) : all_ch is_printable (Json.escape_ch c) = true.
Proof. ascii_cases c; vm_compute; reflexivity. Qed.

Lemma escape_printable (s : string) : all_ch is_printable (Json.escape s) = true.
Proof.
  induction s as [|c s IH]; simpl; [reflexivity|].
  rewrite all_ch_app, escape_ch_printable, IH. reflexivity.
Qed.

Lemma quote_printable (s : string) : all_ch is_printable (Json.quote s) = true.
Proof.
  unfold Json.quote. simpl. rewrite all_ch_app, escape_printable. reflexivity.
Qed.

(** [json.dumps] writes printable ASCII characters only. *)
Lemma dumps_printable (v : value) :
  modelled v = true -> all_ch is_printable (Json.dumps v) = true.
Proof.
  induction v as [|b|z|t|l IH|d IH|j] using value_ind_nested; intros Hm.
  - reflexivity.
  - destruct b; reflexivity.
  - simpl. apply (all_ch_impl is_sign_or_digit); [apply sign_or_digit_printable|].
    apply str_of_Z_chars.
  - apply quote_printable.
  - change (Json.dumps (VList l))
      with ("[" +:+ PyStr.join ", " (map Json.dumps l) +:+ "]").
    rewrite !all_ch_app, join_all_ch; [reflexivity|reflexivity|].
    apply List.Forall_map.
    change (forallb modelled l = true) in Hm.
    rewrite forallb_forall in Hm. rewrite List.Forall_forall in IH |- *.
    intros x Hx. exact (IH x Hx (Hm x Hx)).
  - change (Json.dumps (VDict d))
      with ("{" +:+ PyStr.join ", "
                      (map (fun kv => match kv with
                                      | (k, x) => Json.quote k +:+ ": " +:+ Json.dumps x
                                      end) d) +:+ "}").
    rewrite !all_ch_app, join_all_ch; [reflexivity|reflexivity|].
    apply List.Forall_map.
    change (distinct (map fst d) &&
            forallb (fun kv => match kv with (_, x) => modelled x end) d = true) in Hm.
    apply andb_true_iff in Hm. destruct Hm as [_ Hm].
    rewrite forallb_forall in Hm. rewrite List.Forall_forall in IH |- *.
    intros [k x] Hx. specialize (IH _ Hx (Hm _ Hx)). simpl in IH.
    rewrite !all_ch_app, quote_printable, IH. reflexivity.
  - discriminate Hm.
Qed.

Lemma dumps_no_crlf (v : value) :
  modelled v = true -> PyStr.contains_crlf (Json.dumps v) = false.
Proof.
  intros Hm. apply (all_ch_no_crlf is_printable); [reflexivity|].
  now apply dumps_printable.
Qed.

(** The JSON text of a list or dictionary ends with its closing bracket. *)
Lemma dumps_structured_last (v : value) :
  is_dict_or_list v = true ->
  exists m z, Json.dumps v = m +:+ String z EmptyString /\ PyStr.is_space z = false.
Proof.
  destruct v as [|b|z|t|l|d|j]; try discriminate; intros _.
  - exists (String "[" (PyStr.join ", " (map Json.dumps l))), "]"%char.
    split; reflexivity.
  - exists (String "{" (PyStr.join ", "
                          (map (fun kv => match kv with
                                          | (k, x) => Json.quote k +:+ ": " +:+ Json.dumps x
                                          end) d))), "}"%char.
    split; reflexivity.
Qed.

(** ** [json.loads] reads back what [json.dumps] wrote *)

Lemma append_assoc3 (a b c : string) : (a +:+ b) +:+ c = a +:+ (b +:+ c).
Proof.
  induction a as [|x a IH]; [reflexivity|].
  change (String x ((a +:+ b) +:+ c) = String x (a +:+ (b +:+ c))).
  now rewrite IH.
Qed.

(** One escaped character is read back as the character. *)
Lemma parse_string_escape_ch (c : ascii) (rest : string) :
  Json.parse_string (Json.escape_ch c +:+ rest)
  = match Json.parse_string rest with
    | Some (t, x, r) => Some (String c t, x, r)
    | None => None
    end.
Proof. ascii_cases c; reflexivity. Qed.

(** The body of a quoted text is read back as the text. *)
Lemma parse_string_escape (s rest : string) :
  Json.parse_string (Json.escape s +:+ String Json.DQUOTE rest) = Some (s, false, rest).
Proof.
  induction s as [|c s IH]; [reflexivity|].
  simpl Json.escape. rewrite append_assoc3, parse_string_escape_ch, IH. reflexivity.
Qed.

Lemma delimited_no_digit (rest : string) :
  delimited rest = true -> Json.starts_with_digit rest = false.
Proof.
  destruct rest as [|c rest]; [reflexivity|]. unfold delimited, Json.starts_with_digit.
  ascii_cases c; vm_compute; intros H; try reflexivity; discriminate H.
Qed.

Lemma delimited_no_fraction (rest : string) :
  delimited rest = true ->
  Json.skip_fraction rest = (false, rest) /\ Json.skip_exponent rest = (false, rest).
Proof.
  destruct rest as [|c rest]; [split; reflexivity|].
  unfold delimited, Json.skip_fraction, Json.skip_exponent.
  ascii_cases c; vm_compute; intros H; try discriminate H; split; reflexivity.
Qed.

Lemma parse_digits_step (c : ascii) (acc : Z) (rest : string) :
  Json.is_digit c = true ->
  Json.parse_digits acc (String c rest)
  = Json.parse_digits (10 * acc + Z.of_nat (nat_of_ascii c - 48)) rest.
Proof. intros H. simpl. rewrite H. reflexivity. Qed.

Ltac digit_case IH ch k :=
  match goal with
  | |- Json.parse_digits _ (NilEmpty.string_of_uint (_ ?d) +:+ ?rest) = _ =>
      change (NilEmpty.string_of_uint (_ d) +:+ rest)
        with (String ch (NilEmpty.string_of_uint d +:+ rest));
      rewrite parse_digits_step by reflexivity;
      change (Z.of_nat (nat_of_ascii ch - 48)) with k;
      cbn [Pos.of_uint_acc]; rewrite <- IH; f_equal; lia
  end.

(** The digits of a decimal number are read onto the accumulator. *)
Lemma parse_digits_uint (d : Decimal.uint) (acc : positive) (rest : string) :
  Json.starts_with_digit rest = false ->
  Json.parse_digits (Z.pos acc) (NilEmpty.string_of_uint d +:+ rest)
  = (Z.pos (Pos.of_uint_acc d acc), rest).
Proof.
  intros Hrest. revert acc.
  induction d as [|d IH|d IH|d IH|d IH|d IH|d IH|d IH|d IH|d IH|d IH]; intros acc.
  - destruct rest as [|c rest]; [reflexivity|].
    simpl in Hrest |- *. rewrite Hrest. reflexivity.
  - digit_case IH "0"%char 0.
  - digit_case IH "1"%char 1.
  - digit_case IH "2"%char 2.
  - digit_case IH "3"%char 3.
  - digit_case IH "4"%char 4.
  - digit_case IH "5"%char 5.
  - digit_case IH "6"%char 6.
  - digit_case IH "7"%char 7.
  - digit_case IH "8"%char 8.
  - digit_case IH "9"%char 9.
Qed.

(** The decimal digits of a positive number do not start with a zero. *)
Lemma to_uint_head (p : positive) :
  match Pos.to_uint p with
  | Decimal.Nil | Decimal.D0 _ => False
  | _ => True
  end.
Proof.
  assert (Hu : Decimal.unorm (Pos.to_uint p) = Pos.to_uint p).
  { rewrite <- (DecimalPos.Unsigned.to_of (Pos.to_uint p)), DecimalPos.Unsigned.of_to.
    reflexivity. }
  destruct (Pos.to_uint p) as [|l|l|l|l|l|l|l|l|l|l] eqn:E; try exact I.
  - exact (DecimalPos.Unsigned.to_uint_nonnil p E).
  - destruct l as [|l|l|l|l|l|l|l|l|l|l];
      [exact (DecimalPos.Unsigned.to_uint_nonzero p E) | ..];
      rewrite DecimalFacts.unorm_D0 in Hu;
      match type of Hu with
      | Decimal.unorm ?u = _ =>
          assert (Hn : u <> Decimal.Nil) by discriminate;
          pose proof (DecimalFacts.nb_digits_unorm u Hn) as Hle;
          rewrite Hu in Hle; simpl in Hle; lia
      end.
Qed.

Ltac first_digit_case Hof Hrest ch k :=
  match goal with
  | |- Json.parse_nat (NilEmpty.string_of_uint (_ ?d) +:+ ?rest) = _ =>
      change (NilEmpty.string_of_uint (_ d) +:+ rest)
        with (String ch (NilEmpty.string_of_uint d +:+ rest));
      change (Json.parse_nat (String ch (NilEmpty.string_of_uint d +:+ rest)))
        with (Some (Json.parse_digits 0 (String ch (NilEmpty.string_of_uint d +:+ rest))));
      rewrite parse_digits_step by reflexivity;
      change (10 * 0 + Z.of_nat (nat_of_ascii ch - 48)) with (Z.pos k);
      rewrite (parse_digits_uint d k rest Hrest);
      simpl in Hof; inversion Hof; reflexivity
  end.

(** The digits of a positive number are read back as the number. *)
Lemma parse_nat_pos (p : positive) (rest : string) :
  Json.starts_with_digit rest = false ->
  Json.parse_nat (NilEmpty.string_of_uint (Pos.to_uint p) +:+ rest)
  = Some (Z.pos p, rest).
Proof.
  intros Hrest.
  pose proof (DecimalPos.Unsigned.of_to p) as Hof.
  pose proof (to_uint_head p) as Hhead.
  destruct (Pos.to_uint p) as [|l|l|l|l|l|l|l|l|l|l]; try contradiction.
  - first_digit_case Hof Hrest "1"%char 1%positive.
  - first_digit_case Hof Hrest "2"%char 2%positive.
  - first_digit_case Hof Hrest "3"%char 3%positive.
  - first_digit_case Hof Hrest "4"%char 4%positive.
  - first_digit_case Hof Hrest "5"%char 5%positive.
  - first_digit_case Hof Hrest "6"%char 6%positive.
  - first_digit_case Hof Hrest "7"%char 7%positive.
  - first_digit_case Hof Hrest "8"%char 8%positive.
  - first_digit_case Hof Hrest "9"%char 9%positive.
Qed.

Lemma string_of_uint_pos (p : positive) :
  NilZero.string_of_uint (Pos.to_uint p) = NilEmpty.string_of_uint (Pos.to_uint p).
Proof.
  pose proof (DecimalPos.Unsigned.to_uint_nonnil p) as H.
  destruct (Pos.to_uint p); [contradiction | reflexivity..].
Qed.

(** The text after the integer part, when it is delimited, adds nothing. *)
Lemma parse_number_of_nat (negative : bool) (text rest : string) (z : Z) :
  delimited rest = true ->
  Json.parse_nat text = Some (z, rest) ->
  match Json.parse_nat text with
  | Some (z0, r) =>
      let '(f, r1) := Json.skip_fraction r in
      let '(e, r2) := Json.skip_exponent r1 in
      Some (if negative then - z0 else z0, f || e, r2)
  | None => None
  end = Some (if negative then - z else z, false, rest).
Proof.
  intros Hd ->. destruct (delimited_no_fraction rest Hd) as [-> ->]. reflexivity.
Qed.

(** The decimal text of an integer is read back as the integer. *)
Lemma parse_number_str_of_Z (z : Z) (rest : string) :
  delimited rest = true ->
  Json.parse_number (str_of_Z z +:+ rest) = Some (z, false, rest).
Proof.
  intros Hd. pose proof (delimited_no_digit rest Hd) as Hnd.
  destruct z as [|p|p].
  - change (str_of_Z 0 +:+ rest) with (String "0" rest).
    exact (parse_number_of_nat false (String "0" rest) rest 0 Hd eq_refl).
  - unfold str_of_Z. simpl Z.to_int. cbn [NilZero.string_of_int].
    rewrite string_of_uint_pos.
    pose proof (parse_nat_pos p rest Hnd) as Hnat.
    pose proof (string_of_uint_chars (Pos.to_uint p)) as Hc.
    pose proof (DecimalPos.Unsigned.to_uint_nonnil p) as Hnn.
    destruct (NilEmpty.string_of_uint (Pos.to_uint p)) as [|c s0] eqn:E.
    + destruct (Pos.to_uint p); try contradiction; discriminate E.
    + assert (Hminus : (nat_of_ascii c =? 45)%nat = false).
      { destruct (Pos.to_uint p); try contradiction; simpl in E; inversion E; reflexivity. }
      change (String c s0 +:+ rest) with (String c (s0 +:+ rest)) in *.
      unfold Json.parse_number. rewrite Hminus.
      exact (parse_number_of_nat false _ rest (Z.pos p) Hd Hnat).
  - unfold str_of_Z. simpl Z.to_int. cbn [NilZero.string_of_int].
    rewrite string_of_uint_pos.
    change (String "-" (NilEmpty.string_of_uint (Pos.to_uint p)) +:+ rest)
      with (String "-" (NilEmpty.string_of_uint (Pos.to_uint p) +:+ rest)).
    pose proof (parse_nat_pos p rest Hnd) as Hnat.
    exact (parse_number_of_nat true _ rest (Z.pos p) Hd Hnat).
Qed.

(** How [parse_value] dispatches on the first character. *)
Lemma parse_value_string (f : nat) (rest : string) :
  Json.parse_value (S f) (String Json.DQUOTE rest)
  = match Json.parse_string rest with
    | Some (y, x, r) => Some (VStr y, x, r)
    | None => None
    end.
Proof. reflexivity. Qed.

Lemma parse_value_list (f : nat) (rest : string) :
  Json.parse_value (S f) (String "[" rest)
  = match Json.skip_ws rest with
    | String d r =>
        if (nat_of_ascii d =? 93)%nat then Some (VList [], false, r)
        else match Json.parse_elems f rest with
             | Some (l, x, r') => Some (VList l, x, r')
             | None => None
             end
    | EmptyString => None
    end.
Proof. reflexivity. Qed.

Lemma parse_value_dict (f : nat) (rest : string) :
  Json.parse_value (S f) (String "{" rest)
  = match Json.skip_ws rest with
    | String d r =>
        if (nat_of_ascii d =? 125)%nat then Some (VDict [], false, r)
        else match Json.parse_members f rest with
             | Some (l, x, r') => Some (VDict (Json.dict_of_items l), x, r')
             | None => None
             end
    | EmptyString => None
    end.
Proof. reflexivity. Qed.

Lemma parse_value_number_step (f : nat) (c : ascii) (text : string) :
  is_sign_or_digit c = true ->
  Json.parse_value (S f) (String c text)
  = match Json.parse_number (String c text) with
    | Some (z, x, r) => Some (VInt z, x, r)
    | None =>
        if PyStr.startswith "NaN" (String c text)
        then Some (VNone, true, PyStr.drop 3 (String c text))
        else if PyStr.startswith "Infinity" (String c text)
        then Some (VNone, true, PyStr.drop 8 (String c text))
        else if PyStr.startswith "-Infinity" (String c text)
        then Some (VNone, true, PyStr.drop 9 (String c text))
        else None
    end.
Proof.
  intros H. ascii_cases c; vm_compute in H; try discriminate H; reflexivity.
Qed.

Lemma parse_value_number (f : nat) (c : ascii) (text : string)
    (z : Z) (x : bool) (r : string) :
  is_sign_or_digit c = true ->
  Json.parse_number (String c text) = Some (z, x, r) ->
  Json.parse_value (S f) (String c text) = Some (VInt z, x, r).
Proof. intros H Hn. rewrite (parse_value_number_step f c text H), Hn. reflexivity. Qed.

Lemma parse_elems_step (f : nat) (s : string) :
  Json.parse_elems (S f) s
  = match Json.parse_value f s with
    | Some (v, x, r) =>
        match Json.skip_ws r with
        | String d r' =>
            if (nat_of_ascii d =? 44)%nat then
              match Json.parse_elems f r' with
              | Some (l, x', r'') => Some (v :: l, x || x', r'')
              | None => None
              end
            else if (nat_of_ascii d =? 93)%nat then Some ([v], x, r')
            else None
        | EmptyString => None
        end
    | None => None
    end.
Proof. reflexivity. Qed.

Lemma parse_members_step (f : nat) (s : string) :
  Json.parse_members (S f) (String Json.DQUOTE s)
  = match Json.parse_string s with
    | Some (k, xk, s2) =>
        match Json.skip_ws s2 with
        | String c s3 =>
            if (nat_of_ascii c =? 58)%nat then
              match Json.parse_value f s3 with
              | Some (v, x, r) =>
                  match Json.skip_ws r with
                  | String d r' =>
                      if (nat_of_ascii d =? 44)%nat then
                        match Json.parse_members f r' with
                        | Some (l, x', r'') => Some ((k, v) :: l, xk || x || x', r'')
                        | None => None
                        end
                      else if (nat_of_ascii d =? 125)%nat
                      then Some ([(k, v)], xk || x, r')
                      else None
                  | EmptyString => None
                  end
              | None => None
              end
            else None
        | EmptyString => None
        end
    | None => None
    end.
Proof. reflexivity. Qed.

(** A space before a value, a list item or a dictionary item is skipped. *)
Lemma parse_value_space (fuel : nat) (s : string) :
  Json.parse_value fuel (String " " s) = Json.parse_value fuel s.
Proof. destruct fuel; reflexivity. Qed.

Lemma parse_elems_space (fuel : nat) (s : string) :
  Json.parse_elems fuel (String " " s) = Json.parse_elems fuel s.
Proof.
  destruct fuel as [|f]; [reflexivity|].
  rewrite !parse_elems_step, parse_value_space. reflexivity.
Qed.

Lemma parse_members_space (fuel : nat) (s : string) :
  Json.parse_members fuel (String " " s) = Json.parse_members fuel s.
Proof. destruct fuel; reflexivity. Qed.

(** Building a dictionary from items with distinct keys keeps the items. *)
Lemma distinct_NoDup (ks : list string) : distinct ks = true -> List.NoDup ks.
Proof.
  induction ks as [|k ks IH]; simpl; intros H; constructor.
  - apply andb_true_iff in H. destruct H as [H _]. apply negb_true_iff in H.
    intros Hin.
    assert (Hex : existsb (String.eqb k) ks = true).
    { apply existsb_exists. exists k. split; [exact Hin | apply String.eqb_refl]. }
    congruence.
  - apply IH. apply andb_true_iff in H. tauto.
Qed.

Lemma dict_set_fresh (k : string) (v : value) (d : list (string * value)) :
  ~ In k (map fst d) -> dict_set k v d = (d ++ [(k, v)])%list.
Proof.
  induction d as [|[k' v'] d IH]; simpl; intros H; [reflexivity|].
  destruct (String.eqb k' k) eqn:E.
  - apply String.eqb_eq in E. tauto.
  - rewrite IH by tauto. reflexivity.
Qed.

Lemma fold_dict_set (l acc : list (string * value)) :
  List.NoDup (map fst (acc ++ l)) ->
  fold_left (fun d kv => dict_set (fst kv) (snd kv) d) l acc = (acc ++ l)%list.
Proof.
  revert acc. induction l as [|[k v] l IH]; intros acc H; simpl.
  - now rewrite app_nil_r.
  - rewrite dict_set_fresh.
    + rewrite IH; rewrite <- app_assoc; [reflexivity | exact H].
    + rewrite map_app in H. simpl in H. apply NoDup_remove_2 in H.
      intros Hin. apply H. apply in_or_app. now left.
Qed.

Lemma dict_of_items_distinct (d : list (string * value)) :
  distinct (map fst d) = true -> Json.dict_of_items d = d.
Proof.
  intros H. unfold Json.dict_of_items. apply (fold_dict_set d []).
  now apply distinct_NoDup.
Qed.

(** The first character of a JSON text. *)
Lemma str_of_Z_head (z : Z) :
  exists c s0, str_of_Z z = String c s0 /\ is_sign_or_digit c = true.
Proof.
  destruct z as [|p|p].
  - now exists "0"%char, EmptyString.
  - unfold str_of_Z. simpl Z.to_int. cbn [NilZero.string_of_int].
    pose proof (DecimalPos.Unsigned.to_uint_nonnil p) as Hnn.
    destruct (Pos.to_uint p); [contradiction | do 2 eexists; split; reflexivity ..].
  - unfold str_of_Z. simpl Z.to_int. cbn [NilZero.string_of_int].
    do 2 eexists. split; reflexivity.
Qed.

Lemma sign_or_digit_json_head (c : ascii) :
  is_sign_or_digit c = true -> json_head c = true.
Proof. ascii_cases c; vm_compute; intros H; try reflexivity; discriminate H. Qed.

Lemma dumps_head (v : value) :
  modelled v = true ->
  exists c s0, Json.dumps v = String c s0 /\ json_head c = true.
Proof.
  destruct v as [|b|z|t|l|d|j]; intros Hm.
  - now exists "n"%char, "ull".
  - destruct b; [now exists "t"%char, "rue" | now exists "f"%char, "alse"].
  - destruct (str_of_Z_head z) as (c & s0 & E & Hc).
    exists c, s0. split; [exact E | now apply sign_or_digit_json_head].
  - do 2 eexists. split; reflexivity.
  - do 2 eexists. split; reflexivity.
  - do 2 eexists. split; reflexivity.
  - discriminate Hm.
Qed.

Lemma skip_ws_json_head (c : ascii) (s : string) :
  json_head c = true -> Json.skip_ws (String c s) = String c s.
Proof.
  intros H. unfold Json.skip_ws. simpl.
  replace (Json.is_ws c) with false; [reflexivity|].
  revert H. ascii_cases c; vm_compute; intros H; try reflexivity; discriminate H.
Qed.

Lemma json_head_not_closing (c : ascii) :
  json_head c = true ->
  (nat_of_ascii c =? 93)%nat = false /\ (nat_of_ascii c =? 125)%nat = false.
Proof. ascii_cases c; vm_compute; intros H; try (split; reflexivity); discriminate H. Qed.

Lemma length_append (a b : string) :
  String.length (a +:+ b) = (String.length a + String.length b)%nat.
Proof.
  induction a as [|x a IH]; [reflexivity|].
  change (S (String.length (a +:+ b)) = S (String.length a + String.length b)).
  now rewrite IH.
Qed.

Lemma append_nil_r (a : string) : a +:+ EmptyString = a.
Proof.
  induction a as [|x a IH]; [reflexivity|].
  change (String x (a +:+ EmptyString) = String x a). now rewrite IH.
Qed.

(** The items of a list are read back one after the other. *)
Lemma parse_elems_join (l : list value) :
  Forall reads_back l -> forallb modelled l = true -> l <> [] ->
  forall (fuel : nat) (rest : string),
    (elems_fuel fuel_needed l <= fuel)%nat ->
    Json.parse_elems fuel (PyStr.join ", " (map Json.dumps l) +:+ String "]" rest)
    = Some (l, false, rest).
Proof.
  induction 1 as [|x l Hx Hl IH]; intros Hm Hne fuel rest Hfuel; [contradiction|].
  simpl in Hm. apply andb_true_iff in Hm. destruct Hm as [Hmx Hml].
  destruct fuel as [|f]; [simpl in Hfuel; lia|].
  simpl in Hfuel. rewrite parse_elems_step.
  destruct l as [|y l].
  - change (PyStr.join ", " (map Json.dumps [x])) with (Json.dumps x).
    rewrite (Hx Hmx f (String "]" rest)); [reflexivity | lia | reflexivity].
  - change (PyStr.join ", " (map Json.dumps (x :: y :: l)))
      with (Json.dumps x +:+ ", " +:+ PyStr.join ", " (map Json.dumps (y :: l))).
    rewrite !append_assoc3.
    change (", " +:+ PyStr.join ", " (map Json.dumps (y :: l)) +:+ String "]" rest)
      with (String "," (String " " (PyStr.join ", " (map Json.dumps (y :: l))
                                    +:+ String "]" rest))).
    rewrite (Hx Hmx f); [|lia|reflexivity].
    change (Json.skip_ws (String "," ?s)) with (String "," s).
    cbn [Json.skip_ws PyStr.lstrip_by].
    change (Json.is_ws ",") with false. cbv iota.
    change (nat_of_ascii "," =? 44)%nat with true. cbv iota.
    rewrite parse_elems_space, (IH Hml); [reflexivity | discriminate | lia].
Qed.

Lemma member_text_shape (k : string) (x : value) (tail : string) :
  (Json.quote k +:+ ": " +:+ Json.dumps x) +:+ tail
  = String Json.DQUOTE
      (Json.escape k +:+
       String Json.DQUOTE (String ":" (String " " (Json.dumps x +:+ tail)))).
Proof.
  unfold Json.quote.
  change (String Json.DQUOTE (Json.escape k +:+ String Json.DQUOTE EmptyString)
          +:+ ": " +:+ Json.dumps x)
    with (String Json.DQUOTE
            ((Json.escape k +:+ String Json.DQUOTE EmptyString)
             +:+ ": " +:+ Json.dumps x)).
  change (String Json.DQUOTE
            ((Json.escape k +:+ String Json.DQUOTE EmptyString)
             +:+ ": " +:+ Json.dumps x) +:+ tail)
    with (String Json.DQUOTE
            (((Json.escape k +:+ String Json.DQUOTE EmptyString)
              +:+ ": " +:+ Json.dumps x) +:+ tail)).
  rewrite !append_assoc3. reflexivity.
Qed.

(** The items of a dictionary are read back one after the other. *)
Lemma parse_members_join (d : list (string * value)) :
  Forall (fun kv => reads_back (snd kv)) d ->
  forallb (fun kv => match kv with (_, x) => modelled x end) d = true ->
  d <> [] ->
  forall (fuel : nat) (rest : string),
    (members_fuel fuel_needed d <= fuel)%nat ->
    Json.parse_members fuel
      (PyStr.join ", "
         (map (fun kv => match kv with
                         | (k, x) => Json.quote k +:+ ": " +:+ Json.dumps x
                         end) d)
       +:+ String "}" rest)
    = Some (d, false, rest).
Proof.
  induction 1 as [|[k x] d Hx Hd IH]; intros Hm Hne fuel rest Hfuel; [contradiction|].
  simpl in Hm. apply andb_true_iff in Hm. destruct Hm as [Hmx Hmd].
  destruct fuel as [|f]; [simpl in Hfuel; lia|].
  simpl in Hfuel, Hx.
  destruct d as [|[k2 x2] d].
  - change (PyStr.join ", " (map _ [(k, x)])) with (Json.quote k +:+ ": " +:+ Json.dumps x).
    rewrite member_text_shape, parse_members_step, parse_string_escape.
    change (Json.skip_ws (String ":" ?s)) with (String ":" s).
    cbn [Json.skip_ws PyStr.lstrip_by].
    change (Json.is_ws ":") with false. cbv iota.
    change (nat_of_ascii ":" =? 58)%nat with true. cbv iota.
    rewrite parse_value_space, (Hx Hmx f (String "}" rest)); [reflexivity | lia | reflexivity].
  - match goal with
    | |- Json.parse_members _ (PyStr.join ", " (map ?g _) +:+ _) = _ =>
        change (PyStr.join ", " (map g ((k, x) :: (k2, x2) :: d)))
          with ((Json.quote k +:+ ": " +:+ Json.dumps x)
                +:+ ", " +:+ PyStr.join ", " (map g ((k2, x2) :: d)))
    end.
    rewrite (append_assoc3 (Json.quote k +:+ ": " +:+ Json.dumps x)).
    rewrite member_text_shape, parse_members_step, parse_string_escape.
    cbn [Json.skip_ws PyStr.lstrip_by].
    change (Json.is_ws ":") with false. cbv iota.
    change (nat_of_ascii ":" =? 58)%nat with true. cbv iota.
    rewrite parse_value_space, append_assoc3.
    match goal with
    | |- context [", " +:+ ?J +:+ String "}" rest] =>
        change (", " +:+ J +:+ String "}" rest)
          with (String "," (String " " (J +:+ String "}" rest)))
    end.
    rewrite (Hx Hmx f); [|lia|reflexivity].
    cbn [Json.skip_ws PyStr.lstrip_by].
    change (Json.is_ws ",") with false. cbv iota.
    change (nat_of_ascii "," =? 44)%nat with true. cbv iota.
    rewrite parse_members_space, (IH Hmd); [reflexivity | discriminate | lia].
Qed.

(** Every value of the model is read back from its JSON text. *)
Lemma dumps_reads_back (v : value) : reads_back v.
Proof.
  induction v as [|b|z|t|l IH|d IH|j] using value_ind_nested;
    intros Hm fuel rest Hfuel Hrest;
    (destruct fuel as [|f]; [simpl in Hfuel; lia|]).
  - reflexivity.
  - destruct b; reflexivity.
  - destruct (str_of_Z_head z) as (c & s0 & E & Hc).
    pose proof (parse_number_str_of_Z z rest Hrest) as Hn.
    change (Json.dumps (VInt z)) with (str_of_Z z). rewrite E in Hn |- *.
    now apply parse_value_number.
  - change (Json.dumps (VStr t) +:+ rest)
      with (String Json.DQUOTE ((Json.escape t +:+ String Json.DQUOTE EmptyString) +:+ rest)).
    rewrite append_assoc3, parse_value_string.
    change (String Json.DQUOTE EmptyString +:+ rest) with (String Json.DQUOTE rest).
    rewrite parse_string_escape. reflexivity.
  - change (Json.dumps (VList l) +:+ rest)
      with (String "[" ((PyStr.join ", " (map Json.dumps l) +:+ "]") +:+ rest)).
    rewrite append_assoc3, parse_value_list.
    change ("]" +:+ rest) with (String "]" rest).
    destruct l as [|x l]; [reflexivity|].
    change (modelled (VList (x :: l))) with (forallb modelled (x :: l)) in Hm.
    pose proof (parse_elems_join (x :: l) IH Hm ltac:(discriminate) f rest) as He.
    simpl in Hfuel. rewrite He by (simpl; lia).
    assert (Hx : modelled x = true) by (simpl in Hm; apply andb_true_iff in Hm; tauto).
    destruct (dumps_head x Hx) as (c & s0 & E & Hc).
    assert (Hshape : exists s1,
               PyStr.join ", " (map Json.dumps (x :: l)) +:+ String "]" rest = String c s1).
    { destruct l as [|y l].
      - change (PyStr.join ", " (map Json.dumps [x])) with (Json.dumps x).
        rewrite E. now eexists.
      - change (PyStr.join ", " (map Json.dumps (x :: y :: l)))
          with (Json.dumps x +:+ ", " +:+ PyStr.join ", " (map Json.dumps (y :: l))).
        rewrite E. now eexists. }
    destruct Hshape as [s1 ->].
    rewrite (skip_ws_json_head _ _ Hc), (proj1 (json_head_not_closing c Hc)).
    reflexivity.
  - change (Json.dumps (VDict d) +:+ rest)
      with (String "{"
              ((PyStr.join ", "
                  (map (fun kv => match kv with
                                  | (k, x) => Json.quote k +:+ ": " +:+ Json.dumps x
                                  end) d) +:+ "}") +:+ rest)).
    rewrite append_assoc3, parse_value_dict.
    change ("}" +:+ rest) with (String "}" rest).
    destruct d as [|[k x] d]; [reflexivity|].
    change (modelled (VDict ((k, x) :: d)))
      with (distinct (map fst ((k, x) :: d)) &&
            forallb (fun kv => match kv with (_, y) => modelled y end) ((k, x) :: d)) in Hm.
    apply andb_true_iff in Hm. destruct Hm as [Hkeys Hm].
    pose proof (parse_members_join ((k, x) :: d) IH Hm ltac:(discriminate) f rest) as He.
    simpl in Hfuel. rewrite He by (simpl; lia).
    rewrite (dict_of_items_distinct _ Hkeys).
    assert (Hshape : exists s1,
               PyStr.join ", "
                 (map (fun kv => match kv with
                                 | (k, x) => Json.quote k +:+ ": " +:+ Json.dumps x
                                 end) ((k, x) :: d)) +:+ String "}" rest
               = String Json.DQUOTE s1).
    { destruct d as [|[k2 x2] d]; now eexists. }
    destruct Hshape as [s1 ->]. reflexivity.
  - discriminate Hm.
Qed.

(** The number of nested calls [json.loads] allows is enough. *)
Lemma elems_fuel_bound (l : list value) :
  Forall (fun x => (fuel_needed x <= String.length (Json.dumps x) + 1)%nat) l ->
  (elems_fuel fuel_needed l
   <= String.length (PyStr.join ", " (map Json.dumps l)) + 2)%nat.
Proof.
  induction 1 as [|x l Hx Hl IH]; [simpl; lia|].
  destruct l as [|y l].
  - simpl in *. lia.
  - change (PyStr.join ", " (map Json.dumps (x :: y :: l)))
      with (Json.dumps x +:+ ", " +:+ PyStr.join ", " (map Json.dumps (y :: l))).
    change (elems_fuel fuel_needed (x :: y :: l))
      with (S (Nat.max (fuel_needed x) (elems_fuel fuel_needed (y :: l)))).
    set (J := PyStr.join ", " (map Json.dumps (y :: l))) in *.
    set (E := elems_fuel fuel_needed (y :: l)) in *.
    rewrite !length_append. change (String.length ", ") with 2%nat. lia.
Qed.

Lemma members_fuel_bound (d : list (string * value)) :
  Forall (fun kv => (fuel_needed (snd kv) <= String.length (Json.dumps (snd kv)) + 1)%nat) d ->
  (members_fuel fuel_needed d
   <= String.length
        (PyStr.join ", "
           (map (fun kv => match kv with
                           | (k, x) => Json.quote k +:+ ": " +:+ Json.dumps x
                           end) d)) + 2)%nat.
Proof.
  induction 1 as [|[k x] d Hx Hd IH]; [simpl; lia|].
  simpl in Hx.
  destruct d as [|[k2 x2] d].
  - change (PyStr.join ", " (map _ [(k, x)])) with (Json.quote k +:+ ": " +:+ Json.dumps x).
    rewrite !length_append. simpl. lia.
  - match goal with
    | |- context [PyStr.join ", " (map ?g _)] =>
        change (PyStr.join ", " (map g ((k, x) :: (k2, x2) :: d)))
          with ((Json.quote k +:+ ": " +:+ Json.dumps x)
                +:+ ", " +:+ PyStr.join ", " (map g ((k2, x2) :: d)))
    end.
    change (members_fuel fuel_needed ((k, x) :: (k2, x2) :: d))
      with (S (Nat.max (fuel_needed x) (members_fuel fuel_needed ((k2, x2) :: d)))).
    match goal with
    | |- context [PyStr.join ", " (map ?g ((k2, x2) :: d))] =>
        set (J := PyStr.join ", " (map g ((k2, x2) :: d))) in *
    end.
    set (E := members_fuel fuel_needed ((k2, x2) :: d)) in *.
    rewrite !length_append. change (String.length ", ") with 2%nat. lia.
Qed.

Lemma fuel_needed_bound (v : value) :
  (fuel_needed v <= String.length (Json.dumps v) + 1)%nat.
Proof.
  induction v as [|b|z|t|l IH|d IH|j] using value_ind_nested; try (simpl; lia).
  - pose proof (elems_fuel_bound l IH) as H.
    change (Json.dumps (VList l))
      with ("[" +:+ PyStr.join ", " (map Json.dumps l) +:+ "]").
    rewrite !length_append. simpl. lia.
  - pose proof (members_fuel_bound d IH) as H.
    change (Json.dumps (VDict d))
      with ("{" +:+ PyStr.join ", "
                      (map (fun kv => match kv with
                                      | (k, x) => Json.quote k +:+ ": " +:+ Json.dumps x
                                      end) d) +:+ "}").
    rewrite !length_append. simpl. lia.
Qed.

(** [json.loads(json.dumps(v))] is [v] for every value of the model. *)
Lemma loads_dumps (v : value) :
  modelled v = true -> Json.loads (Json.dumps v) = Some v.
Proof.
  intros Hm. unfold Json.loads.
  pose proof (fuel_needed_bound v) as Hb.
  pose proof (dumps_reads_back v Hm (2 * String.length (Json.dumps v) + 2)%nat EmptyString
                ltac:(lia) eq_refl) as H.
  rewrite append_nil_r in H. rewrite H. reflexivity.
Qed.

(** ** What [read] makes of the texts [imprint] stores *)

Lemma stored_text_structured (v : value) :
  is_dict_or_list v = true -> stored_text v = JSON_PREFIX +:+ Json.dumps v.
Proof. unfold stored_text. now intros ->. Qed.

Lemma strip_stored_structured (v : value) :
  is_dict_or_list v = true ->
  PyStr.strip (JSON_PREFIX +:+ Json.dumps v) = JSON_PREFIX +:+ Json.dumps v.
Proof.
  intros Hv. destruct (dumps_structured_last v Hv) as (m & z & -> & Hz).
  change (JSON_PREFIX +:+ (m +:+ String z EmptyString))
    with (String "J" (("SON::" +:+ m) +:+ String z EmptyString)).
  now apply strip_first_last.
Qed.

(** A stored value that is [storable] is read back as [read_back] says. *)
Lemma decode_stored (v : value) :
  storable v -> decode_text (stored_text v) = read_back v.
Proof.
  unfold decode_text. destruct v as [|b|z|t|l|d|j]; intros Hs.
  - contradiction.
  - destruct b; reflexivity.
  - change (stored_text (VInt z)) with (str_of_Z z). simpl read_back.
    pose proof (str_of_Z_chars z) as Hc.
    rewrite strip_all
      by (apply (all_ch_impl is_sign_or_digit); [apply sign_or_digit_not_space|exact Hc]).
    rewrite parse_marked_plain
      by (apply (all_ch_startswith is_sign_or_digit); [reflexivity|exact Hc]).
    unfold convert_boolean, eq_text.
    assert (H1 : String.eqb (str_of_Z z) "true" = false)
      by (apply String.eqb_neq, (all_ch_neq is_sign_or_digit); [reflexivity|exact Hc]).
    assert (H2 : String.eqb (str_of_Z z) "false" = false)
      by (apply String.eqb_neq, (all_ch_neq is_sign_or_digit); [reflexivity|exact Hc]).
    rewrite H1, H2. reflexivity.
  - destruct Hs as ((_ & _ & Hstrip) & Hpre & Ht & Hf).
    change (stored_text (VStr t)) with t. rewrite Hstrip, (parse_marked_plain _ Hpre).
    unfold convert_boolean, eq_text.
    apply String.eqb_neq in Ht, Hf. rewrite Ht, Hf. reflexivity.
  - destruct Hs as (Hm & _).
    rewrite (stored_text_structured (VList l)), strip_stored_structured by reflexivity.
    rewrite parse_marked_json, (loads_dumps _ Hm). reflexivity.
  - destruct Hs as (Hm & _).
    rewrite (stored_text_structured (VDict d)), strip_stored_structured by reflexivity.
    rewrite parse_marked_json, (loads_dumps _ Hm). reflexivity.
  - contradiction.
Qed.

(** The text stored for a [storable] value holds no [=] and no line
    separator. *)
Lemma stored_text_fits (v : value) :
  storable v ->
  modelled v = true /\
  PyStr.contains_ch "=" (stored_text v) = false /\
  PyStr.contains_crlf (stored_text v) = false.
Proof.
  destruct v as [|b|z|t|l|d|j]; intros Hs.
  - contradiction.
  - destruct b; repeat split.
  - change (stored_text (VInt z)) with (str_of_Z z). split; [reflexivity|]. split.
    + apply (all_ch_contains is_sign_or_digit); [reflexivity|apply str_of_Z_chars].
    + apply (all_ch_no_crlf is_sign_or_digit); [reflexivity|apply str_of_Z_chars].
  - destruct Hs as ((He & Hc & _) & _). split; [reflexivity|]. split; assumption.
  - destruct Hs as (Hm & He).
    rewrite (stored_text_structured (VList l)) by reflexivity.
    split; [exact Hm|]. split.
    + exact He.
    + change (JSON_PREFIX +:+ Json.dumps (VList l))
        with ("JSON:" +:+ String ":" (Json.dumps (VList l))).
      apply contains_crlf_app_ch; try reflexivity. now apply dumps_no_crlf.
  - destruct Hs as (Hm & He).
    rewrite (stored_text_structured (VDict d)) by reflexivity.
    split; [exact Hm|]. split.
    + exact He.
    + change (JSON_PREFIX +:+ Json.dumps (VDict d))
        with ("JSON:" +:+ String ":" (Json.dumps (VDict d))).
      apply contains_crlf_app_ch; try reflexivity. now apply dumps_no_crlf.
  - contradiction.
Qed.

(** ** [imprint] followed by [read] *)

Lemma buffer_after_SetUserProp (s : scene) (n : node) (k : string) (v : value) :
  Host.GetUserPropBuffer (Host.SetUserProp s n k v) n
  = Host.set_line (Host.GetUserPropBuffer s n) k (Host.scalar_text v).
Proof.
  unfold Host.SetUserProp, Host.GetUserPropBuffer at 1. simpl.
  rewrite lookup_insert_eq. reflexivity.
Qed.

Lemma buffer_after_imprint_item (s : scene) (n : node) (k : string) (v : value) :
  Host.GetUserPropBuffer (imprint_item n s (k, v)) n
  = Host.set_line (Host.GetUserPropBuffer s n) k (stored_text v).
Proof.
  unfold imprint_item, stored_text.
  destruct (is_dict_or_list v); apply buffer_after_SetUserProp.
Qed.

(** The buffers of the other nodes are not touched. *)
Lemma buffer_of_other_node (s : scene) (n m : node) (kv : string * value) :
  Handle m <> Handle n ->
  Host.GetUserPropBuffer (imprint_item n s kv) m = Host.GetUserPropBuffer s m.
Proof.
  intros Hne. destruct kv as [k v]. unfold imprint_item.
  destruct (is_dict_or_list v); unfold Host.SetUserProp, Host.GetUserPropBuffer; simpl;
    rewrite lookup_insert_ne by congruence; reflexivity.
Qed.

Lemma root_after_imprint_items (n : node) (data : list (string * value)) (s : scene) :
  RootNode (fold_left (imprint_item n) data s) = RootNode s.
Proof.
  revert s. induction data as [|[k v] data IH]; intros s; [reflexivity|].
  simpl. rewrite IH. unfold imprint_item.
  destruct (is_dict_or_list v); reflexivity.
Qed.

Lemma new_line_no_crlf (k text : string) :
  PyStr.contains_crlf k = false -> PyStr.contains_crlf text = false ->
  PyStr.contains_crlf (k +:+ "=" +:+ text) = false.
Proof.
  intros Hk Ht. change (k +:+ "=" +:+ text) with (k +:+ String "=" text).
  apply contains_crlf_app_ch; try reflexivity; assumption.
Qed.

(** One item written: its key reads back, the other keys are as before. *)
Lemma parsed_after_item_same (s : scene) (n : node) (k : string) (v : value) :
  line_safe (k, v) ->
  parse_buffer (Host.GetUserPropBuffer (imprint_item n s (k, v)) n) !! k
  = Some (decode_text (stored_text v)).
Proof.
  intros ((Hk & Hkc & Hks) & _ & Hte & Htc). cbn [fst snd] in *.
  rewrite buffer_after_imprint_item.
  apply parse_buffer_set_same; try assumption.
  now apply new_line_no_crlf.
Qed.

Lemma parsed_after_item_other (s : scene) (n : node) (k k' : string) (v : value) :
  line_safe (k, v) -> k' <> k ->
  parse_buffer (Host.GetUserPropBuffer (imprint_item n s (k, v)) n) !! k'
  = parse_buffer (Host.GetUserPropBuffer s n) !! k'.
Proof.
  intros ((Hk & Hkc & Hks) & _ & Hte & Htc) Hne. cbn [fst snd] in *.
  rewrite buffer_after_imprint_item.
  apply parse_buffer_set_other; try assumption.
  now apply new_line_no_crlf.
Qed.

(** All items written: a key that is not among them is as before. *)
Lemma parsed_after_items_other (n : node) (data : list (string * value)) (k' : string) :
  Forall line_safe data ->
  ~ In k' (map fst data) ->
  forall s,
    parse_buffer (Host.GetUserPropBuffer (fold_left (imprint_item n) data s) n) !! k'
    = parse_buffer (Host.GetUserPropBuffer s n) !! k'.
Proof.
  induction 1 as [|[k v] data Hkv Hdata IH]; intros Hnot s; [reflexivity|].
  simpl in *. rewrite IH by tauto.
  apply parsed_after_item_other; [exact Hkv|]. intros ->. tauto.
Qed.

(** All items written: each key reads back. *)
Lemma parsed_after_items_same (n : node) (data : list (string * value))
    (k : string) (v : value) :
  Forall line_safe data ->
  List.NoDup (map fst data) ->
  In (k, v) data ->
  forall s,
    parse_buffer (Host.GetUserPropBuffer (fold_left (imprint_item n) data s) n) !! k
    = Some (decode_text (stored_text v)).
Proof.
  induction 1 as [|[k0 v0] data Hkv Hdata IH]; intros Hnd Hin s; [contradiction|].
  simpl in *. inversion Hnd as [|? ? Hnotin Hnd']; subst.
  destruct Hin as [Heq | Hin].
  - inversion Heq; subst.
    rewrite (parsed_after_items_other n data k Hdata Hnotin).
    now apply parsed_after_item_same.
  - now apply IH.
Qed.

(** A plain key with a [storable] value is [line_safe]. *)
Lemma storable_line_safe (data : list (string * value)) :
  Forall (fun kv => plain_text (fst kv) /\ storable (snd kv)) data ->
  Forall line_safe data.
Proof.
  apply List.Forall_impl. intros [k v] [Hk Hv].
  split; [exact Hk | exact (stored_text_fits v Hv)].
Qed.

Lemma parse_buffer_empty : parse_buffer EmptyString = ∅.
Proof. reflexivity. Qed.

(** Outside [instance_node], [read] is the mapping built from the lines. *)
Lemma read_lookup_parsed (s : scene) (c : node) (k : string) :
  k <> "instance_node" ->
  read s c !! k = parse_buffer (Host.GetUserPropBuffer s c) !! k.
Proof.
  intros Hk. unfold read. destruct (Host.GetUserPropBuffer s c) as [|a buf].
  - rewrite parse_buffer_empty. reflexivity.
  - rewrite lookup_insert_ne by congruence. reflexivity.
Qed.

Lemma read_lookup_instance_node (s : scene) (c : node) :
  Host.GetUserPropBuffer s c <> EmptyString ->
  read s c !! "instance_node" = Some (VStr (Name c)).
Proof.
  intros H. unfold read.
  destruct (Host.GetUserPropBuffer s c); [contradiction|].
  apply lookup_insert_eq.
Qed.

(** A buffer in which [read] finds a key is not empty. *)
Lemma parsed_some_not_empty (buf k : string) (v : value) :
  parse_buffer buf !! k = Some v -> buf <> EmptyString.
Proof. intros H ->. rewrite parse_buffer_empty, lookup_empty in H. discriminate. Qed.

Lemma imprint_found (s : scene) (node_name : string) (n : node)
    (data : list (string * value)) :
  Host.GetNodeByName s node_name = Some n ->
  imprint s node_name data = (true, fold_left (imprint_item n) data s) /\
  Host.GetNodeByName (fold_left (imprint_item n) data s) node_name = Some n.
Proof.
  intros H. unfold imprint. rewrite H. split; [reflexivity|].
  unfold Host.GetNodeByName, Host.scene_nodes in *.
  rewrite root_after_imprint_items. exact H.
Qed.

Lemma buffers_of_other_nodes (n m : node) (data : list (string * value)) (s : scene) :
  Handle m <> Handle n ->
  Host.GetUserPropBuffer (fold_left (imprint_item n) data s) m
  = Host.GetUserPropBuffer s m.
Proof.
  intros Hne. revert s. induction data as [|kv data IH]; intros s; [reflexivity|].
  simpl. rewrite IH. now apply buffer_of_other_node.
Qed.

(** What [read] finds after the items of [data] were written. *)
Lemma read_after_items_same (n : node) (data : list (string * value)) (s : scene)
    (k : string) (v : value) :
  Forall line_safe data -> List.NoDup (map fst data) ->
  In (k, v) data -> k <> "instance_node" ->
  read (fold_left (imprint_item n) data s) n !! k
  = Some (decode_text (stored_text v)).
Proof.
  intros Hsafe Hnd Hin Hk. rewrite (read_lookup_parsed _ _ _ Hk).
  now apply parsed_after_items_same.
Qed.

Lemma read_after_items_other (n : node) (data : list (string * value)) (s : scene)
    (k' : string) :
  Forall line_safe data -> ~ In k' (map fst data) -> k' <> "instance_node" ->
  read (fold_left (imprint_item n) data s) n !! k' = read s n !! k'.
Proof.
  intros Hsafe Hnot Hk. rewrite !(read_lookup_parsed _ _ _ Hk).
  now apply parsed_after_items_other.
Qed.




(** ** [imprint] merges *)



Example imprint_twice_ex :
  let s2 := snd (imprint (snd (imprint ex_bare_scene "con" [("a", VInt 1)]))
                   "con" [("b", VInt 2)]) in
  read s2 ex_container !! "a" = Some (VStr "1") /\
  read s2 ex_container !! "b" = Some (VStr "2") /\
  Host.GetUserPropBuffer s2 ex_container = "a=1" +:+ PyStr.CRLF +:+ "b=2".
Proof. vm_compute. repeat split. Qed.

(** * Properties of the rest of the library *)

(** ** [get_all_children] *)

Lemma fold_list_children (cs : list node) (acc : list node) :
  Forall (fun c => list_children c = flat_map preorder (Children c)) cs ->
  fold_left (fun children c => ((children ++ [c]) ++ list_children c)%list) cs acc
  = (acc ++ flat_map preorder cs)%list.
Proof.
  intros H. revert acc. induction H as [|c cs Hc Hcs IH]; intros acc; simpl.
  - now rewrite app_nil_r.
  - rewrite IH, Hc, <- !app_assoc. destruct c as [h nm ch]. reflexivity.
Qed.

(** [list_children] lists what is under the node in pre-order. *)
Lemma list_children_preorder (n : node) :
  list_children n = flat_map preorder (Children n).
Proof.
  induction n as [h nm cs IH] using node_ind_children.
  simpl. exact (fold_list_children cs [] IH).
Qed.

(** X1: the traversal of [lsattr] and [get_all_children] agree: the nodes
    [output_node] appends are the node followed by all its children as
    [get_all_children] lists them without a node type. *)
Theorem output_node_get_all_children
    (SuperClassOf : node -> max_class) (n : node) (acc : list node) :
  output_node n acc = (acc ++ n :: get_all_children SuperClassOf n None)%list.
Proof.
  rewrite output_node_preorder. unfold get_all_children.
  rewrite list_children_preorder. destruct n; reflexivity.
Qed.

Lemma max_class_eqb_eq (a b : max_class) : max_class_eqb a b = true <-> a = b.
Proof.
  destruct a as [x], b as [y]. simpl. rewrite String.eqb_eq.
  split; [now intros -> | now inversion 1].
Qed.

(** The nodes of the pre-order are the nodes some path leads to. *)
Lemma preorder_node_at (n d : node) :
  In d (preorder n) <-> exists path, node_at n path = Some d.
Proof.
  split.
  - intros Hin.
    assert (H : In (Some d) (map Some (preorder n))) by now apply in_map.
    rewrite <- preorder_paths_nodes in H. apply in_map_iff in H.
    destruct H as (p & Hp & _). now exists p.
  - intros [p Hp].
    assert (Hin : In p (preorder_paths n)).
    { apply preorder_paths_complete. rewrite Hp. now eexists. }
    assert (H : In (Some d) (map (node_at n) (preorder_paths n))).
    { rewrite <- Hp. now apply in_map. }
    rewrite preorder_paths_nodes in H. apply in_map_iff in H.
    destruct H as (d' & Heq & Hd'). now inversion Heq; subst.
Qed.

(** X2: [get_all_children] returns exactly the nodes strictly under the
    parent -- those a non-empty path of child positions leads to -- and,
    when a node type is given, only those of that class. *)
Theorem get_all_children_spec
    (SuperClassOf : node -> max_class) (parent : node)
    (node_type : option max_class) (d : node) :
  In d (get_all_children SuperClassOf parent node_type) <->
  (exists i path, node_at parent (i :: path) = Some d) /\
  (forall t, node_type = Some t -> SuperClassOf d = t).
Proof.
  assert (Hall : In d (list_children parent) <->
                 exists i path, node_at parent (i :: path) = Some d).
  { rewrite list_children_preorder, in_flat_map. split.
    - intros (c & Hc & Hd). apply preorder_node_at in Hd. destruct Hd as [p Hp].
      apply In_nth_error in Hc. destruct Hc as [i Hi].
      exists i, p. simpl. now rewrite Hi.
    - intros (i & p & Hp). simpl in Hp.
      destruct (nth_error (Children parent) i) as [c|] eqn:Hi; [|discriminate].
      exists c. split; [now apply nth_error_In in Hi|].
      apply preorder_node_at. now exists p. }
  unfold get_all_children. destruct node_type as [t|].
  - rewrite filter_In, Hall, max_class_eqb_eq. split.
    + intros [H1 H2]. split; [exact H1|]. intros t' Ht'. now inversion Ht'; subst.
    + intros [H1 H2]. split; [exact H1 | now apply H2].
  - rewrite Hall. split; [intros H; split; [exact H | discriminate] | tauto].
Qed.

(** ** [lsattr] from a named root and from the scene root *)

Lemma in_tree_trans (d r root : node) :
  in_tree d r -> in_tree r root -> in_tree d root.
Proof.
  intros Hd Hr. induction Hr as [|n c Hc Hr IH]; [exact Hd|].
  now apply (in_tree_child d n c).
Qed.

(** X3: what [lsattr] finds from a named root it also finds from the scene
    root: with the same attribute and value, every node returned for a
    root name that names a node is returned when no root is given. *)
Theorem lsattr_root_subset
    (GetUserProp : scene -> node -> string -> value)
    (s : scene) (attr : string) (value0 : option string) (root : string) (r : node) :
  Host.GetNodeByName s root = Some r ->
  exists found found_all,
    lsattr GetUserProp s attr value0 (Some root) = Return found /\
    lsattr GetUserProp s attr value0 None = Return found_all /\
    forall n, In n found -> In n found_all.
Proof.
  intros Hr. unfold lsattr. rewrite Hr.
  assert (Hsub : forall n, In n (output_node r []) -> In n (output_node (RootNode s) [])).
  { intros n Hn. rewrite output_node_preorder in *. simpl in *.
    apply preorder_in_tree. apply preorder_in_tree in Hn.
    apply (in_tree_trans n r); [exact Hn|].
    apply preorder_in_tree. apply GetNodeByName_Some in Hr. destruct Hr as [Hin _].
    unfold Host.scene_nodes in Hin. now rewrite output_node_preorder in Hin. }
  destruct value0 as [[|a v]|]; do 2 eexists; (split; [reflexivity|]);
    (split; [reflexivity|]); intros n Hn; apply filter_In in Hn;
    apply filter_In; (split; [apply Hsub|]); tauto.
Qed.

Lemma lsattr_root_subset_witness :
  exists found found_all,
    lsattr Host.GetUserProp ex_deep_scene "foo" None (Some "d") = Return found /\
    lsattr Host.GetUserProp ex_deep_scene "foo" None None = Return found_all /\
    forall n, In n found -> In n found_all.
Proof.
  apply (lsattr_root_subset Host.GetUserProp ex_deep_scene "foo" None "d" ex_node_d).
  reflexivity.
Defined.

(** ** Frame range, resolution and colour management *)







(** X8: [reset_colorspace] changes the colour settings only when the host
    is of version 2024 or later and the configuration has a [path]: then
    it returns with the mode [OCIO_Custom] and that path.  Below 2024 it
    returns and changes nothing; from 2024 on, an empty configuration
    makes it raise [UnboundLocalError] and a non-empty one without [path]
    [KeyError], the settings unchanged. *)
Theorem reset_colorspace_cases
    (st : max_settings) (max_config_data : gmap string string) (version : Z) :
  get_max_version st = Done version ->
  reset_colorspace st max_config_data =
    if version <? 2024 then (st, Done tt)
    else
      match max_config_data !! "path" with
      | Some p => (set_OCIOConfigPath p (set_Mode "OCIO_Custom" st), Done tt)
      | None =>
          (st, Raised (if bool_decide (max_config_data = ∅)
                       then UnboundLocalError "ocio_config_path"
                       else KeyError "path"))
      end.
Proof.
  intros Hv. unfold reset_colorspace. rewrite Hv.
  destruct (version <? 2024); [reflexivity|].
  destruct (bool_decide (max_config_data = ∅)) eqn:He.
  - apply bool_decide_eq_true in He. subst. now rewrite lookup_empty.
  - destruct (max_config_data !! "path"); reflexivity.
Qed.

Lemma reset_colorspace_cases_witness :
  reset_colorspace ex_settings ∅
  = (ex_settings, Raised (UnboundLocalError "ocio_config_path")).
Proof.
  exact (reset_colorspace_cases ex_settings ∅ 2024 eq_refl).
Defined.



(** ** [CollectModelData.process] *)

Lemma process_families_lookup (data : gmap string value) (frame : value) :
  (<["endFrame" := frame]> (<["startFrame" := frame]> data)) !! "families"
  = data !! "families".
Proof.
  rewrite lookup_insert_ne by discriminate.
  now rewrite lookup_insert_ne by discriminate.
Qed.

(** X10: whatever the instance data hold, and whether or not the call
    raises, [process] leaves [startFrame] and [endFrame] at the current
    time and touches no key other than these two and [families]. *)
Theorem process_frames (data : gmap string value) (frame : value) :
  let data' := fst (process data frame) in
  data' !! "startFrame" = Some frame /\ data' !! "endFrame" = Some frame /\
  forall key, key <> "startFrame" -> key <> "endFrame" -> key <> "families" ->
              data' !! key = data !! key.
Proof.
  unfold process. rewrite process_families_lookup.
  assert (H2 : forall m : gmap string value,
             (<["endFrame" := frame]> (<["startFrame" := frame]> m)) !! "startFrame"
             = Some frame).
  { intros m. rewrite lookup_insert_ne by discriminate. apply lookup_insert_eq. }
  assert (Hk : forall key fam, key <> "startFrame" -> key <> "endFrame" ->
             key <> "families" ->
             (<["families" := fam]>
                (<["endFrame" := frame]> (<["startFrame" := frame]> data))) !! key
             = data !! key).
  { intros key fam K1 K2 K3. now rewrite !lookup_insert_ne by congruence. }
  destruct (data !! "families") as [v|]; [destruct (truthy v); [destruct v|]|];
    simpl; (split; [|split]);
    try (rewrite lookup_insert_ne by discriminate);
    try apply H2; try apply lookup_insert_eq; try apply Hk;
    intros key K1 K2 K3; now rewrite !lookup_insert_ne by congruence.
Qed.

(** X11: [process] raises exactly when [families] is there, counts as true
    and is not a list (a non-empty text or dictionary, a non-zero number,
    [True]); the data are then left with the two frames set and the
    families as they were. *)
Theorem process_raises_iff (data : gmap string value) (frame : value) :
  (snd (process data frame) = Raised NoAttribute <-> families_unusable data) /\
  (families_unusable data ->
   fst (process data frame)
   = <["endFrame" := frame]> (<["startFrame" := frame]> data)).
Proof.
  unfold process, families_unusable. rewrite process_families_lookup.
  destruct (data !! "families") as [v|] eqn:Hv.
  - destruct (truthy v) eqn:Ht.
    + destruct v; simpl; (split; [split|]); try reflexivity; try discriminate;
        try (intros _; eexists; split; [reflexivity|]; split; [exact Ht|];
             intros l0 Hl; discriminate Hl);
        intros (v' & Hv' & _ & Hl); inversion Hv'; subst; now destruct (Hl l).
    + simpl. split; [split|]; try discriminate;
        intros (v' & Hv' & Ht' & _); inversion Hv'; subst; congruence.
  - simpl. split; [split|]; try discriminate; intros (v' & Hv' & _); discriminate.
Qed.

(** A [process] that returns leaves [families] a list whose last entry is
    [ftrack] and whose earlier entries are the families the instance had. *)
Lemma process_done_families (data : gmap string value) (frame : value) :
  snd (process data frame) = Done tt ->
  fst (process data frame) !! "families"
  = Some (VList (families_before data ++ [VStr "ftrack"])).
Proof.
  unfold process, families_before. rewrite process_families_lookup.
  destruct (data !! "families") as [v|]; [destruct (truthy v) eqn:Ht; [destruct v|]|];
    simpl; try discriminate; intros _; rewrite lookup_insert_eq; try reflexivity.
  destruct v; try reflexivity. destruct l; [reflexivity | discriminate].
Qed.

Lemma process_times_families (k : nat) :
  forall (data : gmap string value) (frame : value),
  snd (process data frame) = Done tt ->
  snd (process_times (S k) data frame) = Done tt /\
  fst (process_times (S k) data frame) !! "families"
  = Some (VList (families_before data ++ repeat (VStr "ftrack") (S k))).
Proof.
  induction k as [|k IH]; intros data frame Hok.
  - pose proof (process_done_families data frame Hok) as Hf.
    simpl. destruct (process data frame) as [d' [[]|e]]; [|discriminate].
    simpl in *. now split.
  - pose proof (process_done_families data frame Hok) as Hf.
    change (process_times (S (S k)) data frame)
      with (match process data frame with
            | (data', Done _) => process_times (S k) data' frame
            | (data', Raised e) => (data', Raised e)
            end).
    destruct (process data frame) as [d' [[]|e]] eqn:Hp; [|discriminate].
    simpl in Hf.
    assert (Hok' : snd (process d' frame) = Done tt).
    { unfold process. rewrite process_families_lookup, Hf.
      destruct (families_before data); reflexivity. }
    destruct (IH d' frame Hok') as [H1 H2]. split; [exact H1|].
    rewrite H2. unfold families_before at 1. rewrite Hf.
    rewrite <- app_assoc. reflexivity.
Qed.

(** X12: [process] is not idempotent: run [k] times in a row on an
    instance whose first run returns, it returns every time and leaves
    [families] a list with [k] entries [ftrack] after the families the
    instance had at first when these were a list, and with nothing before
    them otherwise. *)
Theorem process_accumulates (k : nat) (data : gmap string value) (frame : value) :
  (0 < k)%nat ->
  snd (process data frame) = Done tt ->
  snd (process_times k data frame) = Done tt /\
  fst (process_times k data frame) !! "families"
  = Some (VList (families_before data ++ repeat (VStr "ftrack") k)).
Proof.
  intros Hk Hok. destruct k as [|k]; [lia|].
  now apply process_times_families.
Qed.

Lemma process_accumulates_witness :
  snd (process_times 3 ∅ (VInt 7)) = Done tt /\
  fst (process_times 3 ∅ (VInt 7)) !! "families"
  = Some (VList (families_before ∅ ++ repeat (VStr "ftrack") 3)).
Proof.
  apply (process_accumulates 3 ∅ (VInt 7)); [lia | reflexivity].
Defined.

(** ** [object_transform_set] *)

Lemma length_cons_append (x : ascii) (a s : string) :
  String.length (String x a +:+ s) = S (String.length a + String.length s).
Proof.
  change (String x a +:+ s) with (String x (a +:+ s)).
  cbn [String.length]. now rewrite length_append.
Qed.

Lemma append_inj_r (a b s : string) : a +:+ s = b +:+ s -> a = b.
Proof.
  revert b. induction a as [|x a IH]; intros [|y b] H; [reflexivity| | |].
  - apply (f_equal String.length) in H. rewrite length_cons_append in H.
    change (EmptyString +:+ s) with s in H. lia.
  - apply (f_equal String.length) in H. rewrite length_cons_append in H.
    change (EmptyString +:+ s) with s in H. lia.
  - change (String x (a +:+ s) = String y (b +:+ s)) in H.
    inversion H; subst. f_equal. now apply IH.
Qed.

Lemma last_ch_app (a s : string) :
  s <> EmptyString -> last_ch (a +:+ s) = last_ch s.
Proof.
  intros Hs. induction a as [|x a IH]; [reflexivity|].
  change (last_ch (String x (a +:+ s)) = last_ch s).
  destruct (a +:+ s) as [|y t] eqn:E.
  - apply (f_equal String.length) in E. rewrite length_append in E. simpl in E.
    destruct s; [contradiction | simpl in E; lia].
  - rewrite <- IH. reflexivity.
Qed.

(** A key for a position is never a key for a scale. *)
Lemma transform_key_not_scale (a b : string) : a +:+ ".transform" <> b +:+ ".scale".
Proof.
  intros H. apply (f_equal last_ch) in H.
  rewrite !last_ch_app in H by discriminate. discriminate.
Qed.

Lemma object_transform_set_later
    (pos scale : node -> value) (post : list node) (key : string)
    (m : gmap string value) :
  (forall x, In x post ->
     Name x +:+ ".transform" <> key /\ Name x +:+ ".scale" <> key) ->
  fold_left
    (fun transform_set n =>
       <[Name n +:+ ".scale" := scale n]>
         (<[Name n +:+ ".transform" := pos n]> transform_set)) post m !! key
  = m !! key.
Proof.
  revert m. induction post as [|x post IH]; intros m H; [reflexivity|].
  simpl. rewrite IH by (intros y Hy; apply H; now right).
  destruct (H x (or_introl eq_refl)) as [H1 H2].
  now rewrite !lookup_insert_ne by assumption.
Qed.

(** X13: in the dictionary [object_transform_set] builds, a node's
    position and scale are found under its name followed by [.transform]
    and [.scale], provided no later node of the list has the same name;
    of two nodes with one name the later one is kept. *)
Theorem object_transform_set_lookup
    (pos scale : node -> value) (pre post : list node) (n : node) :
  (forall x, In x post -> Name x <> Name n) ->
  object_transform_set pos scale (pre ++ n :: post) !! (Name n +:+ ".transform")
  = Some (pos n) /\
  object_transform_set pos scale (pre ++ n :: post) !! (Name n +:+ ".scale")
  = Some (scale n).
Proof.
  intros Hpost. unfold object_transform_set. rewrite fold_left_app. simpl. split.
  - rewrite object_transform_set_later.
    + rewrite lookup_insert_ne by (intros H; symmetry in H;
                                   exact (transform_key_not_scale _ _ H)).
      apply lookup_insert_eq.
    + intros x Hx. split.
      * intros H. apply append_inj_r in H. exact (Hpost x Hx H).
      * intros H. symmetry in H. exact (transform_key_not_scale _ _ H).
  - rewrite object_transform_set_later; [apply lookup_insert_eq|].
    intros x Hx. split.
    + apply transform_key_not_scale.
    + intros H. apply append_inj_r in H. exact (Hpost x Hx H).
Qed.

Lemma object_transform_set_lookup_witness :
  object_transform_set (fun n => VInt (Z.of_nat (Handle n))) (fun _ => VInt 1)
    ([ex_node_a] ++ ex_node_c :: [mkNode 9 "a" []]) !! ("c" +:+ ".transform")
  = Some (VInt 3) /\
  object_transform_set (fun n => VInt (Z.of_nat (Handle n))) (fun _ => VInt 1)
    ([ex_node_a] ++ ex_node_c :: [mkNode 9 "a" []]) !! ("c" +:+ ".scale")
  = Some (VInt 1).
Proof.
  apply (object_transform_set_lookup (fun n => VInt (Z.of_nat (Handle n)))
           (fun _ => VInt 1) [ex_node_a] [mkNode 9 "a" []] ex_node_c).
  intros x [Hx|[]]. subst x. discriminate.
Defined.

(** ** [viewport_camera] and [viewport_preference_setting] *)

(** X14: whatever the body of [with viewport_camera(camera)] does, raising
    included: it is entered with the review camera in the viewport and
    [playPreviewWhenDone] off and nothing else changed; afterwards
    [playPreviewWhenDone] is what it was before the [with], the viewport
    is back on the camera it had -- or on the review camera when it had
    none -- everything else is as the body left it, and an exception of
    the body leaves the [with]. *)
Theorem viewport_camera_restores
    (s : scene) (ui : ui_state) (camera : string)
    (body : ui_state -> ui_state * option py_error) (has_autoplay : value) :
  preferences ui !! "playPreviewWhenDone" = Some has_autoplay ->
  let entered :=
    set_preferences (<["playPreviewWhenDone" := VBool false]> (preferences ui))
      (setCamera (Host.GetNodeByName s camera) ui) in
  let left := fst (body entered) in
  let final := fst (viewport_camera s ui camera body) in
  snd (viewport_camera s ui camera body) = snd (body entered) /\
  viewport_camera_node final
  = match viewport_camera_node ui with
    | Some c => Some c
    | None => Host.GetNodeByName s camera
    end /\
  preferences final !! "playPreviewWhenDone" = Some has_autoplay /\
  (forall key, key <> "playPreviewWhenDone" ->
               preferences final !! key = preferences left !! key) /\
  grid_visibility final = grid_visibility left /\
  solid_background final = solid_background left /\
  ViewportButtonMgr final = ViewportButtonMgr left /\
  viewport_setting final = viewport_setting left.
Proof.
  intros Hp. unfold viewport_camera. rewrite Hp. cbv zeta.
  destruct (body _) as [ui3 raised]. simpl.
  split; [reflexivity|]. split; [now destruct (viewport_camera_node ui)|].
  split; [apply lookup_insert_eq|].
  split; [intros key Hk; now rewrite lookup_insert_ne by congruence|].
  repeat split.
Qed.

Lemma viewport_camera_restores_witness :
  let body := fun u : ui_state => (setCamera None (set_preferences ∅ u), Some TypeError) in
  let final := fst (viewport_camera ex_camera_scene ex_ui "cam" body) in
  snd (viewport_camera ex_camera_scene ex_ui "cam" body) = Some TypeError /\
  viewport_camera_node final = Some ex_other_camera /\
  preferences final !! "playPreviewWhenDone" = Some (VBool true).
Proof.
  intros body final.
  destruct (viewport_camera_restores ex_camera_scene ex_ui "cam" body (VBool true)
              eq_refl) as (H1 & H2 & H3 & _).
  exact (conj H1 (conj H2 H3)).
Defined.

Lemma getattrs_Done (obj : gmap string value) (keys : list string) :
  (forall key, In key keys -> is_Some (obj !! key)) ->
  exists items, getattrs obj keys = Done items /\ map fst items = keys /\
                forall key v, In (key, v) items -> obj !! key = Some v.
Proof.
  induction keys as [|k keys IH]; intros H.
  - exists []. repeat split. intros key v [].
  - destruct (H k (or_introl eq_refl)) as [v Hv].
    destruct IH as (items & Hi & Hk & Hl); [intros key Hkey; apply H; now right|].
    exists ((k, v) :: items). simpl. rewrite Hv, Hi, Hk. repeat split.
    intros key v' [Heq|Hin]; [now inversion Heq; subst | now apply Hl].
Qed.

Lemma getattrs_Raised (obj : gmap string value) (keys : list string) :
  (exists key, In key keys /\ obj !! key = None) ->
  getattrs obj keys = Raised NoAttribute.
Proof.
  induction keys as [|k keys IH]; intros (key & Hin & Hnone); [destruct Hin|].
  simpl. destruct (obj !! k) as [v|] eqn:Hv; [|reflexivity].
  destruct Hin as [->|Hin]; [congruence|].
  rewrite IH by (exists key; now split).
  reflexivity.
Qed.

Lemma getattrs_error (obj : gmap string value) (keys : list string) (e : py_error) :
  getattrs obj keys = Raised e -> e = NoAttribute.
Proof.
  induction keys as [|k keys IH]; simpl; [discriminate|].
  destruct (obj !! k); [|congruence].
  destruct (getattrs obj keys); [discriminate|].
  intros H. inversion H; subst. now apply IH.
Qed.

Lemma setattrs_lookup_notin (items : list (string * value)) (key : string) :
  forall o : gmap string value,
  ~ In key (map fst items) -> setattrs o items !! key = o !! key.
Proof.
  induction items as [|[k v] items IH]; intros o Hn; [reflexivity|].
  unfold setattrs in *. simpl in *. rewrite IH by tauto.
  apply lookup_insert_ne. intros ->. tauto.
Qed.

(** Setting saved values back gives the saved object at the saved names. *)
Lemma setattrs_lookup_saved (obj : gmap string value)
    (items : list (string * value)) (key : string) :
  (forall k v, In (k, v) items -> obj !! k = Some v) ->
  In key (map fst items) ->
  forall o : gmap string value, setattrs o items !! key = obj !! key.
Proof.
  induction items as [|[k v] items IH]; intros Hsaved Hin o; [destruct Hin|].
  unfold setattrs in *. simpl in *.
  destruct (in_dec string_dec key (map fst items)) as [Hi|Hni].
  - apply IH; [intros k' v' H'; apply Hsaved; now right | exact Hi].
  - destruct Hin as [<-|Hi]; [|contradiction].
    pose proof (setattrs_lookup_notin items k (<[k := v]> o) Hni) as Hl.
    unfold setattrs in Hl. rewrite Hl, lookup_insert_eq.
    symmetry. apply Hsaved. now left.
Qed.

(** X15: when every attribute named in the three dictionaries exists,
    then after [with viewport_preference_setting(...)], whatever the body
    does and whether or not the [with] raises, each named attribute, the
    grid visibility and the background mode are what they were before --
    but the viewport stays on the review camera, also when another camera
    was active before. *)
Theorem viewport_preference_setting_restores
    (ne : value -> value -> bool) (s : scene) (ui : ui_state) (camera : string)
    (general_viewport : gmap string value)
    (nitrous_viewport vp_button_mgr preview_preferences : list (string * value))
    (body : ui_state -> ui_state * option py_error) :
  (forall key, In key (map fst vp_button_mgr) ->
     is_Some (ViewportButtonMgr ui !! key)) ->
  (forall key, In key (map fst nitrous_viewport) ->
     is_Some (viewport_setting ui !! key)) ->
  (forall key, In key (map fst preview_preferences) ->
     is_Some (preferences ui !! key)) ->
  let final :=
    fst (viewport_preference_setting ne s ui camera general_viewport
           nitrous_viewport vp_button_mgr preview_preferences body) in
  viewport_camera_node final = Host.GetNodeByName s camera /\
  grid_visibility final = grid_visibility ui /\
  solid_background final = solid_background ui /\
  (forall key, In key (map fst vp_button_mgr) ->
     ViewportButtonMgr final !! key = ViewportButtonMgr ui !! key) /\
  (forall key, In key (map fst nitrous_viewport) ->
     viewport_setting final !! key = viewport_setting ui !! key) /\
  (forall key, In key (map fst preview_preferences) ->
     preferences final !! key = preferences ui !! key).
Proof.
  intros Hb Hn Hp. unfold viewport_preference_setting.
  destruct (getattrs_Done _ _ Hb) as (ib & -> & Hkb & Hsb).
  destruct (getattrs_Done _ _ Hn) as (inn & -> & Hkn & Hsn).
  destruct (getattrs_Done _ _ Hp) as (ip & -> & Hkp & Hsp).
  match goal with
  | |- context [let '(a, b) := ?e in _] => destruct e as [ui_try raised]
  end.
  cbv zeta. simpl. repeat split.
  - intros key Hkey. apply setattrs_lookup_saved; [exact Hsb | now rewrite Hkb].
  - intros key Hkey. apply setattrs_lookup_saved; [exact Hsn | now rewrite Hkn].
  - intros key Hkey. apply setattrs_lookup_saved; [exact Hsp | now rewrite Hkp].
Qed.

Lemma viewport_preference_setting_restores_witness :
  let final :=
    fst (viewport_preference_setting (fun _ _ => true) ex_camera_scene ex_ui "cam"
           {["dspGrid" := VBool false]}
           [("VisualStyleMode", VStr "Shaded")] [("EnableButtons", VBool false)]
           [("percentSize", VInt 100)]
           (fun u => (setCamera None u, None))) in
  viewport_camera_node final = Some ex_camera /\
  grid_visibility final = VBool true /\
  viewport_setting final !! "VisualStyleMode" = Some (VStr "Realistic").
Proof.
  intros final.
  destruct (viewport_preference_setting_restores (fun _ _ => true) ex_camera_scene
              ex_ui "cam" {["dspGrid" := VBool false]}
              [("VisualStyleMode", VStr "Shaded")] [("EnableButtons", VBool false)]
              [("percentSize", VInt 100)] (fun u => (setCamera None u, None)))
    as (H1 & H2 & _ & _ & H5 & _).
  - intros key [<-|[]]. now eexists.
  - intros key [<-|[]]. now eexists.
  - intros key [<-|[]]. now eexists.
  - exact (conj H1 (conj H2 (H5 "VisualStyleMode" (or_introl eq_refl)))).
Defined.

(** X16: when an attribute named in one of the three dictionaries does not
    exist, [viewport_preference_setting] raises before it changes
    anything, and the body is not run. *)
Theorem viewport_preference_setting_missing_attribute
    (ne : value -> value -> bool) (s : scene) (ui : ui_state) (camera : string)
    (general_viewport : gmap string value)
    (nitrous_viewport vp_button_mgr preview_preferences : list (string * value))
    (body : ui_state -> ui_state * option py_error) :
  (exists key, In key (map fst vp_button_mgr) /\ ViewportButtonMgr ui !! key = None)
  \/ (exists key, In key (map fst nitrous_viewport) /\ viewport_setting ui !! key = None)
  \/ (exists key, In key (map fst preview_preferences) /\ preferences ui !! key = None) ->
  viewport_preference_setting ne s ui camera general_viewport
    nitrous_viewport vp_button_mgr preview_preferences body
  = (ui, Some NoAttribute).
Proof.
  intros H. unfold viewport_preference_setting.
  destruct (getattrs (ViewportButtonMgr ui) (map fst vp_button_mgr)) as [ib|e] eqn:Eb;
    [|now rewrite (getattrs_error _ _ _ Eb)].
  destruct (getattrs (viewport_setting ui) (map fst nitrous_viewport)) as [inn|e] eqn:En;
    [|now rewrite (getattrs_error _ _ _ En)].
  destruct (getattrs (preferences ui) (map fst preview_preferences)) as [ip|e] eqn:Ep;
    [|now rewrite (getattrs_error _ _ _ Ep)].
  destruct H as [H|[H|H]]; apply getattrs_Raised in H; congruence.
Qed.

Lemma viewport_preference_setting_missing_attribute_witness :
  viewport_preference_setting (fun _ _ => true) ex_camera_scene ex_ui "cam" ∅
    [] [("NoSuchButton", VBool false)] [] (fun u => (setCamera None u, None))
  = (ex_ui, Some NoAttribute).
Proof.
  apply viewport_preference_setting_missing_attribute.
  left. exists "NoSuchButton". split; [now left | reflexivity].
Defined.

(** ** [unique_namespace] always returns *)

Lemma append_inj_l (a x y : string) : a +:+ x = a +:+ y -> x = y.
Proof.
  induction a as [|c a IH]; intros H; [exact H|].
  change (String c (a +:+ x) = String c (a +:+ y)) in H.
  inversion H. now apply IH.
Qed.

Lemma digits_value_str_of_Z (z : Z) : 0 <= z -> digits_value (str_of_Z z) = Z.to_N z.
Proof.
  intros Hz. destruct z as [|p|p]; [reflexivity| |lia].
  unfold str_of_Z, digits_value. simpl Z.to_int. cbn [NilZero.string_of_int].
  pose proof (DecimalPos.Unsigned.to_uint_nonnil p) as Hnn.
  assert (E : NilZero.string_of_uint (Pos.to_uint p)
              = NilEmpty.string_of_uint (Pos.to_uint p))
    by (destruct (Pos.to_uint p); [contradiction | reflexivity ..]).
  rewrite E, NilEmpty.usu, DecimalPos.Unsigned.of_to. reflexivity.
Qed.

Lemma digits_value_zero (t : string) : digits_value ("0" +:+ t) = digits_value t.
Proof.
  change ("0" +:+ t) with (String "0" t). unfold digits_value.
  cbn [NilEmpty.uint_of_string]. destruct (NilEmpty.uint_of_string t); reflexivity.
Qed.

Lemma digits_value_format_02d (i : nat) : digits_value (format_02d i) = N.of_nat i.
Proof.
  unfold format_02d.
  destruct (String.length (str_of_Z (Z.of_nat i)) <? 2)%nat;
    rewrite ?digits_value_zero, digits_value_str_of_Z by lia; lia.
Qed.

(** Two numbers that print the same with [%02d] are the same. *)
Lemma format_02d_inj (i j : nat) : format_02d i = format_02d j -> i = j.
Proof.
  intros H. apply (f_equal digits_value) in H.
  rewrite !digits_value_format_02d in H. lia.
Qed.

Lemma container_name_of_inj (namespace : string) (format : nat -> string)
    (prefix suffix con_suffix : string) (i j : nat) :
  (forall a b, format a = format b -> a = b) ->
  container_name_of namespace format prefix suffix con_suffix i
  = container_name_of namespace format prefix suffix con_suffix j -> i = j.
Proof.
  intros Hinj H. unfold container_name_of, unique_of in H.
  apply append_inj_r, append_inj_l, append_inj_r, append_inj_l in H.
  now apply Hinj.
Qed.

(** When the rounds run out, every name probed was taken. *)
Lemma unique_namespace_loop_None
    (s : scene) (namespace : string) (format : nat -> string)
    (prefix suffix con_suffix start end_ : string) (fuel : nat) :
  forall i0,
  unique_namespace_loop fuel s namespace format prefix suffix con_suffix start end_ i0
  = None ->
  forall i, (i0 <= i < i0 + fuel)%nat ->
  Host.GetNodeByName s (container_name_of namespace format prefix suffix con_suffix i)
  <> None.
Proof.
  induction fuel as [|fuel IH]; intros i0 H i Hi; [lia|].
  simpl in H.
  destruct (Host.GetNodeByName s
              (container_name_of namespace format prefix suffix con_suffix i0))
    as [n|] eqn:E; [|discriminate].
  destruct (Nat.eq_dec i i0) as [->|Hne]; [now rewrite E|].
  apply (IH (S i0) H). lia.
Qed.

Lemma NoDup_map_inj {A B : Type} (f : A -> B) (l : list A) :
  (forall a b, f a = f b -> a = b) -> List.NoDup l -> List.NoDup (map f l).
Proof.
  intros Hinj H. induction H as [|a l Hnin Hnd IH]; simpl; constructor; [|exact IH].
  intros Hin. apply in_map_iff in Hin. destruct Hin as (b & Hb & Hbl).
  apply Hinj in Hb. now subst.
Qed.

(** X17: with the default format [%02d], the loop of [unique_namespace]
    always comes to an end: in a scene of [N] nodes it returns a namespace
    within [N + 1] rounds, whatever the namespace, prefix and suffixes. *)
Theorem unique_namespace_returns
    (fuel : nat) (s : scene) (namespace prefix suffix con_suffix : string) :
  (length (Host.scene_nodes s) < fuel)%nat ->
  exists r,
    unique_namespace fuel s namespace format_02d prefix suffix con_suffix = Some r.
Proof.
  intros Hfuel. unfold unique_namespace.
  destruct (namespace_parts namespace) as [[[start end_] namespace1] ROOT].
  destruct (unique_namespace_loop fuel s namespace1 format_02d prefix suffix
              con_suffix start end_ 1) as [r|] eqn:E; [now exists r|].
  exfalso.
  pose proof (unique_namespace_loop_None _ _ _ _ _ _ _ _ _ _ E) as Htaken.
  set (c := container_name_of namespace1 format_02d prefix suffix con_suffix) in *.
  set (names := map c (seq 1 (S (length (Host.scene_nodes s))))).
  assert (Hnd : List.NoDup names).
  { apply NoDup_map_inj; [|apply List.seq_NoDup].
    intros a b Hab. exact (container_name_of_inj _ _ _ _ _ a b format_02d_inj Hab). }
  assert (Hincl : incl names (map Name (Host.scene_nodes s))).
  { intros nm Hnm. apply in_map_iff in Hnm. destruct Hnm as (i & <- & Hi).
    apply in_seq in Hi.
    destruct (Host.GetNodeByName s (c i)) as [n|] eqn:En.
    - apply GetNodeByName_Some in En. destruct En as [Hin Hname].
      apply in_map_iff. now exists n.
    - exfalso. apply (Htaken i); [lia | exact En]. }
  pose proof (List.NoDup_incl_length Hnd Hincl) as Hlen.
  unfold names in Hlen. rewrite !length_map, length_seq in Hlen. lia.
Qed.

Lemma unique_namespace_returns_witness :
  exists r,
    unique_namespace 4 (ex_named_scene ["bar01:barCON"; "bar02:barCON"]) "bar"
      format_02d "" "" "CON" = Some r.
Proof.
  apply (unique_namespace_returns 4 (ex_named_scene ["bar01:barCON"; "bar02:barCON"])
           "bar" "" "" "CON").
  vm_compute. lia.
Defined.

(** ** The keys [read] returns *)

Lemma line_binds_true (k line : string) :
  line_binds k line = true <->
  exists key value0, PyStr.split_ch "=" line = [key; value0] /\ PyStr.strip key = k.
Proof.
  unfold line_binds. split.
  - destruct (PyStr.split_ch "=" line) as [|key [|value0 [|x rest]]]; try discriminate.
    intros H. apply String.eqb_eq in H. now exists key, value0.
  - intros (key & value0 & -> & <-). apply String.eqb_refl.
Qed.

Lemma read_line_binds (data : gmap string value) (k line : string) :
  line_binds k line = true -> is_Some (read_line data line !! k).
Proof.
  intros H. apply line_binds_true in H. destruct H as (key & value0 & Hs & <-).
  unfold read_line. rewrite Hs. rewrite lookup_insert_eq. now eexists.
Qed.

Lemma fold_read_line_domain (lines : list string) (k : string) :
  forall data : gmap string value,
  is_Some (fold_left read_line lines data !! k) <->
  is_Some (data !! k) \/ exists line, In line lines /\ line_binds k line = true.
Proof.
  induction lines as [|l lines IH]; intros data; simpl.
  - split; [now left | intros [H|(line & [] & _)]; exact H].
  - rewrite IH. split.
    + intros [H|(line & Hin & Hb)].
      * destruct (line_binds k l) eqn:Hl.
        -- right. exists l. split; [now left | exact Hl].
        -- left. now rewrite (read_line_other data k l Hl) in H.
      * right. exists line. split; [now right | exact Hb].
    + intros [H|(line & [<-|Hin] & Hb)].
      * left. destruct (line_binds k l) eqn:Hl.
        -- now apply read_line_binds.
        -- now rewrite (read_line_other data k l Hl).
      * left. now apply read_line_binds.
      * right. now exists line.
Qed.

(** X18: the keys of the mapping [read] returns are exactly, when the
    property buffer is not empty, [instance_node] and the stripped left
    parts of the buffer lines that hold one [=] and no more; a line with
    no [=] or with several gives no key, and an empty buffer gives none
    at all. *)
Theorem read_keys (s : scene) (container : node) (k : string) :
  is_Some (read s container !! k) <->
  Host.GetUserPropBuffer s container <> EmptyString /\
  (k = "instance_node" \/
   exists line key value0,
     In line (PyStr.split_crlf (Host.GetUserPropBuffer s container)) /\
     PyStr.split_ch "=" line = [key; value0] /\ PyStr.strip key = k).
Proof.
  unfold read. destruct (Host.GetUserPropBuffer s container) as [|a buf] eqn:E.
  - rewrite lookup_empty. split; [intros [x Hx]; discriminate | intros [H _]; congruence].
  - destruct (String.eqb_spec k "instance_node") as [->|Hk].
    + rewrite lookup_insert_eq. split; [intros _; split; [discriminate | now left]|].
      intros _. now eexists.
    + rewrite lookup_insert_ne by congruence. unfold parse_buffer.
      rewrite fold_read_line_domain, lookup_empty. split.
      * intros [[x Hx]|(line & Hin & Hb)]; [discriminate|].
        split; [discriminate|]. right. apply line_binds_true in Hb.
        destruct Hb as (key & value0 & Hs & Hkey). now exists line, key, value0.
      * intros [_ [Hi|(line & key & value0 & Hin & Hs & Hkey)]]; [contradiction|].
        right. exists line. split; [exact Hin|]. apply line_binds_true.
        now exists key, value0.
Qed.

(** X19: when several lines of the buffer give the same key, [read]
    returns the value of the last of them: a line [key=value] after which
    no line gives the same stripped key decides the entry, which is the
    value stripped, parsed when it carries the marker, and converted when
    it is a boolean literal. *)
Theorem read_last_line_wins
    (s : scene) (container : node) (pre post : list string) (line key value0 : string) :
  PyStr.split_crlf (Host.GetUserPropBuffer s container) = (pre ++ line :: post)%list ->
  PyStr.split_ch "=" line = [key; value0] ->
  Forall (fun l => line_binds (PyStr.strip key) l = false) post ->
  PyStr.strip key <> "instance_node" ->
  read s container !! PyStr.strip key
  = Some (convert_boolean (parse_marked (PyStr.strip value0))).
Proof.
  intros Hsplit Hline Hpost Hk.
  apply (read_lookup_line s container pre post line); try assumption.
  intros d. unfold read_line. now rewrite Hline.
Qed.

Lemma read_last_line_wins_witness :
  read (ex_scene ("a=1" +:+ PyStr.CRLF +:+ "b=x" +:+ PyStr.CRLF +:+ " a = true "))
    ex_container !! PyStr.strip " a "
  = Some (convert_boolean (parse_marked (PyStr.strip " true "))).
Proof.
  apply (read_last_line_wins
           (ex_scene ("a=1" +:+ PyStr.CRLF +:+ "b=x" +:+ PyStr.CRLF +:+ " a = true "))
           ex_container ["a=1"; "b=x"] [] " a = true " " a " " true ");
    [reflexivity | reflexivity | constructor | discriminate].
Defined.

(** ** [publish_review_animation] *)

(** A text is cut at its first colon in one way only. *)
Lemma colon_split_inj (a b x y : string) :
  PyStr.contains_ch ":" a = false -> PyStr.contains_ch ":" b = false ->
  a +:+ ":" +:+ x = b +:+ ":" +:+ y -> a = b /\ x = y.
Proof.
  revert b. induction a as [|c a IH]; intros [|d b] Ha Hb H.
  - change (String ":" x = String ":" y) in H. inversion H. now split.
  - change (String ":" x = String d (b +:+ ":" +:+ y)) in H. inversion H; subst.
    simpl in Hb. discriminate.
  - change (String c (a +:+ ":" +:+ x) = String ":" y) in H. inversion H; subst.
    simpl in Ha. discriminate.
  - change (String c (a +:+ ":" +:+ x) = String d (b +:+ ":" +:+ y)) in H.
    inversion H; subst. simpl in Ha, Hb.
    apply orb_false_elim in Ha. apply orb_false_elim in Hb.
    destruct (IH b (proj2 Ha) (proj2 Hb) H2) as [-> ->]. now split.
Qed.

Lemma options_no_colon (key : string) :
  In key options -> PyStr.contains_ch ":" key = false.
Proof.
  intros H. unfold options in H.
  repeat (destruct H as [<-|H]; [reflexivity|]). destruct H.
Qed.

(** The loop over the options adds one argument for each option that
    counts as true. *)
Lemma fold_options (py_str : value -> string) (data : gmap string value)
    (keys : list string) (acc : list string) :
  fold_left
    (fun job_args key =>
       let enabled := dict_get data key VNone in
       if truthy enabled then (job_args ++ [key +:+ ":" +:+ py_str enabled])%list
       else job_args) keys acc
  = (acc ++ flat_map
       (fun key =>
          if truthy (dict_get data key VNone)
          then [key +:+ ":" +:+ py_str (dict_get data key VNone)] else []) keys)%list.
Proof.
  revert acc. induction keys as [|k keys IH]; intros acc; simpl.
  - now rewrite app_nil_r.
  - rewrite IH. destruct (truthy (dict_get data k VNone)); simpl;
      [now rewrite <- app_assoc | reflexivity].
Qed.

Lemma not_an_option_named (p rest : string) :
  PyStr.contains_ch ":" p = false -> ~ In p options ->
  not_an_option (p +:+ ":" +:+ rest).
Proof. intros H1 H2. now exists p, rest. Qed.

Lemma not_an_option_neq (arg key w : string) :
  not_an_option arg -> In key options -> arg <> key +:+ ":" +:+ w.
Proof.
  intros (p & rest & -> & Hp & Hnot) Hkey H.
  apply colon_split_inj in H; [|exact Hp | now apply options_no_colon].
  destruct H as [-> _]. contradiction.
Qed.

Ltac not_option_name :=
  unfold options; simpl;
  repeat (let H := fresh in intros [H|H]; [discriminate H | revert H]);
  intros [].

(** The shape of the arguments: the two fixed ones, one for each option
    that counts as true, then arguments that are no options. *)
Lemma job_args_shape (py_str : value -> string) (lower : string -> string)
    (data : gmap string value) (filepath : string) (start end_ fps : value)
    (args : list string) :
  job_args_of py_str lower data filepath start end_ fps = Done args ->
  exists head tail,
    args = (head ++ flat_map
              (fun key =>
                 if truthy (dict_get data key VNone)
                 then [key +:+ ":" +:+ py_str (dict_get data key VNone)] else [])
              options ++ tail)%list /\
    Forall not_an_option head /\ Forall not_an_option tail.
Proof.
  unfold job_args_of. rewrite fold_options.
  set (opts := flat_map _ options).
  set (d := "CreatePreview filename:" +:+ _).
  set (f := "outputAVI:false start:" +:+ _).
  assert (Hd : not_an_option d).
  { apply (not_an_option_named "CreatePreview filename");
      [reflexivity | not_option_name]. }
  assert (Hf : not_an_option f).
  { apply (not_an_option_named "outputAVI"); [reflexivity | not_option_name]. }
  assert (Hs : forall x, not_an_option ("vpStyle:#" +:+ x)).
  { intros x. apply (not_an_option_named "vpStyle" ("#" +:+ x));
      [reflexivity | not_option_name]. }
  assert (Hp : forall x, not_an_option ("vpPreset:#" +:+ x)).
  { intros x. apply (not_an_option_named "vpPreset" ("#" +:+ x));
      [reflexivity | not_option_name]. }
  assert (Ht : forall x, not_an_option ("vpTexture:" +:+ x)).
  { intros x. apply (not_an_option_named "vpTexture" x);
      [reflexivity | not_option_name]. }
  destruct (if eq_text _ "Realistic" then _ else _) as [style|e]; [|discriminate].
  destruct (if eq_text _ "Quality" then _ else _) as [preset|e]; [|discriminate].
  destruct (truthy (dict_get data "vpTexture" (VBool true)));
    intros H; inversion H; subst; clear H; exists [d; f].
  - exists ["vpStyle:#" +:+ style; "vpPreset:#" +:+ preset;
            "vpTexture:" +:+ py_str (dict_get data "vpTexture" (VBool true))].
    split; [simpl; rewrite <- !app_assoc; reflexivity|].
    split; repeat constructor; auto.
  - exists ["vpStyle:#" +:+ style; "vpPreset:#" +:+ preset].
    split; [simpl; rewrite <- !app_assoc; reflexivity|].
    split; repeat constructor; auto.
Qed.

(** X20: in the arguments [publish_review_animation] joins, an option of
    the preview appears -- as [key:value] -- exactly when the instance
    data give it a value that counts as true; an option set to [False],
    to 0 or to an empty text is left out like one that is missing, so the
    command never carries an option switched off. *)
Theorem job_args_options
    (py_str : value -> string) (lower : string -> string)
    (data : gmap string value) (filepath : string) (start end_ fps : value)
    (args : list string) (key w : string) :
  job_args_of py_str lower data filepath start end_ fps = Done args ->
  In key options ->
  (In (key +:+ ":" +:+ w) args <->
   exists v, data !! key = Some v /\ truthy v = true /\ w = py_str v).
Proof.
  intros Hargs Hkey.
  destruct (job_args_shape _ _ _ _ _ _ _ _ Hargs) as (head & tail & -> & Hh & Ht).
  rewrite !in_app_iff, in_flat_map. split.
  - intros [Hin|[(key' & Hkey' & Hin)|Hin]].
    + exfalso. rewrite List.Forall_forall in Hh.
      exact (not_an_option_neq _ key w (Hh _ Hin) Hkey eq_refl).
    + destruct (truthy (dict_get data key' VNone)) eqn:Htr; [|destruct Hin].
      destruct Hin as [Heq|[]].
      apply colon_split_inj in Heq; try now apply options_no_colon.
      destruct Heq as [-> <-]. unfold dict_get in *.
      destruct (data !! key) as [v|]; [|discriminate].
      now exists v.
    + exfalso. rewrite List.Forall_forall in Ht.
      exact (not_an_option_neq _ key w (Ht _ Hin) Hkey eq_refl).
  - intros (v & Hv & Htr & ->). right. left. exists key. split; [exact Hkey|].
    unfold dict_get. rewrite Hv. simpl. rewrite Htr. now left.
Qed.

Lemma job_args_options_witness :
  In ("dspGrid" +:+ ":" +:+ "True")
     ["CreatePreview filename:" +:+ String Json.DQUOTE ("out.avi" +:+ String Json.DQUOTE "");
      "outputAVI:false start:1 end:1 fps:1"; "dspGrid:True";
      "vpStyle:#defaultshading"; "vpPreset:#highquality"; "vpTexture:True"] <->
  exists v,
    (<["dspGrid" := VBool true]> (<["dspBkg" := VBool false]>
       (<["visualStyleMode" := VStr "Realistic"]>
          (<["viewportPreset" := VStr "Quality"]> ∅))) : gmap string value) !! "dspGrid"
    = Some v /\ truthy v = true /\
    "True" = (fun v => match v with VBool true => "True" | _ => "1" end) v.
Proof.
  apply (job_args_options
           (fun v => match v with VBool true => "True" | _ => "1" end) (fun t => t)
           (<["dspGrid" := VBool true]> (<["dspBkg" := VBool false]>
              (<["visualStyleMode" := VStr "Realistic"]>
                 (<["viewportPreset" := VStr "Quality"]> ∅))))
           "out.avi" (VInt 1) (VInt 1) (VInt 1)).
  - vm_compute. reflexivity.
  - unfold options. simpl. tauto.
Defined.

Lemma dict_get_text (data : gmap string value) (key t : string) :
  dict_get data key VNone = VStr t <-> data !! key = Some (VStr t).
Proof.
  unfold dict_get. destruct (data !! key) as [v|]; simpl; split; intros H;
    try discriminate; [now subst | now inversion H].
Qed.

(** [job_args_of] gives its list when both presets are texts and raises
    otherwise. *)
Lemma job_args_of_cases (py_str : value -> string) (lower : string -> string)
    (data : gmap string value) (filepath : string) (start end_ fps : value) :
  ((exists t, dict_get data "visualStyleMode" VNone = VStr t) /\
   (exists t, dict_get data "viewportPreset" VNone = VStr t) /\
   exists args, job_args_of py_str lower data filepath start end_ fps = Done args)
  \/
  (~ ((exists t, dict_get data "visualStyleMode" VNone = VStr t) /\
      (exists t, dict_get data "viewportPreset" VNone = VStr t)) /\
   job_args_of py_str lower data filepath start end_ fps = Raised NoAttribute).
Proof.
  unfold job_args_of. rewrite fold_options.
  set (opts := flat_map _ options). clearbody opts.
  set (d := "CreatePreview filename:" +:+ _). clearbody d.
  set (f := "outputAVI:false start:" +:+ _). clearbody f.
  set (tex := dict_get data "vpTexture" (VBool true)). clearbody tex.
  assert (Hno : forall v : value, (forall t, v <> VStr t) ->
            forall w : value, ~ ((exists t, v = VStr t) /\ (exists t, w = VStr t)))
    by (intros v Hv w [[t Ht] _]; exact (Hv t Ht)).
  assert (Hno2 : forall w : value, (forall t, w <> VStr t) ->
            forall v : value, ~ ((exists t, v = VStr t) /\ (exists t, w = VStr t)))
    by (intros w Hw v [_ [t Ht]]; exact (Hw t Ht)).
  destruct (dict_get data "visualStyleMode" VNone) as [|b|z|t|l|dd|j];
    try (right; split; [apply Hno; intros t Ht; discriminate Ht | reflexivity]).
  assert (Hstyle : exists style,
             (if eq_text (VStr t) "Realistic" then Done "defaultshading"
              else lower_of lower (VStr t)) = Done style)
    by (simpl; destruct (String.eqb t "Realistic"); eexists; reflexivity).
  destruct Hstyle as [style ->].
  destruct (dict_get data "viewportPreset" VNone) as [|b|z|t'|l|dd|j];
    try (right; split; [apply Hno2; intros t0 Ht; discriminate Ht | reflexivity]).
  assert (Hpreset : exists preset,
             (if eq_text (VStr t') "Quality" then Done "highquality"
              else if eq_text (VStr t') "Customize" then Done "userdefined"
              else lower_of lower (VStr t')) = Done preset)
    by (simpl; destruct (String.eqb t' "Quality"), (String.eqb t' "Customize");
        eexists; reflexivity).
  destruct Hpreset as [preset ->].
  left. split; [now exists t|]. split; [now exists t'|].
  destruct (truthy tex); eexists; reflexivity.
Qed.

